(** * JarvisBrain: the RAG pipeline and the vector store

    A shallow embedding of
    - [src/core/rag/document_processor.py] (class [DocumentProcessor]),
    - [src/core/memory/vector_store.py]    (class [VectorStore]),
    - [src/core/rag/retriever.py]          (class [ContentRetriever]),
    followed by the properties of the specification that concern them.

    Conventions.
    - A Python [int] is a [Z]; positions, sizes and ids are never truncated to
      [nat] before the code itself would do so.
    - A Python [str] is a [string]; each character stands for one code point
      below 256.
    - A Python [dict] with string keys is a [gmap string pyval].
    - A call that can raise returns a [result]; a method that mutates [self]
      before it may raise returns the final object next to the [result].
    - The [while] loop of the chunker takes a fuel argument: [None] means the
      fuel ran out before the loop left, never an answer of the program.
    - Every modelled method wraps its body in [try: ... except Exception as
      e: log; raise]: the handler passes the exception on, so it is not
      shown.  The one handler that does something else, in
      [_rerank_results], is modelled.
    - Third-party calls (numpy, faiss, hashlib, the embedding service, the
      store behind the retriever) are modelled by their contract; each such
      place says so.  Where a call promises nothing (the digits [str]
      prints for a float, a read outside an index), its outcome is a
      parameter.
    - The metadata list of the vector store is a list of dictionary
      values.  The store itself holds references, to the caller's own
      dictionaries where metadata was given; what depends on two entries
      being one object is not stated for it. *)

From Stdlib Require Import ZArith String Ascii List Lia QArith DecimalString
  Sorted.
From stdpp Require Import gmap strings list.

Open Scope string_scope.
Open Scope Z_scope.

(* ===================================================================== *)
(** * Part I: the program *)
(* ===================================================================== *)

(** ** Exceptions and results *)

(** The Python exception classes that the modelled code can meet. *)
Inductive exn : Type :=
| ValueError
| AssertionError
| KeyError
| IndexError
| TypeError
| RuntimeError
| OSError
| UnpicklingError
| ServiceError.

Inductive result (A : Type) : Type :=
| Ok (a : A)
| Raise (e : exn).
Arguments Ok {A} a.
Arguments Raise {A} e.

#[global] Instance result_ret : MRet result := fun A a => Ok a.

#[global] Instance result_bind : MBind result := fun A B k r =>
  match r with
  | Ok a => k a
  | Raise e => Raise e
  end.

(** A list comprehension whose element expression can raise: the first
    exception, in iteration order, ends it. *)
Fixpoint mapM {A B} (f : A -> result B) (l : list A) : result (list B) :=
  match l with
  | [] => Ok []
  | a :: l' => b ← f a; bs ← mapM f l'; Ok (b :: bs)
  end.

(** [[x for x in l if p(x)]] where the condition can raise. *)
Fixpoint filterM {A} (p : A -> result bool) (l : list A) : result (list A) :=
  match l with
  | [] => Ok []
  | a :: l' =>
      keep ← p a;
      rest ← filterM p l';
      Ok (if keep : bool then a :: rest else rest)
  end.

(** ** Python built-ins *)

Module Py.

(** [len(s)] *)
Definition len (s : string) : Z := Z.of_nat (String.length s).

Definition chars (s : string) : list ascii := list_ascii_of_string s.
Definition str_of (l : list ascii) : string := string_of_list_ascii l.

(** A slice bound brought into [0, n], as [PySlice_AdjustIndices] does for
    step 1: a negative bound counts from the end. *)
Definition adjust (n i : Z) : Z :=
  if i <? 0 then Z.max 0 (i + n) else Z.min i n.

(** [l[lo:hi]] on a list; [None] is an omitted bound. *)
Definition list_slice {A} (l : list A) (lo hi : option Z) : list A :=
  let n := Z.of_nat (length l) in
  let a := match lo with None => 0 | Some i => adjust n i end in
  let b := match hi with None => n | Some j => adjust n j end in
  take (Z.to_nat (b - a)) (drop (Z.to_nat a) l).

(** [s[lo:hi]] on a string. *)
Definition slice (s : string) (lo hi : option Z) : string :=
  str_of (list_slice (chars s) lo hi).

(** [c.isspace()] for a code point below 256; it is also what [\s] matches
    in a [str] pattern: TAB..CR, FS..US, space, NEL and NBSP. *)
Definition isspace (c : ascii) : bool :=
  let n := Z.of_nat (nat_of_ascii c) in
  ((9 <=? n) && (n <=? 13)) || ((28 <=? n) && (n <=? 32))
  || (n =? 133) || (n =? 160).

Fixpoint lstrip (l : list ascii) : list ascii :=
  match l with
  | c :: l' => if isspace c then lstrip l' else l
  | [] => []
  end.

Definition rstrip (l : list ascii) : list ascii := rev (lstrip (rev l)).

(** [s.strip()] *)
Definition strip (s : string) : string := str_of (rstrip (lstrip (chars s))).

(** [sep.join(parts)] *)
Fixpoint join (sep : string) (parts : list string) : string :=
  match parts with
  | [] => ""
  | [p] => p
  | p :: rest => p ++ sep ++ join sep rest
  end.

(** [s.split(sep)] for a one-character separator. *)
Fixpoint split_chars (sep : ascii) (l : list ascii) : list (list ascii) :=
  match l with
  | [] => [[]]
  | c :: l' =>
      if Ascii.eqb c sep then [] :: split_chars sep l'
      else match split_chars sep l' with
           | h :: t => (c :: h) :: t
           | [] => [[c]]
           end
  end.

Definition split (sep : ascii) (s : string) : list string :=
  map str_of (split_chars sep (chars s)).

(** [s.replace(CRLF, LF)] *)
Fixpoint replace_crlf (l : list ascii) : list ascii :=
  match l with
  | [] => []
  | c :: l' =>
      match l' with
      | d :: l'' =>
          if Ascii.eqb c "013" && Ascii.eqb d "010"
          then "010"%char :: replace_crlf l''
          else c :: replace_crlf l'
      | [] => [c]
      end
  end.

(** [s.replace(CR, LF)] *)
Definition replace_cr (l : list ascii) : list ascii :=
  map (fun c => if Ascii.eqb c "013" then "010"%char else c) l.

(** [x or y] on integers, where [None] and [0] are falsy. *)
Definition or_int (x : option Z) (y : Z) : Z :=
  match x with
  | Some n => if n =? 0 then y else n
  | None => y
  end.

(** [str(n)] for an integer. *)
Definition str_of_int (n : Z) : string := NilZero.string_of_int (Z.to_int n).

End Py.

(** ** The compiled patterns of [DocumentProcessor.patterns] *)

Module Re.

(** Length of the longest prefix whose characters satisfy [p]. *)
Fixpoint span (p : ascii -> bool) (l : list ascii) : nat :=
  match l with
  | c :: l' => if p c then S (span p l') else O
  | [] => O
  end.

(** [[.!?]] *)
Definition is_terminator (c : ascii) : bool :=
  Ascii.eqb c "." || Ascii.eqb c "!" || Ascii.eqb c "?".

(** The character class of the two quotes, double and single. *)
Definition is_quote (c : ascii) : bool :=
  Ascii.eqb c "034" || Ascii.eqb c "'".

(** The sentence pattern (one or more of [.!?], an optional quote, one or
    more [\s]) anchored at the head of [l], returning
    the length of the match.  The three character classes are pairwise
    disjoint, so the greedy choice is the only one that can succeed:
    giving back a terminator or the quote leaves a character that neither
    the quote nor [\s] accepts. *)
Definition sentence_here (l : list ascii) : option nat :=
  let k := span is_terminator l in
  match k with
  | O => None
  | S _ =>
      let after := drop k l in
      let q := match after with
               | c :: _ => if is_quote c then 1%nat else O
               | [] => O
               end in
      let w := span Py.isspace (drop q after) in
      match w with
      | O => None
      | S _ => Some (k + q + w)%nat
      end
  end.

(** Leftmost match in [l], whose head sits at position [i]. *)
Fixpoint sentence_scan (l : list ascii) (i : nat) : option (nat * nat) :=
  match l with
  | [] => None
  | _ :: l' =>
      match sentence_here l with
      | Some n => Some (i, (i + n)%nat)
      | None => sentence_scan l' (S i)
      end
  end.

(** [pos] and [endpos] of [Pattern.search] are clipped to [0, len]. *)
Definition clip (n i : Z) : Z :=
  if i <? 0 then 0 else if n <? i then n else i.

(** [patterns['sentence'].search(text, pos, endpos)]: the span
    [(m.start(), m.end())] of the leftmost match inside the window, the
    text being read as if it ended at [endpos]. *)
Definition sentence_search (text : string) (pos endpos : Z)
  : option (Z * Z) :=
  let n := Py.len text in
  let p := Z.to_nat (clip n pos) in
  let e := Z.to_nat (clip n endpos) in
  match sentence_scan (take (e - p)%nat (drop p (Py.chars text))) p with
  | Some (a, b) => Some (Z.of_nat a, Z.of_nat b)
  | None => None
  end.

(** [patterns['whitespace'].sub(' ', text)]: every maximal run of
    whitespace becomes one space.  [in_run] tells whether the previous
    character belonged to a run. *)
Fixpoint whitespace_sub (in_run : bool) (l : list ascii) : list ascii :=
  match l with
  | [] => []
  | c :: l' =>
      if Py.isspace c
      then (if in_run then whitespace_sub true l'
            else " "%char :: whitespace_sub true l')
      else c :: whitespace_sub false l'
  end.

End Re.

(** ** [datetime.now()] and its two renderings *)

Record datetime : Type := {
  year : Z; month : Z; day : Z;
  hour : Z; minute : Z; second : Z;
  microsecond : Z
}.

Module DateTime.

(** Decimal rendering left-padded with zeros to [width] digits. *)
Definition pad (width : nat) (n : Z) : string :=
  let s := Py.str_of_int n in
  Py.str_of (repeat "0"%char (width - String.length s)) ++ s.

(** [t.strftime('%Y%m%d%H%M%S')] *)
Definition strftime_compact (t : datetime) : string :=
  pad 4 (year t) ++ pad 2 (month t) ++ pad 2 (day t)
  ++ pad 2 (hour t) ++ pad 2 (minute t) ++ pad 2 (second t).

(** [t.isoformat()] *)
Definition isoformat (t : datetime) : string :=
  pad 4 (year t) ++ "-" ++ pad 2 (month t) ++ "-" ++ pad 2 (day t)
  ++ "T" ++ pad 2 (hour t) ++ ":" ++ pad 2 (minute t) ++ ":"
  ++ pad 2 (second t)
  ++ (if microsecond t =? 0 then "" else "." ++ pad 6 (microsecond t)).

End DateTime.

(** ** Values stored in metadata dictionaries *)

(** A Python [float]: a finite value is a rational, compared exactly. *)
Inductive pyfloat : Type :=
| Finite (q : Q)
| Infinity (negative : bool)
| NaN.

(** The scalar values a metadata or result dictionary holds. *)
Inductive pyval : Type :=
| PNone
| PBool (b : bool)
| PInt (n : Z)
| PFloat (x : pyfloat)
| PStr (s : string).

Abbreviation dict := (gmap string pyval).

Module Val.

(** The float a number converts to for a comparison. *)
Definition as_float (v : pyval) : option pyfloat :=
  match v with
  | PBool b => Some (Finite (if b then 1 else 0)%Q)
  | PInt n => Some (Finite (inject_Z n))
  | PFloat x => Some x
  | _ => None
  end.

(** [x >= y] on floats; every comparison with NaN is false. *)
Definition float_ge (x y : pyfloat) : bool :=
  match x, y with
  | NaN, _ | _, NaN => false
  | Finite a, Finite b => Qle_bool b a
  | Infinity nx, Infinity ny => negb nx || ny
  | Infinity nx, Finite _ => negb nx
  | Finite _, Infinity ny => ny
  end.

(** [x < y] on floats. *)
Definition float_lt (x y : pyfloat) : bool :=
  match x, y with
  | NaN, _ | _, NaN => false
  | _, _ => negb (float_ge x y)
  end.

(** [x >= y]: numbers compare by value, strings by code points, anything
    else raises [TypeError]. *)
Definition ge (x y : pyval) : result bool :=
  match as_float x, as_float y with
  | Some a, Some b => Ok (float_ge a b)
  | _, _ =>
      match x, y with
      | PStr s, PStr t => Ok (negb (String.ltb s t))
      | _, _ => Raise TypeError
      end
  end.

(** The integer behind an [int] (or [bool]) value. *)
Definition as_int (v : pyval) : result Z :=
  match v with
  | PInt n => Ok n
  | PBool b => Ok (if b then 1 else 0)
  | _ => Raise TypeError
  end.

(** [v == n] and [v != n] against an integer [n]. *)
Definition eq_int (v : pyval) (n : Z) : bool :=
  match v with
  | PInt m => m =? n
  | PBool b => (if b then 1 else 0) =? n
  | PFloat (Finite q) => Qeq_bool q (inject_Z n)
  | _ => false
  end.

Definition ne_int (v : pyval) (n : Z) : bool := negb (eq_int v n).

(** [str(x)] of a float.  The digits of a finite value are those of
    [float.__repr__], the shortest decimal string that reads back as the
    same float; they are not computed here: [float_repr] stands for that
    function and is given the value in lowest terms, so that two fractions
    of one value print alike. *)
Definition str_float (float_repr : Q -> string) (x : pyfloat) : string :=
  match x with
  | NaN => "nan"
  | Infinity true => "-inf"
  | Infinity false => "inf"
  | Finite q => float_repr (Qred q)
  end.

(** [str(v)] *)
Definition str (float_repr : Q -> string) (v : pyval) : string :=
  match v with
  | PNone => "None"
  | PBool true => "True"
  | PBool false => "False"
  | PInt n => Py.str_of_int n
  | PFloat x => str_float float_repr x
  | PStr s => s
  end.

(** [d[k]] *)
Definition getitem (d : dict) (k : string) : result pyval :=
  match d !! k with
  | Some v => Ok v
  | None => Raise KeyError
  end.

(** [d.get(k, default)] *)
Definition get (d : dict) (k : string) (default : pyval) : pyval :=
  match d !! k with
  | Some v => v
  | None => default
  end.

(** [d.update(other)]: the keys of [other] win. *)
Definition update (d other : dict) : dict := other ∪ d.

End Val.

(** ** [document_processor.py] *)

(** Objects that are passed by reference live in a heap; a caller and a
    callee that hold the same location see the same dictionary. *)
Abbreviation loc := positive.
Abbreviation heap := (gmap loc dict).

Module DocumentProcessor.

(** [@dataclass class Document]; [metadata] is a reference. *)
Record Document : Type := {
  id : string;
  content : string;
  metadata : loc;
  chunks : list string
}.

(** The attributes [__init__] stores that the modelled methods read. *)
Record t : Type := {
  chunk_size : Z;
  chunk_overlap : Z;
  min_chunk_size : Z
}.

(** [DocumentProcessor()] with the default arguments. *)
Definition default : t :=
  {| chunk_size := 1000; chunk_overlap := 200; min_chunk_size := 100 |}.

Definition LF : ascii := "010"%char.

(** [_clean_text] *)
Definition _clean_text (text : string) : string :=
  let text := Re.whitespace_sub false (Py.chars text) in
  let text := Py.replace_cr (Py.replace_crlf text) in
  let lines :=
    filter (fun line => Py.strip line <> "")
           (Py.split LF (Py.str_of text)) in
  Py.strip (Py.join (String LF "") lines).

(** What one pass through the body of the [while] loop of
    [_split_into_chunks] ends with: [break], or the next [start]. *)
Inductive pass : Type :=
| Break (chunks : list string)
| Again (start : Z) (chunks : list string).

(** [chunks.append(chunk)] under [if len(chunk) >= self.min_chunk_size]. *)
Definition keep_chunk (self : t) (chunks : list string) (chunk : string)
  : list string :=
  if Py.len chunk >=? min_chunk_size self then chunks ++ [chunk] else chunks.

(** The cut the body settles on when the nominal end lies inside the text:
    the end of the first sentence match in the window, if there is one. *)
Definition cut (text : string) (nominal : Z) : Z :=
  match Re.sentence_search text (nominal - 100) (nominal + 100) with
  | Some (_, match_end) => match_end
  | None => nominal
  end.

(** The body of the [while] loop, entered with [start < len(text)]. *)
Definition loop_body (self : t) (text : string) (start : Z)
    (chunks : list string) : pass :=
  let end_ := start + chunk_size self in
  if end_ >=? Py.len text then
    let chunk := Py.strip (Py.slice text (Some start) None) in
    Break (keep_chunk self chunks chunk)
  else
    let end_ := cut text end_ in
    let chunk := Py.strip (Py.slice text (Some start) (Some end_)) in
    Again (end_ - chunk_overlap self) (keep_chunk self chunks chunk).

(** [while start < len(text): ...]; [fuel] bounds the number of passes. *)
Fixpoint split_loop (self : t) (text : string) (fuel : nat) (start : Z)
    (chunks : list string) : option (list string) :=
  if start <? Py.len text then
    match fuel with
    | O => None
    | S fuel' =>
        match loop_body self text start chunks with
        | Break chunks' => Some chunks'
        | Again start' chunks' => split_loop self text fuel' start' chunks'
        end
    end
  else Some chunks.

(** [_split_into_chunks] *)
Definition _split_into_chunks (self : t) (fuel : nat) (text : string)
  : option (list string) :=
  split_loop self text fuel 0 [].

(** [_find_overlap]: [for size in range(n, 0, -1)], first hit returned. *)
Fixpoint overlap_from (text1 text2 : string) (n : nat) : Z :=
  match n with
  | O => 0
  | S n' =>
      let size := Z.of_nat n in
      if String.eqb (Py.slice text1 (Some (- size)) None)
                    (Py.slice text2 None (Some size))
      then size
      else overlap_from text1 text2 n'
  end.

Definition _find_overlap (text1 text2 : string) : Z :=
  overlap_from text1 text2
    (Z.to_nat (Z.min (Py.len text1) (Py.len text2))).

(** The [for] loop of [merge_chunks]; [i] is the index [enumerate] gives
    and [merged[-1]] exists whenever [i > 0]. *)
Fixpoint merge_loop (merged : list string) (i : nat) (chunks : list string)
  : list string :=
  match chunks with
  | [] => merged
  | chunk :: rest =>
      let chunk :=
        match i with
        | O => chunk
        | S _ =>
            let overlap := _find_overlap (List.last merged "") chunk in
            if overlap =? 0 then chunk
            else Py.slice chunk (Some overlap) None
        end in
      merge_loop (merged ++ [chunk]) (S i) rest
  end.

(** [merge_chunks] *)
Definition merge_chunks (chunks : list string) : string :=
  Py.join " " (merge_loop [] O chunks).

Section WithCollaborators.

(** [hashlib.md5(s.encode()).hexdigest()] *)
Variable md5_hexdigest : string -> string.

(** The digits [str] prints for a finite float. *)
Variable float_repr : Q -> string.

(** [_generate_doc_id]; [now] is what [datetime.now()] returns if the
    call gets that far.  A dictionary that holds ['id'] is not empty, so
    the test [metadata and 'id' in metadata] is the lookup below. *)
Definition _generate_doc_id (now : datetime) (content : string)
    (metadata : option dict) : string :=
  match metadata ≫= (.!! "id") with
  | Some v => Val.str float_repr v
  | None =>
      let content_hash := md5_hexdigest content in
      let timestamp := DateTime.strftime_compact now in
      "doc_" +:+ timestamp +:+ "_"
        +:+ Py.slice content_hash None (Some 8)
  end.

(** The dictionary literal passed to [metadata.update]. *)
Definition processing_metadata (self : t) (now : datetime) : dict :=
  {[ "processed_at" := PStr (DateTime.isoformat now);
     "chunk_size" := PInt (chunk_size self);
     "chunk_overlap" := PInt (chunk_overlap self);
     "total_chunks" := PInt 0 ]}.

(** [process_document].  [metadata] is [None] or a reference to the
    caller's dictionary; [now_id] and [now_update] are the two clock
    readings.  The result is the document and the heap the call leaves;
    [None] when the chunking loop is still running after [fuel]
    passes. *)
Definition process_document (self : t) (fuel : nat)
    (now_id now_update : datetime) (h : heap)
    (content : string) (metadata : option loc)
  : option (Document * heap) :=
  let content := _clean_text content in
  let doc_id :=
    _generate_doc_id now_id content (l ← metadata; h !! l) in
  let '(metadata, h) :=
    match metadata with
    | Some l => (l, h)
    | None => let l := fresh (dom h) in (l, <[l := ∅]> h)
    end in
  let h :=
    alter (fun m => Val.update m (processing_metadata self now_update))
          metadata h in
  chunks ← _split_into_chunks self fuel content;
  let h :=
    alter (<["total_chunks" := PInt (Z.of_nat (length chunks))]>)
          metadata h in
  Some ({| id := doc_id; content := content;
           metadata := metadata; chunks := chunks |}, h).

End WithCollaborators.

End DocumentProcessor.

(** ** numpy and faiss, by contract *)

Module Faiss.

Section WithScalar.

(** The type of a [float32] number. *)
Context {F : Type}.

(** [np.array(vectors).astype('float32')] for a list of lists of numbers:
    the empty list gives a one-dimensional array of shape [(0,)], rows of
    one common length [c] give shape [(n, c)]. *)
Inductive ndarray : Type :=
| Array1 (elements : list F)
| Array2 (rows : list (list F)) (columns : nat).

(** Rows of different lengths cannot be converted: [ValueError]. *)
Definition np_array (vectors : list (list F)) : result ndarray :=
  match vectors with
  | [] => Ok (Array1 [])
  | v :: rest =>
      if forallb (fun w => Nat.eqb (length w) (length v)) rest
      then Ok (Array2 vectors (length v))
      else Raise ValueError
  end.

(** [len(a)]: the first component of the shape. *)
Definition array_len (a : ndarray) : Z :=
  match a with
  | Array1 elements => Z.of_nat (length elements)
  | Array2 rows _ => Z.of_nat (length rows)
  end.

(** [faiss.IndexFlatL2] and [faiss.IndexFlatIP] differ in the metric. *)
Inductive metric : Type := METRIC_L2 | METRIC_INNER_PRODUCT.

(** A flat index: its dimension [d] and the stored vectors [xb], the
    vector with label [i] at position [i]. *)
Record index : Type := {
  d : Z;
  metric_type : metric;
  xb : list (list F)
}.

Definition IndexFlatL2 (dimension : Z) : index :=
  {| d := dimension; metric_type := METRIC_L2; xb := [] |}.

Definition IndexFlatIP (dimension : Z) : index :=
  {| d := dimension; metric_type := METRIC_INNER_PRODUCT; xb := [] |}.

Definition ntotal (ix : index) : Z := Z.of_nat (length (xb ix)).

(** [index.add(x)]: the binding unpacks [n, d = x.shape] and asserts
    [d == self.d] before the vectors are appended. *)
Definition add (ix : index) (x : ndarray) : result index :=
  match x with
  | Array1 _ => Raise ValueError
  | Array2 rows columns =>
      if Z.of_nat columns =? d ix
      then Ok {| d := d ix; metric_type := metric_type ix;
                 xb := xb ix ++ rows |}
      else Raise AssertionError
  end.

(** What the compiled [reconstruct] does with a key outside [0, ntotal).
    Nothing is promised there: a flat index compares the key with [ntotal]
    at most, so a negative key reads memory that lies before the storage.
    What comes back, as far as the call comes back at all, is left to this
    parameter. *)
Variable reconstruct_unchecked : index -> Z -> result (list F).

(** [index.reconstruct(key)]: an [ndarray] of one dimension, given by its
    numbers; for a key in [0, ntotal) they are the stored vector. *)
Definition reconstruct (ix : index) (key : Z) : result (list F) :=
  if (0 <=? key) && (key <? ntotal ix) then
    match xb ix !! Z.to_nat key with
    | Some v => Ok v
    | None => reconstruct_unchecked ix key
    end
  else reconstruct_unchecked ix key.

(** What [faiss.vector_to_array] can be handed: the SWIG wrapper of a C++
    vector (class [Float32Vector] and the like), or an [ndarray]. *)
Inductive handed : Type :=
| StdVector (elements : list F)
| NumpyArray (elements : list F).

(** [faiss.vector_to_array(v)] copies a C++ vector into an array.  Its
    first statement is [assert classname.endswith('Vector')], and the class
    name of an array is ndarray. *)
Definition vector_to_array (v : handed) : result (list F) :=
  match v with
  | StdVector elements => Ok elements
  | NumpyArray _ => Raise AssertionError
  end.

End WithScalar.

Arguments ndarray : clear implicits.
Arguments index : clear implicits.
Arguments handed : clear implicits.

End Faiss.

(** ** [vector_store.py] *)

Module VectorStore.

(** A file of the store directory, as the reader sees it. *)
Inductive file (A : Type) : Type :=
| Readable (a : A)
| Corrupt.
Arguments Readable {A} a.
Arguments Corrupt {A}.

Section WithScalar.

Context {F : Type}.

(** The attributes of a [VectorStore]. *)
Record t : Type := {
  dimension : Z;
  index_type : string;
  index : Faiss.index F;
  metadata : list dict
}.

Definition set_index (self : t) (ix : Faiss.index F) : t :=
  {| dimension := dimension self; index_type := index_type self;
     index := ix; metadata := metadata self |}.

Definition set_metadata (self : t) (metas : list dict) : t :=
  {| dimension := dimension self; index_type := index_type self;
     index := index self; metadata := metas |}.

(** The index [_init_index] assigns to [self.index]. *)
Definition _init_index (self : t) : result (Faiss.index F) :=
  if String.eqb (index_type self) "L2"
  then Ok (Faiss.IndexFlatL2 (dimension self))
  else if String.eqb (index_type self) "IP"
  then Ok (Faiss.IndexFlatIP (dimension self))
  else Raise ValueError.

(** [VectorStore(dimension, index_type)] *)
Definition __init__ (dimension : Z) (index_type : string) : result t :=
  let self := {| dimension := dimension; index_type := index_type;
                 index := Faiss.IndexFlatL2 dimension; metadata := [] |} in
  ix ← _init_index self;
  Ok (set_index self ix).

(** [list(range(start, start + n))] *)
Definition range_from (start : Z) (n : nat) : list Z :=
  map (fun i => start + Z.of_nat i) (seq 0 n).

(** The loop over [enumerate(metadata)] of [add_vectors], from index [i]
    on: [vector_ids[i]] raises [IndexError] past the end, after the
    earlier entries were appended.  The store keeps the caller's own
    dictionary objects; the list of values written here is what the store
    holds when the given dictionaries are distinct objects that the store
    does not hold yet.  An object given twice would be one entry seen at
    two positions, with the keys written last. *)
Fixpoint add_given_metadata (clock : nat -> datetime)
    (vector_ids : list Z) (i : nat) (given : list dict) (self : t)
  : result unit * t :=
  match given with
  | [] => (Ok tt, self)
  | meta :: rest =>
      match vector_ids !! i with
      | None => (Raise IndexError, self)
      | Some vector_id =>
          let meta := <["vector_id" := PInt vector_id]> meta in
          let meta :=
            <["added_at" := PStr (DateTime.isoformat (clock i))]> meta in
          add_given_metadata clock vector_ids (S i) rest
            (set_metadata self (metadata self ++ [meta]))
      end
  end.

(** The loop that writes a fresh dictionary for every new id. *)
Definition fresh_metadata (clock : nat -> datetime) (vector_ids : list Z)
  : list dict :=
  imap (fun i vector_id =>
          ({[ "vector_id" := PInt vector_id;
              "added_at" := PStr (DateTime.isoformat (clock i)) ]} : dict))
       vector_ids.

(** [add_vectors]; [clock i] is the [i]-th reading of [datetime.now()]
    during the call.  An exception leaves [self] as it was when raised. *)
Definition add_vectors (self : t) (clock : nat -> datetime)
    (vectors : list (list F)) (given : option (list dict))
  : result (list Z) * t :=
  match Faiss.np_array vectors with
  | Raise e => (Raise e, self)
  | Ok vectors =>
      let start_id := Faiss.ntotal (index self) in
      match Faiss.add (index self) vectors with
      | Raise e => (Raise e, self)
      | Ok ix =>
          let self := set_index self ix in
          let vector_ids :=
            range_from start_id (Z.to_nat (Faiss.array_len vectors)) in
          match given with
          | Some ((_ :: _) as metas) =>
              match add_given_metadata clock vector_ids O metas self with
              | (Ok _, self) => (Ok vector_ids, self)
              | (Raise e, self) => (Raise e, self)
              end
          | _ =>
              (Ok vector_ids,
               set_metadata self
                 (metadata self ++ fresh_metadata clock vector_ids))
          end
      end
  end.

(** What [reconstruct] does with a key outside [0, ntotal), as in
    [Faiss.reconstruct]. *)
Variable reconstruct_unchecked : Faiss.index F -> Z -> result (list F).

(** [get_vector]: [None] when [vector_id >= self.index.ntotal]; else the
    array [reconstruct] returns is handed to [faiss.vector_to_array], and
    [.tolist()] would give the numbers of what that returns.  The argument
    is the Python value the caller passes; an id that is not an integer
    cannot be a key. *)
Definition get_vector (self : t) (vector_id : pyval)
  : result (option (list F)) :=
  beyond ← Val.ge vector_id (PInt (Faiss.ntotal (index self)));
  if beyond : bool then Ok None
  else
    key ← Val.as_int vector_id;
    array ← Faiss.reconstruct reconstruct_unchecked (index self) key;
    vector ← Faiss.vector_to_array (Faiss.NumpyArray array);
    Ok (Some vector).

(** The comprehension of [delete_vector]: the entries whose
    ['vector_id'] differs from the argument. *)
Definition other_metadata (metas : list dict) (vector_id : Z)
  : result (list dict) :=
  filterM (fun meta =>
             v ← Val.getitem meta "vector_id";
             Ok (Val.ne_int v vector_id)) metas.

(** The loop of [_rebuild_index] over [self.metadata], which reads the
    vectors through [self.get_vector], that is from [self.index] as it
    is at that moment. *)
Fixpoint rebuild_loop (metas : list dict) (self : t) : result unit * t :=
  match metas with
  | [] => (Ok tt, self)
  | meta :: rest =>
      match (vector_id ← Val.getitem meta "vector_id";
             get_vector self vector_id) with
      | Raise e => (Raise e, self)
      | Ok (Some ((_ :: _) as vector)) =>
          match (x ← Faiss.np_array [vector];
                 Faiss.add (index self) x) with
          | Raise e => (Raise e, self)
          | Ok ix => rebuild_loop rest (set_index self ix)
          end
      | Ok _ => rebuild_loop rest self
      end
  end.

(** [_rebuild_index]: [self._init_index()] first, then the loop. *)
Definition _rebuild_index (self : t) : result unit * t :=
  match _init_index self with
  | Raise e => (Raise e, self)
  | Ok ix => rebuild_loop (metadata self) (set_index self ix)
  end.

(** [delete_vector] *)
Definition delete_vector (self : t) (vector_id : Z) : result unit * t :=
  match other_metadata (metadata self) vector_id with
  | Raise e => (Raise e, self)
  | Ok metas => _rebuild_index (set_metadata self metas)
  end.

(** One entry of the list [search] returns. *)
Record hit : Type := {
  hit_vector_id : Z;
  hit_distance : pyfloat;
  hit_metadata : dict
}.

(** [next((m for m in self.metadata if m['vector_id'] == idx), None)] *)
Fixpoint find_metadata (metas : list dict) (idx : Z)
  : result (option dict) :=
  match metas with
  | [] => Ok None
  | m :: rest =>
      v ← Val.getitem m "vector_id";
      if Val.eq_int v idx then Ok (Some m) else find_metadata rest idx
  end.

(** [self.index.search(query, k)]: the [k] pairs (distance, label) of
    the first row, a label [-1] standing for an empty slot. *)
Variable index_search :
  Faiss.index F -> list F -> Z -> result (list (pyfloat * Z)).

(** The loop of [search] over [zip(distances[0], indices[0])]. *)
Fixpoint collect_hits (self : t) (filter_func : option (dict -> bool))
    (found : list (pyfloat * Z)) : result (list hit) :=
  match found with
  | [] => Ok []
  | (distance, idx) :: rest =>
      if idx =? -1 then collect_hits self filter_func rest
      else
        meta ← find_metadata (metadata self) idx;
        hits ← collect_hits self filter_func rest;
        match meta with
        | Some m =>
            if negb (bool_decide (m = ∅))
               && match filter_func with
                  | None => true
                  | Some keep => keep m
                  end
            then Ok ({| hit_vector_id := idx; hit_distance := distance;
                        hit_metadata := m |} :: hits)
            else Ok hits
        | None => Ok hits
        end
  end.

(** [search] *)
Definition search (self : t) (query_vector : list F) (k : Z)
    (filter_func : option (dict -> bool)) : result (list hit) :=
  found ← index_search (index self) query_vector k;
  collect_hits self filter_func found.

(** The loop of [update_metadata]: the first entry whose ['vector_id']
    equals the argument takes the new keys and an ['updated_at'] stamp, and
    the loop breaks.  An entry without ['vector_id'] met before that raises
    [KeyError].  The dictionary is changed in place: the list of values
    written here is what the store holds when the entries after the match
    are other objects than the matched one. *)
Fixpoint update_first (now : datetime) (vector_id : Z) (changes : dict)
    (metas : list dict) : result (list dict) :=
  match metas with
  | [] => Ok []
  | meta :: rest =>
      v ← Val.getitem meta "vector_id";
      if Val.eq_int v vector_id
      then Ok (<["updated_at" := PStr (DateTime.isoformat now)]>
                 (Val.update meta changes) :: rest)
      else rest' ← update_first now vector_id changes rest;
           Ok (meta :: rest')
  end.

(** [update_metadata]; nothing is written before the matching entry is
    found, so an exception leaves [self] as it was. *)
Definition update_metadata (self : t) (now : datetime) (vector_id : Z)
    (changes : dict) : result unit * t :=
  match update_first now vector_id changes (metadata self) with
  | Raise e => (Raise e, self)
  | Ok metas => (Ok tt, set_metadata self metas)
  end.

(** The two files under [store_path]; [None] is a file that does not
    exist. *)
Record disk : Type := {
  index_faiss : option (file (Faiss.index F));
  metadata_pkl : option (file (list dict))
}.

(** [load]: each attribute is replaced when its file exists; a file
    that cannot be read raises, after what was loaded before it. *)
Definition load (self : t) (dsk : disk) : result unit * t :=
  let loaded_index :=
    match index_faiss dsk with
    | None => Ok self
    | Some (Readable ix) => Ok (set_index self ix)
    | Some Corrupt => Raise RuntimeError
    end in
  match loaded_index with
  | Raise e => (Raise e, self)
  | Ok self =>
      match metadata_pkl dsk with
      | None => (Ok tt, self)
      | Some (Readable metas) => (Ok tt, set_metadata self metas)
      | Some Corrupt => (Raise UnpicklingError, self)
      end
  end.

End WithScalar.

Arguments t : clear implicits.
Arguments disk : clear implicits.
Arguments hit : clear implicits.

End VectorStore.

(** ** [retriever.py] *)

Module ContentRetriever.

(** The configuration [__init__] stores. *)
Record t : Type := {
  max_documents : Z;
  similarity_threshold : pyval
}.

(** [scored_results.sort(key=lambda x: x[1], reverse=True)]: a stable sort
    by descending score, written as an insertion sort; equal scores keep
    their order.  It is what [list.sort] computes when no score is NaN. *)
Fixpoint insert_scored (x : dict * pyfloat) (l : list (dict * pyfloat))
  : list (dict * pyfloat) :=
  match l with
  | [] => [x]
  | y :: l' =>
      if Val.float_lt (snd x) (snd y) then y :: insert_scored x l'
      else x :: l
  end.

Definition sort_scored (l : list (dict * pyfloat)) : list (dict * pyfloat) :=
  foldr insert_scored [] l.

Section WithCollaborators.

(** The type of a query embedding. *)
Context {E : Type}.

(** [await self.embedding_generator.generate_embedding(query)] *)
Variable generate_embedding : string -> result E.

(** [await self.embedding_generator.generate_embeddings(texts)], read
    as one score per text. *)
Variable generate_embeddings : list string -> result (list pyfloat).

(** [self.vector_store.search(query_embedding=, n_results=, where=)] *)
Variable vector_store_search :
  E -> Z -> option dict -> result (list dict).

(** [retrieve] *)
Definition retrieve (self : t) (query : string) (filters : option dict)
    (max_docs : option Z) : result (list dict) :=
  query_embedding ← generate_embedding query;
  results ← vector_store_search query_embedding
              (Py.or_int max_docs (max_documents self)) filters;
  filterM (fun r => Val.ge (Val.get r "similarity" (PInt 0))
                           (similarity_threshold self))
          results.

(** The digits [str] prints for a finite float, as in [Val.str]. *)
Variable float_repr : Q -> string.

(** The texts [_rerank_results] sends to the scorer. *)
Definition rerank_texts (query : string) (results : list dict)
  : result (list string) :=
  mapM (fun r =>
          document ← Val.getitem r "document";
          Ok (query +:+ " [SEP] " +:+ Val.str float_repr document))
       results.

(** The [try] block of [_rerank_results]. *)
Definition rerank_try (query : string) (results : list dict)
  : result (list dict) :=
  texts ← rerank_texts query results;
  scores ← generate_embeddings texts;
  Ok (map fst (sort_scored (zip results scores))).

(** [_rerank_results]: [except Exception: return results]. *)
Definition _rerank_results (query : string) (results : list dict)
  : list dict :=
  match rerank_try query results with
  | Ok reranked => reranked
  | Raise _ => results
  end.

(** [max_documents * 2 if max_documents else self.max_documents * 2] *)
Definition candidates (self : t) (max_docs : option Z) : Z :=
  match max_docs with
  | Some n => if n =? 0 then max_documents self * 2 else n * 2
  | None => max_documents self * 2
  end.

(** [retrieve_with_reranking] *)
Definition retrieve_with_reranking (self : t) (query : string)
    (filters : option dict) (max_docs : option Z) : result (list dict) :=
  results ← retrieve self query filters (Some (candidates self max_docs));
  match results with
  | [] => Ok []
  | _ =>
      let reranked := _rerank_results query results in
      Ok (Py.list_slice reranked None
            (Some (Py.or_int max_docs (max_documents self))))
  end.

(** [self.vector_store.get_document(document_id)] *)
Variable vector_store_get_document : string -> result (option dict).

(** [retrieve_similar]: [if not document] holds of [None] and of the empty
    dictionary.  The query is [document['document']], the text of the
    document; the embedding service is given a [str]. *)
Definition retrieve_similar (self : t) (document_id : string)
    (max_docs : option Z) : result (list dict) :=
  document ← vector_store_get_document document_id;
  match document with
  | None => Ok []
  | Some document =>
      if bool_decide (document = ∅) then Ok []
      else
        text ← Val.getitem document "document";
        match text with
        | PStr query => retrieve self query None max_docs
        | _ => Raise TypeError
        end
  end.

End WithCollaborators.

End ContentRetriever.

(* ===================================================================== *)
(** * Part II: what the properties speak of *)
(* ===================================================================== *)

(** ** Predicates *)

(** A text with every whitespace character removed. *)
Definition without_whitespace (text : string) : string :=
  Py.str_of (List.filter (fun c => negb (Py.isspace c)) (Py.chars text)).

(** What C3 asks of a configuration and a text: chunking returns, and the
    merged chunks equal the text once both are normalized. *)
Definition reconstructs (normalize : string -> string)
    (self : DocumentProcessor.t) (text : string) : Prop :=
  exists fuel chunks,
    DocumentProcessor._split_into_chunks self fuel text = Some chunks /\
    normalize (DocumentProcessor.merge_chunks chunks) = normalize text.

(** What C9 asks of the code, for a digest function: two runs of
    [process_document] on the same content and metadata, started from the
    same heap, return documents with the same identifier. *)
Definition stable_identifier (md5_hexdigest : string -> string)
    (float_repr : Q -> string) : Prop :=
  forall self fuel1 fuel2 now_id1 now_update1 now_id2 now_update2
         (h : heap) content metadata doc1 h1 doc2 h2,
    DocumentProcessor.process_document md5_hexdigest float_repr self fuel1
      now_id1 now_update1 h content metadata = Some (doc1, h1) ->
    DocumentProcessor.process_document md5_hexdigest float_repr self fuel2
      now_id2 now_update2 h content metadata = Some (doc2, h2) ->
    DocumentProcessor.id doc1 = DocumentProcessor.id doc2.

(** The metadata entries whose ['vector_id'] is a non-negative integer:
    every entry [add_vectors] writes is one. *)
Definition has_id (meta : dict) : Prop :=
  exists n, meta !! "vector_id" = Some (PInt n) /\ 0 <= n.

(** The test of the comprehension of [delete_vector], on an entry that
    has a ['vector_id']. *)
Definition survives (vector_id : Z) (meta : dict) : bool :=
  Val.ne_int (Val.get meta "vector_id" PNone) vector_id.

(** The index a store works with was built for the store's dimension.
    [__init__] establishes this and [add_vectors] and [delete_vector] keep
    it; only [load] can install an index of another dimension. *)
Definition index_matches_dimension {F} (self : VectorStore.t F) : Prop :=
  Faiss.d (VectorStore.index self) = VectorStore.dimension self.


(** The stores a program gets from the constructor and calls of
    [add_vectors], whether these return or raise. *)
Inductive built {F} : VectorStore.t F -> Prop :=
| built_init dimension index_type self :
    VectorStore.__init__ dimension index_type = Ok self -> built self
| built_add self clock vectors given r self' :
    built self ->
    VectorStore.add_vectors self clock vectors given = (r, self') ->
    built self'.

(** The index and the metadata list [load] leaves in the store when it
    returns: what the files hold, or the old value for a missing file. *)
Definition stored_index {F} (self : VectorStore.t F)
    (dsk : VectorStore.disk F) : Faiss.index F :=
  match VectorStore.index_faiss dsk with
  | Some (VectorStore.Readable ix) => ix
  | _ => VectorStore.index self
  end.

Definition stored_metadata {F} (self : VectorStore.t F)
    (dsk : VectorStore.disk F) : list dict :=
  match VectorStore.metadata_pkl dsk with
  | Some (VectorStore.Readable metas) => metas
  | _ => VectorStore.metadata self
  end.

(** Index positions and metadata entries line up one to one. *)
Definition aligned {F} (self : VectorStore.t F) : Prop :=
  Faiss.ntotal (VectorStore.index self)
  = Z.of_nat (length (VectorStore.metadata self)).

(** What C4 asks of [load]: if it returns normally, the store is aligned. *)
Definition load_checks_alignment {F} (self : VectorStore.t F)
    (dsk : VectorStore.disk F) : Prop :=
  match VectorStore.load self dsk with
  | (Ok _, self') => aligned self'
  | (Raise _, _) => True
  end.

(** The test of the comprehension of [retrieve] holds of [item]. *)
Definition similar_enough (self : ContentRetriever.t) (item : dict) : Prop :=
  Val.ge (Val.get item "similarity" (PInt 0))
         (ContentRetriever.similarity_threshold self)
  = Ok true.

(** The same test as a boolean: [false] where the comparison fails or
    cannot be made. *)
Definition passes (self : ContentRetriever.t) (item : dict) : bool :=
  match Val.ge (Val.get item "similarity" (PInt 0))
               (ContentRetriever.similarity_threshold self) with
  | Ok b => b
  | Raise _ => false
  end.

(** The similarity of [item] compares with the threshold: both are
    numbers, or both are strings. *)
Definition comparable (self : ContentRetriever.t) (item : dict) : Prop :=
  exists b,
    Val.ge (Val.get item "similarity" (PInt 0))
           (ContentRetriever.similarity_threshold self)
    = Ok b.

(** The store behind the retriever honours [n_results]. *)
Definition store_honours_n_results {E}
    (vector_store_search : E -> Z -> option dict -> result (list dict))
  : Prop :=
  forall e n filters found,
    vector_store_search e n filters = Ok found ->
    Z.of_nat (length found) <= Z.max 0 n.

(** What C6 asks of [retrieve], for given collaborators and configuration:
    every returned element is similar enough, and there are at most
    max_documents of them (the configured number when it is omitted). *)
Definition retrieve_meets_contract {E}
    (generate_embedding : string -> result E)
    (vector_store_search : E -> Z -> option dict -> result (list dict))
    (self : ContentRetriever.t) : Prop :=
  forall query filters max_docs returned,
    ContentRetriever.retrieve generate_embedding vector_store_search
      self query filters max_docs = Ok returned ->
    Forall (similar_enough self) returned /\
    Z.of_nat (length returned)
    <= match max_docs with
       | Some n => n
       | None => ContentRetriever.max_documents self
       end.

(** Whitespace occurs in [l] only as single spaces. *)
Fixpoint single_spaced (after_space : bool) (l : list ascii) : bool :=
  match l with
  | [] => true
  | c :: l' =>
      if Py.isspace c
      then Ascii.eqb c " " && negb after_space && single_spaced true l'
      else single_spaced false l'
  end.

(** What [lstrip] returns does not start with whitespace. *)
Definition starts_clean (l : list ascii) : Prop :=
  match l with
  | c :: _ => Py.isspace c = false
  | [] => True
  end.

(** Neither a carriage return nor a line feed is left. *)
Definition no_line_break (l : list ascii) : Prop :=
  Forall (fun c => c <> "013"%char /\ c <> "010"%char) l.

(** A chunk as [_split_into_chunks] may return it with a configuration
    that leaves room: stripped, at least [min_chunk_size] characters long
    and at most 100 characters longer than [chunk_size]. *)
Definition chunk_in_bounds (self : DocumentProcessor.t) (chunk : string)
  : Prop :=
  DocumentProcessor.min_chunk_size self <= Py.len chunk /\
  Py.len chunk <= DocumentProcessor.chunk_size self + 100 /\
  Py.strip chunk = chunk.

(** [o] ends [text1] and begins [text2]. *)
Definition is_overlap (o text1 text2 : string) : Prop :=
  exists before after, text1 = before +:+ o /\ text2 = o +:+ after.

(** The chunks a cut with overlaps leaves after the first one: every piece
    preceded by its overlap. *)
Definition with_overlaps (cuts : list (string * string)) : list string :=
  map (fun cut => fst cut +:+ snd cut) cuts.

(** Every overlap ends the piece before it, and no longer string both ends
    that piece and begins the chunk that follows. *)
Fixpoint unambiguous (previous : string) (cuts : list (string * string))
  : Prop :=
  match cuts with
  | [] => True
  | (o, piece) :: rest =>
      (exists before, previous = before +:+ o) /\
      (forall o', is_overlap o' previous (o +:+ piece) ->
                  Py.len o' <= Py.len o) /\
      unambiguous piece rest
  end.

(** A cut with overlaps: every overlap ends the piece before it. *)
Fixpoint cut_with_overlaps (previous : string)
    (cuts : list (string * string)) : Prop :=
  match cuts with
  | [] => True
  | (o, piece) :: rest =>
      (exists before, previous = before +:+ o) /\
      cut_with_overlaps piece rest
  end.

(** The characters of [l] from position [a] up to position [b]. *)
Definition seg (l : list ascii) (a b : nat) : list ascii :=
  take (b - a) (drop a l).

(** Whether position [i] of [l] holds a whitespace character. *)
Definition space_at (l : list ascii) (i : nat) : bool :=
  match l !! i with
  | Some c => Py.isspace c
  | None => false
  end.

(** The number of characters [strip] removes at the start of a window
    that begins at [a], and at the end of one that ends at [b], in a text
    whose whitespace is single spaces. *)
Definition lead (l : list ascii) (a : nat) : nat :=
  if space_at l a then 1 else 0.

Definition trail (l : list ascii) (b : nat) : nat :=
  match b with
  | O => 0
  | S b' => if space_at l b' then 1 else 0
  end.

(** The metadata entry at position [i] carries the id [i]. *)
Definition ids_in_order {F} (self : VectorStore.t F) : Prop :=
  forall (i : nat) (meta : dict),
    VectorStore.metadata self !! i = Some meta ->
    meta !! "vector_id" = Some (PInt (Z.of_nat i)).

(** [meta] has a ['vector_id'] and it is not [vector_id]. *)
Definition has_other_id (vector_id : Z) (meta : dict) : Prop :=
  exists v, meta !! "vector_id" = Some v /\ Val.eq_int v vector_id = false.

(** What [search] guarantees of a hit: it is not an empty slot, and its
    metadata is an entry of the store that carries the hit's id and passes
    the filter. *)
Definition sound_hit {F} (self : VectorStore.t F)
    (filter_func : option (dict -> bool)) (h : VectorStore.hit) : Prop :=
  VectorStore.hit_vector_id h <> -1 /\
  VectorStore.hit_metadata h ∈ VectorStore.metadata self /\
  (exists v, VectorStore.hit_metadata h !! "vector_id" = Some v /\
             Val.eq_int v (VectorStore.hit_vector_id h) = true) /\
  (forall keep, filter_func = Some keep ->
                keep (VectorStore.hit_metadata h) = true).

(** A score that compares: not NaN. *)
Definition is_number (x : pyfloat) : Prop := x <> NaN.

(** Two scored candidates in the order a descending sort leaves them. *)
Definition score_ge (x y : dict * pyfloat) : Prop :=
  Val.float_ge (snd x) (snd y) = true.

(** What C5 asks of [retrieve_with_reranking], for given collaborators and
    configuration: with a scorer that raises, the call returns the first
    max_documents candidates of the first retrieval. *)
Definition falls_back_to_first {E}
    (generate_embedding : string -> result E)
    (generate_embeddings : list string -> result (list pyfloat))
    (vector_store_search : E -> Z -> option dict -> result (list dict))
    (float_repr : Q -> string) (self : ContentRetriever.t) : Prop :=
  forall query filters (max_documents : Z) results,
    ContentRetriever.retrieve generate_embedding vector_store_search
      self query filters
      (Some (ContentRetriever.candidates self (Some max_documents)))
    = Ok results ->
    (forall texts, exists e, generate_embeddings texts = Raise e) ->
    ContentRetriever.retrieve_with_reranking generate_embedding
      generate_embeddings vector_store_search float_repr
      self query filters (Some max_documents)
    = Ok (take (Z.to_nat max_documents) results).

(** ** Data of the examples *)

(** The configuration of the worked example of the specification:
    [DocumentProcessor(chunk_size=4, chunk_overlap=1, min_chunk_size=1)]. *)
Definition small_windows : DocumentProcessor.t :=
  {| DocumentProcessor.chunk_size := 4;
     DocumentProcessor.chunk_overlap := 1;
     DocumentProcessor.min_chunk_size := 1 |}.

(** 1100 characters: the ten digits, 110 times. *)
Definition periodic_text : string :=
  String.concat "" (repeat "0123456789" 110).

(** A text of 72 characters with blanks at both ends. *)
Definition short_note : string :=
  "  The index is rebuilt after every delete. Callers must not keep ids.  ".

(** Two clock readings one second apart. *)
Definition new_year : datetime :=
  {| year := 2024; month := 1; day := 1;
     hour := 0; minute := 0; second := 0; microsecond := 0 |}.

Definition one_second_later : datetime :=
  {| year := 2024; month := 1; day := 1;
     hour := 0; minute := 0; second := 1; microsecond := 0 |}.

(** The digits of the finite floats used in the examples below; any other
    value is printed as 0.0 here. *)
Definition example_repr (q : Q) : string :=
  if Qeq_bool q (3 # 2) then "1.5" else "0.0".

(** The MD5 digests of the contents used in the examples below; any other
    content is given the digest of the empty string. *)
Definition example_digest (content : string) : string :=
  if String.eqb content "hello" then "5d41402abc4b2a76b9719d911017c592"
  else "d41d8cd98f00b204e9800998ecf8427e".

(** A heap with one dictionary, [{'id': 1.5}], at location 1. *)
Definition heap_with_id : heap :=
  {[ 1%positive := ({[ "id" := PFloat (Finite (3 # 2)) ]} : dict) ]}.

(** The document and the heap a run on [heap_with_id] returns. *)
Definition report_1_5 : DocumentProcessor.Document :=
  {| DocumentProcessor.id := "1.5";
     DocumentProcessor.content := "hello";
     DocumentProcessor.metadata := 1%positive;
     DocumentProcessor.chunks := [] |}.

Definition heap_after (processed_at : string) : heap :=
  {[ 1%positive :=
       ({[ "id" := PFloat (Finite (3 # 2));
           "processed_at" := PStr processed_at;
           "chunk_size" := PInt 1000;
           "chunk_overlap" := PInt 200;
           "total_chunks" := PInt 0 ]} : dict) ]}.

(** A processor that keeps chunks of five characters or more. *)
Definition note_taker : DocumentProcessor.t :=
  {| DocumentProcessor.chunk_size := 1000;
     DocumentProcessor.chunk_overlap := 200;
     DocumentProcessor.min_chunk_size := 5 |}.

(** The caller's dictionary (location 1) already has a 'total_chunks'
    entry; location 2 is an unrelated object. *)
Definition caller_metadata : dict :=
  {[ "source" := PStr "notes"; "total_chunks" := PInt 99 ]}.

(** The heap before the call. *)
Definition caller_heap : heap :=
  {[ 1%positive := caller_metadata;
     2%positive := ({[ "owner" := PStr "ak" ]} : dict) ]}.

(** The document and the heap the call on [caller_heap] returns. *)
Definition hello_document : DocumentProcessor.Document :=
  {| DocumentProcessor.id := "doc_20240101000000_5d41402a";
     DocumentProcessor.content := "hello";
     DocumentProcessor.metadata := 1%positive;
     DocumentProcessor.chunks := ["hello"] |}.

Definition caller_heap_after : heap :=
  {[ 1%positive :=
       ({[ "source" := PStr "notes";
           "processed_at" := PStr "2024-01-01T00:00:01";
           "chunk_size" := PInt 1000;
           "chunk_overlap" := PInt 200;
           "total_chunks" := PInt 1 ]} : dict);
     2%positive := ({[ "owner" := PStr "ak" ]} : dict) ]}.

(** A clock that reads midnight at every call. *)
Definition midnight (reading : nat) : datetime := new_year.

(** [VectorStore(dimension=2)], vectors of integers standing for floats. *)
Definition empty_store : VectorStore.t Z :=
  {| VectorStore.dimension := 2;
     VectorStore.index_type := "L2";
     VectorStore.index := Faiss.IndexFlatL2 2;
     VectorStore.metadata := [] |}.

(** [empty_store] after three vectors were added. *)
Definition filled_store : VectorStore.t Z :=
  snd (VectorStore.add_vectors empty_store midnight
         [[1; 2]; [3; 4]; [5; 6]] None).

(** A read outside the storage that comes back with what lay there. *)
Definition foreign_memory (ix : Faiss.index Z) (key : Z)
  : result (list Z) :=
  Ok (repeat 0 (Z.to_nat (Faiss.d ix))).

(** An index file with two vectors next to a metadata file with one
    entry. *)
Definition misaligned_disk : VectorStore.disk Z :=
  {| VectorStore.index_faiss :=
       Some (VectorStore.Readable
               {| Faiss.d := 2; Faiss.metric_type := Faiss.METRIC_L2;
                  Faiss.xb := [[1; 2]; [3; 4]] |});
     VectorStore.metadata_pkl :=
       Some (VectorStore.Readable
               [({[ "vector_id" := PInt 0 ]} : dict)]) |}.

(** [DocumentProcessor(chunk_size=10, chunk_overlap=2, min_chunk_size=1)]
    and a text of 24 letters, which it cuts into three windows. *)
Definition ten_wide : DocumentProcessor.t :=
  {| DocumentProcessor.chunk_size := 10;
     DocumentProcessor.chunk_overlap := 2;
     DocumentProcessor.min_chunk_size := 1 |}.

Definition letters : string := "abcdefghijklmnopqrstuvwx".

(** 300 numbers, 100 to 399, separated by single spaces: 1199 characters
    without a sentence end. *)
Definition numbered_words : string :=
  Py.join " " (map (fun i => Py.str_of_int (Z.of_nat i)) (seq 100 300)).

(** The cut of [numbered_words] under the default configuration: the
    windows text[0:1000] and text[800:1199]. *)
Definition numbered_cuts : list (string * string) :=
  [("", Py.slice numbered_words None (Some 999));
   (Py.slice numbered_words (Some 800) (Some 999),
    Py.slice numbered_words (Some 999) None)].

(** [VectorStore(dimension=5)], and that store after it loaded
    [misaligned_disk], whose index has dimension 2. *)
Definition wide_store : VectorStore.t Z :=
  {| VectorStore.dimension := 5;
     VectorStore.index_type := "L2";
     VectorStore.index := Faiss.IndexFlatL2 5;
     VectorStore.metadata := [] |}.

Definition reloaded_store : VectorStore.t Z :=
  snd (VectorStore.load wide_store misaligned_disk).

(** A search result with its document and similarity. *)
Definition scored (document : string) (similarity : Q) : dict :=
  {[ "document" := PStr document; "similarity" := PFloat (Finite similarity) ]}.

(** What the store holds, best match first. *)
Definition corpus : list dict :=
  [ scored "alpha" (9 # 10); scored "beta" (8 # 10);
    scored "gamma" (75 # 100); scored "delta" (2 # 10) ].

(** An embedding service that answers every query. *)
Definition embed_ok (query : string) : result unit := Ok tt.

(** A scorer that is down. *)
Definition scorer_down (texts : list string) : result (list pyfloat) :=
  Raise ServiceError.

(** A store that returns its [n_results] best matches. *)
Definition best_of_corpus (e : unit) (n_results : Z) (filters : option dict)
  : result (list dict) :=
  Ok (take (Z.to_nat n_results) corpus).

(** Two retrievers with threshold 0.7, configured for 2 and 5 documents. *)
Definition two_at_most : ContentRetriever.t :=
  {| ContentRetriever.max_documents := 2;
     ContentRetriever.similarity_threshold := PFloat (Finite (7 # 10)) |}.

Definition five_at_most : ContentRetriever.t :=
  {| ContentRetriever.max_documents := 5;
     ContentRetriever.similarity_threshold := PFloat (Finite (7 # 10)) |}.

(** The document and the heap a call without metadata on [caller_heap]
    returns: the new dictionary is at the first free location. *)
Definition fresh_document : DocumentProcessor.Document :=
  {| DocumentProcessor.id := "doc_20240101000000_5d41402a";
     DocumentProcessor.content := "hello";
     DocumentProcessor.metadata := 3%positive;
     DocumentProcessor.chunks := ["hello"] |}.

(** A store whose second and third entries carry the same id. *)
Definition labelled_store : VectorStore.t Z :=
  {| VectorStore.dimension := 2;
     VectorStore.index_type := "L2";
     VectorStore.index :=
       {| Faiss.d := 2; Faiss.metric_type := Faiss.METRIC_L2;
          Faiss.xb := [[1; 2]; [3; 4]; [5; 6]] |};
     VectorStore.metadata :=
       [ ({[ "vector_id" := PInt 0; "label" := PStr "a" ]} : dict);
         ({[ "vector_id" := PInt 1; "label" := PStr "b" ]} : dict);
         ({[ "vector_id" := PInt 1; "label" := PStr "c" ]} : dict) ] |}.

(** An index search that reports ids 1 and 0 and then empty slots. *)
Definition two_neighbours (ix : Faiss.index Z) (query : list Z) (k : Z)
  : result (list (pyfloat * Z)) :=
  Ok (take (Z.to_nat k)
        [ (Finite 0, 1); (Finite 8, 0);
          (Infinity false, -1); (Infinity false, -1) ]).

(** A scorer that gives every text its length as score. *)
Definition longest_first (texts : list string) : result (list pyfloat) :=
  Ok (map (fun text => Finite (inject_Z (Py.len text))) texts).

(* ===================================================================== *)
(** * Part III: the properties *)
(* ===================================================================== *)

(** ** Strings and slices *)

Lemma str_of_chars (s : string) : Py.str_of (Py.chars s) = s.
Proof. apply string_of_list_ascii_of_string. Qed.

Lemma chars_str_of (l : list ascii) : Py.chars (Py.str_of l) = l.
Proof. apply list_ascii_of_string_of_list_ascii. Qed.

Lemma length_chars (s : string) : length (Py.chars s) = String.length s.
Proof.
  induction s as [|c s IH]; simpl; [reflexivity|].
  now rewrite <- IH.
Qed.

(** [l[0:]] is [l]. *)
Lemma list_slice_from_0 {A} (l : list A) : Py.list_slice l (Some 0) None = l.
Proof.
  unfold Py.list_slice, Py.adjust. simpl.
  rewrite Z.min_l by lia. rewrite Z.sub_0_r, Nat2Z.id. simpl.
  apply firstn_all.
Qed.

(** [s[0:]] is [s]. *)
Lemma slice_from_0 (s : string) : Py.slice s (Some 0) None = s.
Proof. unfold Py.slice. rewrite list_slice_from_0. apply str_of_chars. Qed.

(** [l[:n]] for [n >= 0] is the first [n] elements. *)
Lemma list_slice_prefix {A} (l : list A) (n : Z) :
  0 <= n -> Py.list_slice l None (Some n) = take (Z.to_nat n) l.
Proof.
  intros Hn. unfold Py.list_slice, Py.adjust.
  destruct (Z.ltb_spec n 0) as [?|_]; [lia|].
  rewrite Z.sub_0_r. simpl. rewrite Z2Nat.inj_min, Nat2Z.id.
  rewrite <- (take_take _ (Z.to_nat n) (length l)).
  now rewrite firstn_all.
Qed.

(** ** The chunker *)

Section Chunker.

Import DocumentProcessor.

(** Once the loop has left, more fuel does not change the answer. *)
Lemma split_loop_more_fuel self text fuel extra start chunks result :
  split_loop self text fuel start chunks = Some result ->
  split_loop self text (fuel + extra) start chunks = Some result.
Proof.
  revert start chunks.
  induction fuel as [|fuel IH]; intros start chunks; simpl.
  - destruct (start <? Py.len text) eqn:Hin; [discriminate|].
    intros H. destruct extra; simpl; now rewrite Hin.
  - destruct (start <? Py.len text); [|trivial].
    destruct (loop_body self text start chunks); [trivial|]. apply IH.
Qed.

(** The loop is a function of its inputs: two runs that both leave the
    loop return the same chunks, whatever fuel each was given. *)
Lemma split_loop_deterministic self text fuel1 fuel2 start chunks r1 r2 :
  split_loop self text fuel1 start chunks = Some r1 ->
  split_loop self text fuel2 start chunks = Some r2 ->
  r1 = r2.
Proof.
  intros H1 H2.
  apply (split_loop_more_fuel _ _ _ fuel2) in H1.
  apply (split_loop_more_fuel _ _ _ fuel1) in H2.
  rewrite (Nat.add_comm fuel2 fuel1) in H2. congruence.
Qed.

(** A pass that hands the loop back the state it started from is repeated
    for ever: no amount of fuel lets the loop leave. *)
Lemma split_loop_stuck self text start chunks :
  start < Py.len text ->
  loop_body self text start chunks = Again start chunks ->
  forall fuel, split_loop self text fuel start chunks = None.
Proof.
  intros Hlt Hbody fuel.
  induction fuel as [|fuel IH]; simpl;
    destruct (Z.ltb_spec start (Py.len text)); try lia; [reflexivity|].
  now rewrite Hbody.
Qed.

(** A text that fits in one window leaves the loop on the first pass. *)
Lemma split_single_window self text fuel :
  0 < Py.len text ->
  Py.len text <= chunk_size self ->
  _split_into_chunks self (S fuel) text
  = Some (keep_chunk self [] (Py.strip text)).
Proof.
  intros Hpos Hfit. unfold _split_into_chunks. simpl.
  destruct (Z.ltb_spec 0 (Py.len text)); [|lia].
  unfold loop_body.
  destruct (Z.geb_spec (0 + chunk_size self) (Py.len text)); [|lia].
  now rewrite slice_from_0.
Qed.

(** The empty text never enters the loop. *)
Lemma split_empty self fuel : _split_into_chunks self fuel "" = Some [].
Proof. now destruct fuel. Qed.

Lemma merge_single chunk : merge_chunks [chunk] = chunk.
Proof. reflexivity. Qed.

(** A sentence match has a terminator and a whitespace character. *)
Lemma sentence_here_length l n : Re.sentence_here l = Some n -> (2 <= n)%nat.
Proof.
  unfold Re.sentence_here.
  destruct (Re.span Re.is_terminator l) as [|k]; [discriminate|].
  destruct (Re.span Py.isspace _) as [|w]; [discriminate|].
  intros [= <-]. lia.
Qed.

(** A match found from position [i] on starts at or after [i]. *)
Lemma sentence_scan_bounds l i a b :
  Re.sentence_scan l i = Some (a, b) -> (i <= a /\ a + 2 <= b)%nat.
Proof.
  revert i. induction l as [|c l IH]; intros i; [discriminate|].
  cbn [Re.sentence_scan].
  destruct (Re.sentence_here (c :: l)) as [n|] eqn:Hhere.
  - intros [= <- <-]. apply sentence_here_length in Hhere. lia.
  - intros H. apply IH in H. lia.
Qed.

(** The end of a match lies at least two characters into the window. *)
Lemma sentence_search_end text pos endpos a b :
  Re.sentence_search text pos endpos = Some (a, b) ->
  Re.clip (Py.len text) pos + 2 <= b.
Proof.
  unfold Re.sentence_search.
  destruct (Re.sentence_scan _ _) as [[a' b']|] eqn:Hscan; [|discriminate].
  intros [= <- <-]. apply sentence_scan_bounds in Hscan.
  assert (0 <= Re.clip (Py.len text) pos).
  { unfold Re.clip, Py.len.
    destruct (pos <? 0) eqn:?; [lia|].
    destruct (_ <? pos) eqn:?; lia. }
  lia.
Qed.

(** The cut is never more than 98 characters before the nominal end. *)
Lemma cut_lower_bound text nominal :
  nominal < Py.len text -> nominal - 98 <= cut text nominal.
Proof.
  intros Hin. unfold cut.
  destruct (Re.sentence_search text (nominal - 100) (nominal + 100))
    as [[a b]|] eqn:Hsearch; [|lia].
  apply sentence_search_end in Hsearch.
  unfold Re.clip in Hsearch.
  destruct (nominal - 100 <? 0) eqn:Hneg; [lia|].
  destruct (Py.len text <? nominal - 100) eqn:Hbig; lia.
Qed.

(** With more than 98 characters between the overlap and the window size,
    a pass that does not leave the loop moves [start] forward. *)
Lemma loop_body_progress self text start chunks start' chunks' :
  chunk_overlap self + 98 < chunk_size self ->
  loop_body self text start chunks = Again start' chunks' ->
  start < start'.
Proof.
  intros Hroom. unfold loop_body.
  destruct (Z.geb_spec (start + chunk_size self) (Py.len text)) as [|Hin];
    [discriminate|].
  intros [= <- _]. apply cut_lower_bound in Hin. lia.
Qed.

Lemma split_loop_terminates self text :
  chunk_overlap self + 98 < chunk_size self ->
  forall fuel start chunks,
    (Z.to_nat (Py.len text - start) < fuel)%nat ->
    exists result, split_loop self text fuel start chunks = Some result.
Proof.
  intros Hroom fuel.
  induction fuel as [|fuel IH]; intros start chunks Hfuel; [lia|].
  cbn [split_loop].
  destruct (Z.ltb_spec start (Py.len text)) as [Hin|]; [|eauto].
  destruct (loop_body self text start chunks) as [cs|start' cs] eqn:Hbody;
    [eauto|].
  apply loop_body_progress in Hbody; [|exact Hroom].
  apply IH. lia.
Qed.

End Chunker.

(** C2, refuted on the code: with chunk_size=4, chunk_overlap=1 and
    min_chunk_size=1 (so chunk_overlap < chunk_size) the chunking loop of
    [_split_into_chunks] on the text [A. B. C.] does not make progress.  The
    first pass cuts at the sentence end 3 and sets start to 2; in the second
    pass the sentence search, whose window opens 100 characters before the
    nominal end, finds the same match again, so the pass ends with start = 2
    and the same chunk list it began with.  The loop never leaves: no
    amount of fuel yields a result. *)
Theorem split_example_never_returns :
  DocumentProcessor.chunk_overlap small_windows
    < DocumentProcessor.chunk_size small_windows /\
  DocumentProcessor.loop_body small_windows "A. B. C." 0 []
    = DocumentProcessor.Again 2 ["A."] /\
  DocumentProcessor.loop_body small_windows "A. B. C." 2 ["A."]
    = DocumentProcessor.Again 2 ["A."] /\
  forall fuel,
    DocumentProcessor._split_into_chunks small_windows fuel "A. B. C." = None.
Proof.
  assert (Hfirst : DocumentProcessor.loop_body small_windows "A. B. C." 0 []
                   = DocumentProcessor.Again 2 ["A."])
    by (vm_compute; reflexivity).
  assert (Hsecond : DocumentProcessor.loop_body small_windows "A. B. C." 2 ["A."]
                    = DocumentProcessor.Again 2 ["A."])
    by (vm_compute; reflexivity).
  repeat split; trivial.
  intros [|fuel]; [reflexivity|].
  unfold DocumentProcessor._split_into_chunks.
  cbn [DocumentProcessor.split_loop].
  change (0 <? Py.len "A. B. C.") with true. cbv iota. rewrite Hfirst.
  apply split_loop_stuck; [reflexivity | exact Hsecond].
Qed.

(** Where the loop does return: when more than 98 characters separate the
    overlap from the window size (chunk_overlap + 98 < chunk_size, as in the
    default 200 and 1000), every pass that stays in the loop moves start
    forward, and [_split_into_chunks] returns within len(text) + 1 passes. *)
Theorem split_returns_with_room (self : DocumentProcessor.t) (text : string) :
  DocumentProcessor.chunk_overlap self + 98
    < DocumentProcessor.chunk_size self ->
  (forall start chunks start' chunks',
     DocumentProcessor.loop_body self text start chunks
     = DocumentProcessor.Again start' chunks' -> start < start') /\
  exists chunks,
    forall fuel, (Z.to_nat (Py.len text) < fuel)%nat ->
      DocumentProcessor._split_into_chunks self fuel text = Some chunks.
Proof.
  intros Hroom. split.
  - intros start chunks start' chunks'. now apply loop_body_progress.
  - destruct (split_loop_terminates self text Hroom
                (S (Z.to_nat (Py.len text))) 0 [])
      as [chunks Hchunks]; [rewrite Z.sub_0_r; lia|].
    exists chunks. intros fuel Hfuel.
    replace fuel
      with (S (Z.to_nat (Py.len text)) + (fuel - S (Z.to_nat (Py.len text))))%nat
      by lia.
    now apply split_loop_more_fuel.
Qed.

Lemma split_returns_with_room_witness :
  (forall start chunks start' chunks',
     DocumentProcessor.loop_body DocumentProcessor.default "A. B. C."
       start chunks
     = DocumentProcessor.Again start' chunks' -> start < start') /\
  exists chunks,
    forall fuel, (Z.to_nat (Py.len "A. B. C.") < fuel)%nat ->
      DocumentProcessor._split_into_chunks
        DocumentProcessor.default fuel "A. B. C." = Some chunks.
Proof.
  apply (split_returns_with_room DocumentProcessor.default "A. B. C.").
  vm_compute. reflexivity.
Defined.

(** The chunks of [periodic_text] merge into 1000 characters other than
    whitespace, of the 1100 the text has. *)
Lemma periodic_text_merged (normalize : string -> string) :
  normalize = DocumentProcessor._clean_text \/
  normalize = without_whitespace ->
  option_map (fun chunks =>
                Py.len (normalize (DocumentProcessor.merge_chunks chunks)))
             (DocumentProcessor._split_into_chunks
                DocumentProcessor.default 2 periodic_text)
  = Some 1000 /\
  Py.len (normalize periodic_text) = 1100.
Proof. intros [-> | ->]; split; vm_compute; reflexivity. Qed.

(** C3 fails as stated.  With the default configuration (1000, 200, 100) the
    text [periodic_text] is cut into its first 1000 characters and its last
    300.  The text repeats with period 10, so the longest suffix of the
    first chunk that is a prefix of the second one has 300 characters, not
    the 200 that really overlap: [merge_chunks] strips the whole second
    chunk and the last 100 characters of the text are lost.  The merged text
    differs from the original under the normalization of [_clean_text], and
    even when whitespace is ignored altogether. *)
Lemma merge_split_loses_text :
  DocumentProcessor.min_chunk_size DocumentProcessor.default
    <= Py.len periodic_text /\
  ~ reconstructs DocumentProcessor._clean_text
      DocumentProcessor.default periodic_text /\
  ~ reconstructs without_whitespace DocumentProcessor.default periodic_text.
Proof.
  assert (forall normalize,
            normalize = DocumentProcessor._clean_text \/
            normalize = without_whitespace ->
            ~ reconstructs normalize DocumentProcessor.default periodic_text)
    as Hlost.
  { intros normalize Hnormalize (fuel & chunks & Hsplit & Hmerge).
    destruct (periodic_text_merged normalize Hnormalize) as [Hlen Htext].
    destruct (DocumentProcessor._split_into_chunks
                DocumentProcessor.default 2 periodic_text) as [l|] eqn:Hrun;
      [|discriminate].
    assert (chunks = l) as ->
      by exact (split_loop_deterministic _ _ _ _ _ _ _ _ Hsplit Hrun).
    simpl in Hlen. rewrite Hmerge, Htext in Hlen. discriminate. }
  split; [now vm_compute|]. split; apply Hlost; auto.
Qed.

(** The same loss in the small configuration, on a text one can trace by
    hand: eight letters are cut into aaaa, aaaa, aa and merged into six. *)
Example merge_split_small_windows :
  DocumentProcessor._split_into_chunks small_windows 3 "aaaaaaaa"
  = Some ["aaaa"; "aaaa"; "aa"] /\
  DocumentProcessor.merge_chunks ["aaaa"; "aaaa"; "aa"] = "aaaa  aa".
Proof. split; vm_compute; reflexivity. Qed.

(** A cut inside a word leaves a space in the merged text. *)
Example merge_split_inside_word :
  DocumentProcessor._split_into_chunks small_windows 3 "abcdefgh"
  = Some ["abcd"; "defg"; "gh"] /\
  DocumentProcessor.merge_chunks ["abcd"; "defg"; "gh"] = "abcd efg h".
Proof. split; vm_compute; reflexivity. Qed.

(** ** [process_document]: the identifier and the caller's dictionary *)

Section ProcessDocument.

Import DocumentProcessor.

Variable md5_hexdigest : string -> string.
Variable float_repr : Q -> string.

(** The call returns as soon as the chunking loop does, and its document
    carries the identifier computed from the cleaned content and from the
    dictionary the metadata argument refers to. *)
Lemma process_document_returns self fuel now_id now_update (h : heap)
    content (metadata : option loc) cs :
  _split_into_chunks self fuel (_clean_text content) = Some cs ->
  exists doc h',
    process_document md5_hexdigest float_repr self fuel now_id now_update h
      content metadata = Some (doc, h') /\
    id doc = _generate_doc_id md5_hexdigest float_repr now_id
               (_clean_text content) (l ← metadata; h !! l) /\
    chunks doc = cs.
Proof.
  intros Hsplit. unfold process_document.
  destruct metadata as [l|]; rewrite Hsplit; simpl; eauto.
Qed.

Lemma process_document_id self fuel now_id now_update (h : heap)
    content (metadata : option loc) doc h' :
  process_document md5_hexdigest float_repr self fuel now_id now_update h
    content metadata = Some (doc, h') ->
  id doc = _generate_doc_id md5_hexdigest float_repr now_id
             (_clean_text content) (l ← metadata; h !! l).
Proof.
  unfold process_document.
  destruct metadata as [l|];
    destruct (_split_into_chunks self fuel (_clean_text content));
    simpl; intros [= <- _]; reflexivity.
Qed.

(** With an ['id'] entry the identifier is that entry, whatever the clock
    and the content. *)
Lemma generate_doc_id_given now content (m : dict) v :
  m !! "id" = Some v ->
  _generate_doc_id md5_hexdigest float_repr now content (Some m)
  = Val.str float_repr v.
Proof. intros Hid. unfold _generate_doc_id. simpl. now rewrite Hid. Qed.

(** Without one it is built from the clock reading and the digest. *)
Lemma generate_doc_id_hashed now content (metadata : option dict) :
  metadata ≫= (.!! "id") = None ->
  _generate_doc_id md5_hexdigest float_repr now content metadata
  = "doc_" +:+ DateTime.strftime_compact now +:+ "_"
      +:+ Py.slice (md5_hexdigest content) None (Some 8).
Proof. intros Hid. unfold _generate_doc_id. now rewrite Hid. Qed.

(** The identifier depends on the clock through the second only. *)
Lemma generate_doc_id_same_second now1 now2 content metadata :
  DateTime.strftime_compact now1 = DateTime.strftime_compact now2 ->
  _generate_doc_id md5_hexdigest float_repr now1 content metadata
  = _generate_doc_id md5_hexdigest float_repr now2 content metadata.
Proof. intros Heq. unfold _generate_doc_id. now rewrite Heq. Qed.

End ProcessDocument.

(** C9 fails as stated, whatever the digest: processing the content [hello]
    without metadata at 2024-01-01 00:00:00 and again one second later gives
    identifiers that start with doc_20240101000000_ and
    doc_20240101000001_. *)
Lemma doc_id_changes_with_the_clock :
  ~ exists md5_hexdigest float_repr,
      stable_identifier md5_hexdigest float_repr.
Proof.
  intros (md5 & float_repr & Hstable).
  destruct (process_document_returns md5 float_repr
              DocumentProcessor.default 1
              new_year new_year ∅ "hello" None [])
    as (doc1 & h1 & Hrun1 & Hid1 & _); [vm_compute; reflexivity|].
  destruct (process_document_returns md5 float_repr
              DocumentProcessor.default 1
              one_second_later one_second_later ∅ "hello" None [])
    as (doc2 & h2 & Hrun2 & Hid2 & _); [vm_compute; reflexivity|].
  pose proof (Hstable _ _ _ _ _ _ _ _ _ _ _ _ _ _ Hrun1 Hrun2) as Heq.
  rewrite Hid1, Hid2 in Heq.
  rewrite !generate_doc_id_hashed in Heq by reflexivity.
  change (DateTime.strftime_compact new_year) with "20240101000000" in Heq.
  change (DateTime.strftime_compact one_second_later)
    with "20240101000001" in Heq.
  simpl in Heq. discriminate Heq.
Qed.

(** C9, amended: the identifier is a function of the cleaned content, of the
    metadata and of the clock reading taken to the second.  When the
    metadata holds an ['id'] entry the identifier is str(metadata['id']);
    otherwise it is doc_, the clock reading as YYYYmmddHHMMSS, an underscore
    and the first 8 characters of the MD5 digest of the cleaned content.
    So two runs on the same content and metadata return the same identifier
    when the metadata holds an ['id'] entry, or when both runs read the
    same clock second. *)
Theorem doc_id_stable_given_id_or_same_second
    (md5_hexdigest : string -> string) (float_repr : Q -> string)
    self fuel1 fuel2 now_id1 now_update1 now_id2 now_update2
    (h : heap) content (metadata : option loc) doc1 h1 doc2 h2 :
  DocumentProcessor.process_document md5_hexdigest float_repr self fuel1
    now_id1 now_update1 h content metadata = Some (doc1, h1) ->
  DocumentProcessor.process_document md5_hexdigest float_repr self fuel2
    now_id2 now_update2 h content metadata = Some (doc2, h2) ->
  (forall v, (l ← metadata; h !! l) ≫= (.!! "id") = Some v ->
             DocumentProcessor.id doc1 = Val.str float_repr v /\
             DocumentProcessor.id doc2 = Val.str float_repr v) /\
  ((l ← metadata; h !! l) ≫= (.!! "id") = None ->
   DocumentProcessor.id doc1
   = "doc_" +:+ DateTime.strftime_compact now_id1 +:+ "_"
       +:+ Py.slice
             (md5_hexdigest (DocumentProcessor._clean_text content))
             None (Some 8) /\
   DocumentProcessor.id doc2
   = "doc_" +:+ DateTime.strftime_compact now_id2 +:+ "_"
       +:+ Py.slice
             (md5_hexdigest (DocumentProcessor._clean_text content))
             None (Some 8)) /\
  (is_Some ((l ← metadata; h !! l) ≫= (.!! "id")) \/
   DateTime.strftime_compact now_id1 = DateTime.strftime_compact now_id2 ->
   DocumentProcessor.id doc1 = DocumentProcessor.id doc2).
Proof.
  intros Hrun1 Hrun2.
  apply process_document_id in Hrun1. apply process_document_id in Hrun2.
  rewrite Hrun1, Hrun2. split; [|split].
  - intros v Hv. unfold DocumentProcessor._generate_doc_id.
    now rewrite Hv.
  - intros Hnone. now rewrite !generate_doc_id_hashed by exact Hnone.
  - intros [[v Hv]|Hsecond].
    + unfold DocumentProcessor._generate_doc_id. now rewrite Hv.
    + now apply generate_doc_id_same_second.
Qed.

Lemma doc_id_stable_given_id_or_same_second_witness :
  (forall v,
     (l ← Some 1%positive; heap_with_id !! l) ≫= (.!! "id") = Some v ->
     DocumentProcessor.id report_1_5 = Val.str example_repr v /\
     DocumentProcessor.id report_1_5 = Val.str example_repr v) /\
  ((l ← Some 1%positive; heap_with_id !! l) ≫= (.!! "id") = None ->
   DocumentProcessor.id report_1_5
   = "doc_" +:+ DateTime.strftime_compact new_year +:+ "_"
       +:+ Py.slice
             (example_digest (DocumentProcessor._clean_text "hello"))
             None (Some 8) /\
   DocumentProcessor.id report_1_5
   = "doc_" +:+ DateTime.strftime_compact one_second_later +:+ "_"
       +:+ Py.slice
             (example_digest (DocumentProcessor._clean_text "hello"))
             None (Some 8)) /\
  (is_Some ((l ← Some 1%positive; heap_with_id !! l) ≫= (.!! "id")) \/
   DateTime.strftime_compact new_year
   = DateTime.strftime_compact one_second_later ->
   DocumentProcessor.id report_1_5 = DocumentProcessor.id report_1_5).
Proof.
  apply (doc_id_stable_given_id_or_same_second example_digest example_repr
           DocumentProcessor.default 1 1
           new_year new_year one_second_later one_second_later
           heap_with_id "hello" (Some 1%positive)
           report_1_5 (heap_after "2024-01-01T00:00:00")
           report_1_5 (heap_after "2024-01-01T00:00:01")).
  - vm_compute. reflexivity.
  - vm_compute. reflexivity.
Defined.

(** C10: [process_document] writes into the dictionary the caller passed.
    When the call returns, the document's metadata is that very dictionary;
    it holds 'processed_at', 'chunk_size', 'chunk_overlap' and
    'total_chunks' (the clock reading, the two configured sizes and the
    number of chunks), every other key has the value it had before the call,
    and no other object of the heap changed. *)
Theorem process_document_updates_caller_metadata
    (md5_hexdigest : string -> string) (float_repr : Q -> string)
    self fuel now_id now_update
    (h : heap) content (l : loc) (m : dict) doc h' :
  h !! l = Some m ->
  DocumentProcessor.process_document md5_hexdigest float_repr self fuel
    now_id now_update h content (Some l) = Some (doc, h') ->
  DocumentProcessor.metadata doc = l /\
  (exists m' : dict,
     h' !! l = Some m' /\
     m' !! "processed_at" = Some (PStr (DateTime.isoformat now_update)) /\
     m' !! "chunk_size" = Some (PInt (DocumentProcessor.chunk_size self)) /\
     m' !! "chunk_overlap"
       = Some (PInt (DocumentProcessor.chunk_overlap self)) /\
     m' !! "total_chunks"
       = Some (PInt (Z.of_nat (length (DocumentProcessor.chunks doc)))) /\
     (forall k : string,
        k <> "processed_at" -> k <> "chunk_size" ->
        k <> "chunk_overlap" -> k <> "total_chunks" ->
        m' !! k = m !! k)) /\
  (forall l', l' <> l -> h' !! l' = h !! l').
Proof.
  intros Hm. unfold DocumentProcessor.process_document.
  destruct (DocumentProcessor._split_into_chunks self fuel
              (DocumentProcessor._clean_text content)) as [cs|];
    simpl; [|discriminate].
  intros [= <- <-]. simpl. split; [reflexivity|]. split.
  - eexists. split.
    + rewrite !lookup_alter_eq, Hm. reflexivity.
    + unfold Val.update, DocumentProcessor.processing_metadata.
      repeat split.
      * rewrite lookup_insert_ne by done.
        erewrite lookup_union_Some_l; [reflexivity|]. now simplify_map_eq.
      * rewrite lookup_insert_ne by done.
        erewrite lookup_union_Some_l; [reflexivity|]. now simplify_map_eq.
      * rewrite lookup_insert_ne by done.
        erewrite lookup_union_Some_l; [reflexivity|]. now simplify_map_eq.
      * now rewrite lookup_insert_eq.
      * intros k H1 H2 H3 H4.
        rewrite lookup_insert_ne by done.
        rewrite lookup_union_r; [reflexivity|]. now simplify_map_eq.
  - intros l' Hl'. now rewrite !lookup_alter_ne.
Qed.

(** When more than 98 characters separate the overlap from the window
    size, the call returns. *)
Lemma process_document_returns_with_room
    (md5_hexdigest : string -> string) (float_repr : Q -> string)
    self now_id now_update
    (h : heap) content (metadata : option loc) :
  DocumentProcessor.chunk_overlap self + 98
    < DocumentProcessor.chunk_size self ->
  exists fuel doc h',
    DocumentProcessor.process_document md5_hexdigest float_repr self fuel
      now_id now_update h content metadata = Some (doc, h').
Proof.
  intros Hroom.
  destruct (split_loop_terminates self
              (DocumentProcessor._clean_text content) Hroom
              (S (Z.to_nat (Py.len (DocumentProcessor._clean_text content))))
              0 []) as [cs Hcs]; [rewrite Z.sub_0_r; lia|].
  destruct (process_document_returns md5_hexdigest float_repr self _
              now_id now_update
              h content metadata cs Hcs) as (doc & h' & Hrun & _).
  eauto.
Qed.

Lemma process_document_updates_caller_metadata_witness :
  DocumentProcessor.metadata hello_document = 1%positive /\
  (exists m' : dict,
     caller_heap_after !! 1%positive = Some m' /\
     m' !! "processed_at"
       = Some (PStr (DateTime.isoformat one_second_later)) /\
     m' !! "chunk_size"
       = Some (PInt (DocumentProcessor.chunk_size note_taker)) /\
     m' !! "chunk_overlap"
       = Some (PInt (DocumentProcessor.chunk_overlap note_taker)) /\
     m' !! "total_chunks"
       = Some (PInt (Z.of_nat
                       (length (DocumentProcessor.chunks hello_document)))) /\
     (forall k : string,
        k <> "processed_at" -> k <> "chunk_size" ->
        k <> "chunk_overlap" -> k <> "total_chunks" ->
        m' !! k = caller_metadata !! k)) /\
  (forall l', l' <> 1%positive ->
              caller_heap_after !! l' = caller_heap !! l').
Proof.
  apply (process_document_updates_caller_metadata example_digest example_repr
           note_taker 1 new_year one_second_later
           caller_heap "  hello " 1%positive caller_metadata
           hello_document caller_heap_after).
  - vm_compute. reflexivity.
  - vm_compute. reflexivity.
Defined.

(** ** The vector store *)

Lemma Qle_bool_inject_Z (a b : Z) :
  Qle_bool (inject_Z a) (inject_Z b) = (a <=? b).
Proof. unfold Qle_bool, inject_Z. simpl. now rewrite !Z.mul_1_r. Qed.

(** [a >= b] on two integers. *)
Lemma ge_int_int (a b : Z) : Val.ge (PInt a) (PInt b) = Ok (b <=? a).
Proof. unfold Val.ge. simpl. now rewrite Qle_bool_inject_Z. Qed.

Section VectorStoreFacts.

Import VectorStore.

Context {F : Type}.
Implicit Types (self : VectorStore.t F) (ix : Faiss.index F).

Variable reconstruct_unchecked : Faiss.index F -> Z -> result (list F).

Abbreviation get_vector := (get_vector reconstruct_unchecked).
Abbreviation rebuild_loop := (rebuild_loop reconstruct_unchecked).
Abbreviation _rebuild_index := (_rebuild_index reconstruct_unchecked).
Abbreviation delete_vector := (delete_vector reconstruct_unchecked).

Lemma ntotal_nonneg ix : 0 <= Faiss.ntotal ix.
Proof. unfold Faiss.ntotal. lia. Qed.

(** An id at or past the count is answered with [None]. *)
Lemma get_vector_beyond self (n : Z) :
  Faiss.ntotal (index self) <= n -> get_vector self (PInt n) = Ok None.
Proof.
  intros Hn. unfold VectorStore.get_vector. rewrite ge_int_int. simpl.
  destruct (Z.leb_spec (Faiss.ntotal (index self)) n); [reflexivity|lia].
Qed.

(** An id below the count goes to [reconstruct], and what comes back goes
    to [vector_to_array], which refuses it: below the guard the call never
    returns normally. *)
Lemma get_vector_below self (n : Z) :
  n < Faiss.ntotal (index self) ->
  get_vector self (PInt n)
  = match Faiss.reconstruct reconstruct_unchecked (index self) n with
    | Ok _ => Raise AssertionError
    | Raise e => Raise e
    end.
Proof.
  intros Hn. unfold VectorStore.get_vector. rewrite ge_int_int. simpl.
  destruct (Z.leb_spec (Faiss.ntotal (index self)) n); [lia|].
  now destruct (Faiss.reconstruct _ _ _).
Qed.

(** A stored id reaches the stored vector, and the conversion fails. *)
Lemma get_vector_stored self (n : Z) :
  0 <= n < Faiss.ntotal (index self) ->
  get_vector self (PInt n) = Raise AssertionError.
Proof.
  intros [H0 Hn]. rewrite get_vector_below by exact Hn.
  unfold Faiss.reconstruct.
  destruct (Z.leb_spec 0 n); [|lia].
  destruct (Z.ltb_spec n (Faiss.ntotal (index self))); [|lia]. simpl.
  destruct (Faiss.xb (index self) !! Z.to_nat n) as [v|] eqn:Hv;
    [reflexivity|].
  apply lookup_ge_None in Hv. unfold Faiss.ntotal in Hn. lia.
Qed.

(** Rebuilding over an empty index adds nothing: every id is at or past
    the count 0, so [get_vector] answers [None] each time. *)
Lemma rebuild_loop_on_empty_index (metas : list dict) self :
  Faiss.ntotal (index self) = 0 ->
  Forall has_id metas ->
  rebuild_loop metas self = (Ok tt, self).
Proof.
  intros Hempty Hids.
  induction Hids as [|meta metas (n & Hid & Hn) _ IH]; [reflexivity|].
  simpl. unfold Val.getitem. rewrite Hid. simpl.
  rewrite get_vector_beyond by lia. exact IH.
Qed.

Lemma other_metadata_with_ids (metas : list dict) (vector_id : Z) :
  Forall has_id metas ->
  other_metadata metas vector_id
  = Ok (List.filter (survives vector_id) metas).
Proof.
  unfold other_metadata.
  induction 1 as [|meta metas (n & Hid & Hn) _ IH]; [reflexivity|].
  cbn [filterM List.filter]. rewrite IH.
  unfold survives, Val.getitem, Val.get. rewrite Hid. simpl.
  now destruct (negb (n =? vector_id)).
Qed.

Lemma filter_has_id (p : dict -> bool) (metas : list dict) :
  Forall has_id metas -> Forall has_id (List.filter p metas).
Proof.
  induction 1 as [|meta metas Hmeta _ IH]; simpl; [constructor|].
  destruct (p meta); [constructor|]; assumption.
Qed.

(** After [delete_vector] the index is empty, whatever it held: the
    survivors are looked up in the index that has just replaced the old
    one.  The metadata list keeps the survivors, old ids included. *)
Lemma delete_vector_leaves_empty_index self (vector_id : Z) :
  index_type self = "L2" \/ index_type self = "IP" ->
  Forall has_id (metadata self) ->
  exists self',
    delete_vector self vector_id = (Ok tt, self') /\
    Faiss.ntotal (index self') = 0 /\
    metadata self' = List.filter (survives vector_id) (metadata self).
Proof.
  intros Htype Hids. unfold VectorStore.delete_vector.
  rewrite other_metadata_with_ids by exact Hids.
  unfold VectorStore._rebuild_index, _init_index. simpl.
  destruct Htype as [-> | ->]; simpl;
    (rewrite rebuild_loop_on_empty_index;
       [|reflexivity|now apply filter_has_id]);
    eexists; repeat split.
Qed.

(** The part of the not-found contract the guard of [get_vector] covers:
    an id at or past the current count is answered with [None], without an
    exception. *)
Theorem get_vector_past_the_count self (n : Z) :
  Faiss.ntotal (index self) <= n -> get_vector self (PInt n) = Ok None.
Proof. apply get_vector_beyond. Qed.

(** C8, refuted on the code: [get_vector] never answers a negative id
    with [None].  The only guard is [vector_id >= self.index.ntotal], which
    a negative id never meets, so the id reaches [reconstruct], which does
    not check it.  Whatever [reconstruct] does then, the call ends with an
    exception: the one [reconstruct] raised, or else the [AssertionError]
    of [faiss.vector_to_array] on the array [reconstruct] returned. *)
Theorem get_vector_negative_never_none self (k : positive) :
  (exists e, get_vector self (PInt (Z.neg k)) = Raise e) /\
  (forall array,
     reconstruct_unchecked (index self) (Z.neg k) = Ok array ->
     get_vector self (PInt (Z.neg k)) = Raise AssertionError) /\
  (forall e,
     reconstruct_unchecked (index self) (Z.neg k) = Raise e ->
     get_vector self (PInt (Z.neg k)) = Raise e).
Proof.
  rewrite get_vector_below by (pose proof (ntotal_nonneg (index self)); lia).
  unfold Faiss.reconstruct. simpl.
  destruct (reconstruct_unchecked (index self) (Z.neg k)) as [array|e];
    (split; [eauto|split; [intros ? [= <-] || intros ? [=]
                          |intros ? [= <-] || intros ? [=]]]);
    reflexivity.
Qed.

(** A stored vector cannot be fetched either: for every id below the
    count, [reconstruct] returns the vector as an array, and
    [faiss.vector_to_array], which converts C++ vector wrappers, refuses
    an array. *)
Theorem get_vector_stored_id_raises self (n : Z) :
  0 <= n < Faiss.ntotal (index self) ->
  get_vector self (PInt n) = Raise AssertionError.
Proof. apply get_vector_stored. Qed.

Lemma init_index_matches dimension index_type self :
  __init__ dimension index_type = Ok self -> index_matches_dimension self.
Proof.
  unfold __init__, _init_index. simpl.
  destruct (String.eqb index_type "L2"); [intros [= <-]; reflexivity|].
  destruct (String.eqb index_type "IP"); [intros [= <-]; reflexivity|].
  discriminate.
Qed.

Lemma add_given_metadata_index clock ids i given self r self' :
  add_given_metadata clock ids i given self = (r, self') ->
  index self' = index self /\ dimension self' = dimension self /\
  index_type self' = index_type self.
Proof.
  revert i self. induction given as [|meta given IH]; intros i self; simpl.
  - now intros [= _ <-].
  - destruct (ids !! i); [|now intros [= _ <-]].
    intros H. now apply IH in H.
Qed.

Lemma add_vectors_index_matches self clock vectors given r self' :
  index_matches_dimension self ->
  add_vectors self clock vectors given = (r, self') ->
  index_matches_dimension self'.
Proof.
  unfold index_matches_dimension, add_vectors. intros Hd.
  destruct (Faiss.np_array vectors) as [x|e]; [|now intros [= _ <-]].
  destruct (Faiss.add (index self) x) as [ix|e] eqn:Hadd;
    [|now intros [= _ <-]].
  assert (Faiss.d ix = dimension self) as Hix.
  { unfold Faiss.add in Hadd. destruct x; [discriminate|].
    destruct (_ =? _); [|discriminate]. now injection Hadd as <-. }
  destruct given as [[|meta metas]|]; try (now intros [= _ <-]).
  destruct (add_given_metadata _ _ _ _ _) as [[u|e] s] eqn:Hloop;
    apply add_given_metadata_index in Hloop as (Hi & Hdim & _);
    intros [= _ <-];
    now rewrite Hi, Hdim.
Qed.

(** C4, amended: [load] raises exactly when one of the two files exists
    and cannot be read.  Otherwise it returns normally with the index and
    the metadata list each file holds (the old value where the file is
    missing) and compares nothing: the store it leaves is aligned exactly
    when what was read is. *)
Theorem load_restores_without_check self (dsk : disk F) :
  match load self dsk with
  | (Ok _, self') =>
      index_faiss dsk <> Some Corrupt /\
      metadata_pkl dsk <> Some Corrupt /\
      index self' = stored_index self dsk /\
      metadata self' = stored_metadata self dsk /\
      (aligned self' <->
       Faiss.ntotal (stored_index self dsk)
       = Z.of_nat (length (stored_metadata self dsk)))
  | (Raise _, _) =>
      index_faiss dsk = Some Corrupt \/ metadata_pkl dsk = Some Corrupt
  end.
Proof.
  unfold load, stored_index, stored_metadata, aligned.
  destruct (index_faiss dsk) as [[ix|]|];
    destruct (metadata_pkl dsk) as [[metas|]|]; simpl;
    intuition congruence.
Qed.

(** On success [add_vectors] hands out the ids
    range(ntotal, ntotal + len(vectors)) and appends the vectors to the
    index in the order given. *)
Theorem add_vectors_assigns_next_ids self clock
    (vectors : list (list F)) (given : option (list dict)) ids self' :
  add_vectors self clock vectors given = (Ok ids, self') ->
  ids = range_from (Faiss.ntotal (index self)) (length vectors) /\
  Faiss.xb (index self') = (Faiss.xb (index self) ++ vectors)%list /\
  Faiss.ntotal (index self')
  = Faiss.ntotal (index self) + Z.of_nat (length vectors).
Proof.
  unfold add_vectors, Faiss.np_array.
  destruct vectors as [|v rest]; [discriminate|].
  destruct (forallb _ rest); [|discriminate].
  unfold Faiss.add. destruct (_ =? _); [|discriminate].
  cbn [Faiss.array_len]. rewrite Nat2Z.id.
  assert (forall s : VectorStore.t F,
            Faiss.xb (index s) = (Faiss.xb (index self) ++ v :: rest)%list ->
            Faiss.ntotal (index s)
            = Faiss.ntotal (index self) + Z.of_nat (length (v :: rest)))
    as Hcount.
  { intros s Hs. unfold Faiss.ntotal. rewrite Hs, length_app. lia. }
  destruct given as [[|meta metas]|].
  - intros [= <- <-]. auto.
  - destruct (add_given_metadata _ _ _ _ _) as [[u|e] s] eqn:Hloop;
      [|discriminate].
    apply add_given_metadata_index in Hloop as (Hi & _).
    intros [= <- <-]. rewrite Hi. auto.
  - intros [= <- <-]. auto.
Qed.

Lemma range_from_nonneg (start : Z) (n : nat) :
  0 <= start -> Forall (fun z => 0 <= z) (range_from start n).
Proof.
  intros Hstart. unfold range_from. apply Forall_forall.
  intros z Hz. apply list_elem_of_In, in_map_iff in Hz as (i & <- & _). lia.
Qed.

Lemma add_given_metadata_has_id clock ids i given self r self' :
  Forall (fun z => 0 <= z) ids ->
  Forall has_id (metadata self) ->
  add_given_metadata clock ids i given self = (r, self') ->
  Forall has_id (metadata self').
Proof.
  intros Hids. revert i self.
  induction given as [|meta given IH]; intros i self Hself; simpl.
  - now intros [= _ <-].
  - destruct (ids !! i) as [vector_id|] eqn:Hi; [|now intros [= _ <-]].
    apply IH. simpl. apply Forall_app. split; [exact Hself|].
    constructor; [|constructor].
    exists vector_id. split.
    + rewrite lookup_insert_ne by done. apply lookup_insert_eq.
    + rewrite Forall_forall in Hids. apply Hids.
      now apply list_elem_of_lookup_2 in Hi.
Qed.

Lemma fresh_metadata_has_id clock ids :
  Forall (fun z => 0 <= z) ids -> Forall has_id (fresh_metadata clock ids).
Proof.
  intros Hids. unfold fresh_metadata. apply Forall_forall.
  intros meta Hmeta.
  apply elem_of_lookup_imap in Hmeta as (i & vector_id & -> & Hi).
  exists vector_id. split.
  - apply lookup_insert_eq.
  - rewrite Forall_forall in Hids. apply Hids.
    now apply list_elem_of_lookup_2 in Hi.
Qed.

(** Every entry [add_vectors] leaves in the metadata list carries a
    non-negative integer ['vector_id']. *)
Lemma add_vectors_has_id self clock vectors given r self' :
  Forall has_id (metadata self) ->
  add_vectors self clock vectors given = (r, self') ->
  Forall has_id (metadata self').
Proof.
  intros Hself. unfold add_vectors.
  destruct (Faiss.np_array vectors) as [x|e]; [|now intros [= _ <-]].
  destruct (Faiss.add (index self) x) as [ix|e]; [|now intros [= _ <-]].
  pose proof (range_from_nonneg (Faiss.ntotal (index self))
                (Z.to_nat (Faiss.array_len x))
                (ntotal_nonneg (index self))) as Hids.
  destruct given as [[|meta metas]|].
  - intros [= _ <-]. simpl. apply Forall_app. split; [exact Hself|].
    now apply fresh_metadata_has_id.
  - destruct (add_given_metadata _ _ _ _ _) as [[u|e] s] eqn:Hloop;
      intros [= _ <-];
      eapply add_given_metadata_has_id; try exact Hloop; assumption.
  - intros [= _ <-]. simpl. apply Forall_app. split; [exact Hself|].
    now apply fresh_metadata_has_id.
Qed.

Lemma add_vectors_index_type self clock vectors given r self' :
  add_vectors self clock vectors given = (r, self') ->
  index_type self' = index_type self.
Proof.
  unfold add_vectors.
  destruct (Faiss.np_array vectors) as [x|e]; [|now intros [= _ <-]].
  destruct (Faiss.add (index self) x) as [ix|e]; [|now intros [= _ <-]].
  destruct given as [[|meta metas]|]; try (now intros [= _ <-]).
  destruct (add_given_metadata _ _ _ _ _) as [[u|e] s] eqn:Hloop;
    apply add_given_metadata_index in Hloop as (_ & _ & Htype);
    now intros [= _ <-].
Qed.

(** What holds of every store built by the constructor and [add_vectors]:
    a supported index type, an index of the configured dimension, and
    metadata entries that carry their id. *)
Lemma built_invariants self :
  built self ->
  (index_type self = "L2" \/ index_type self = "IP") /\
  index_matches_dimension self /\
  Forall has_id (metadata self).
Proof.
  induction 1 as [dimension index_type self Hinit
                 |self clock vectors given r self' _ (Htype & Hd & Hids) Hadd].
  - split; [|split; [now apply init_index_matches in Hinit|]];
      revert Hinit; unfold __init__, _init_index; simpl;
      destruct (String.eqb_spec index_type "L2") as [->|];
      try (intros [= <-]; simpl; auto; fail);
      destruct (String.eqb_spec index_type "IP") as [->|];
      try (intros [= <-]; simpl; auto; fail); discriminate.
  - split; [|split].
    + now rewrite (add_vectors_index_type _ _ _ _ _ _ Hadd).
    + exact (add_vectors_index_matches _ _ _ _ _ _ Hd Hadd).
    + exact (add_vectors_has_id _ _ _ _ _ _ Hids Hadd).
Qed.


(** On every such store [delete_vector] returns with an empty index. *)
Lemma delete_vector_on_built_store self (vector_id : Z) :
  built self ->
  exists self',
    delete_vector self vector_id = (Ok tt, self') /\
    Faiss.ntotal (index self') = 0 /\
    metadata self' = List.filter (survives vector_id) (metadata self).
Proof.
  intros Hbuilt. apply built_invariants in Hbuilt as (Htype & _ & Hids).
  now apply delete_vector_leaves_empty_index.
Qed.

End VectorStoreFacts.

(** *** The vector store on concrete data *)

(** C1, refuted on the code: a store is filled with three vectors (ids 0,
    1, 2, count 3) and [delete_vector(1)] is called.  The call returns
    normally, the metadata list keeps the entries of ids 0 and 2, and the
    index holds no vector at all: the count went from 3 to 0, not to 2, and
    no survivor was inserted again.  [_rebuild_index] replaces [self.index]
    by a new empty index before it fetches the survivors through
    [get_vector], which therefore answers [None] for every id.  This holds
    whatever [reconstruct] does outside its range: it is never reached. *)
Theorem delete_vector_example
    (reconstruct_unchecked : Faiss.index Z -> Z -> result (list Z)) :
  exists filled after : VectorStore.t Z,
    VectorStore.__init__ 2 "L2" = Ok empty_store /\
    VectorStore.add_vectors empty_store midnight [[1; 2]; [3; 4]; [5; 6]] None
    = (Ok [0; 1; 2], filled) /\
    Faiss.ntotal (VectorStore.index filled) = 3 /\
    VectorStore.delete_vector reconstruct_unchecked filled 1
    = (Ok tt, after) /\
    Faiss.ntotal (VectorStore.index after) = 0 /\
    map (.!! "vector_id") (VectorStore.metadata after)
    = [Some (PInt 0); Some (PInt 2)] /\
    VectorStore.get_vector reconstruct_unchecked after (PInt 0) = Ok None.
Proof.
  do 2 eexists. repeat split; vm_compute; reflexivity.
Qed.

Lemma add_vectors_assigns_next_ids_witness :
  [3; 4] = VectorStore.range_from
             (Faiss.ntotal (VectorStore.index filled_store))
             (length [[7; 8]; [9; 10]]) /\
  Faiss.xb (VectorStore.index
              (snd (VectorStore.add_vectors filled_store midnight
                      [[7; 8]; [9; 10]] None)))
  = (Faiss.xb (VectorStore.index filled_store) ++ [[7; 8]; [9; 10]])%list /\
  Faiss.ntotal (VectorStore.index
                  (snd (VectorStore.add_vectors filled_store midnight
                          [[7; 8]; [9; 10]] None)))
  = Faiss.ntotal (VectorStore.index filled_store)
    + Z.of_nat (length [[7; 8]; [9; 10]]).
Proof.
  apply (add_vectors_assigns_next_ids filled_store midnight
           [[7; 8]; [9; 10]] None).
  vm_compute. reflexivity.
Defined.

Lemma get_vector_past_the_count_witness :
  VectorStore.get_vector foreign_memory filled_store (PInt 3) = Ok None.
Proof.
  apply (get_vector_past_the_count foreign_memory filled_store 3).
  vm_compute. discriminate.
Defined.

Lemma get_vector_negative_never_none_witness :
  (exists e,
     VectorStore.get_vector foreign_memory filled_store (PInt (-1))
     = Raise e) /\
  (forall array,
     foreign_memory (VectorStore.index filled_store) (-1) = Ok array ->
     VectorStore.get_vector foreign_memory filled_store (PInt (-1))
     = Raise AssertionError) /\
  (forall e,
     foreign_memory (VectorStore.index filled_store) (-1) = Raise e ->
     VectorStore.get_vector foreign_memory filled_store (PInt (-1))
     = Raise e).
Proof.
  exact (get_vector_negative_never_none foreign_memory filled_store 1).
Defined.

Lemma get_vector_stored_id_raises_witness :
  VectorStore.get_vector foreign_memory filled_store (PInt 2)
  = Raise AssertionError.
Proof.
  apply (get_vector_stored_id_raises foreign_memory filled_store 2).
  vm_compute. split; [discriminate|reflexivity].
Defined.

Section SearchAfterDelete.

Import VectorStore.

Context {F : Type}.

Variable index_search :
  Faiss.index F -> list F -> Z -> result (list (pyfloat * Z)).
Variable reconstruct_unchecked : Faiss.index F -> Z -> result (list F).

(** An index without vectors has only empty slots to report. *)
Hypothesis empty_index_has_no_neighbour :
  forall ix query k found,
    Faiss.ntotal ix = 0 ->
    index_search ix query k = Ok found ->
    Forall (fun slot => snd slot = -1) found.

Lemma collect_hits_empty_slots (self : VectorStore.t F) filter_func found :
  Forall (fun slot => snd slot = -1) found ->
  collect_hits self filter_func found = Ok [].
Proof.
  induction 1 as [|[distance idx] found Hidx _ IH]; [reflexivity|].
  simpl in *. now rewrite Hidx.
Qed.

(** After a delete, [search] finds nothing: neither the deleted vector
    nor any of the others. *)
Lemma search_after_delete_finds_nothing (self self' : VectorStore.t F)
    vector_id query k filter_func hits :
  index_type self = "L2" \/ index_type self = "IP" ->
  Forall has_id (metadata self) ->
  delete_vector reconstruct_unchecked self vector_id = (Ok tt, self') ->
  search index_search self' query k filter_func = Ok hits ->
  hits = [].
Proof.
  intros Htype Hids Hdelete.
  destruct (delete_vector_leaves_empty_index reconstruct_unchecked
              self vector_id Htype Hids)
    as (s & Hs & Hempty & _).
  rewrite Hs in Hdelete. injection Hdelete as <-.
  unfold search.
  destruct (index_search (index s) query k) as [found|e] eqn:Hfound;
    [|discriminate].
  simpl. rewrite collect_hits_empty_slots by eauto. congruence.
Qed.

End SearchAfterDelete.

(** C4 fails as stated: [load] returns normally on [misaligned_disk] and
    leaves a store with two vectors and one metadata entry. *)
Lemma load_accepts_misaligned_files :
  ~ load_checks_alignment empty_store misaligned_disk.
Proof. vm_compute. discriminate. Qed.



(** The two ways the call fails: rows of a common wrong length are refused
    by the index, rows of different lengths by numpy.  On the store that
    loaded an index of dimension 2, a vector of the configured length 5 is
    refused. *)
Example add_vectors_configured_length_refused :
  VectorStore.add_vectors reloaded_store midnight [[1; 2; 3; 4; 5]] None
  = (Raise AssertionError, reloaded_store).
Proof. reflexivity. Qed.

(** The two ways the call fails: rows of a common wrong length are refused
    by the index, rows of different lengths by numpy. *)
Example add_vectors_wrong_length :
  VectorStore.add_vectors empty_store midnight [[1; 2; 3]] None
  = (Raise AssertionError, empty_store) /\
  VectorStore.add_vectors empty_store midnight [[1; 2]; [3; 4; 5]] None
  = (Raise ValueError, empty_store).
Proof. split; reflexivity. Qed.

(** ** The retriever *)

Lemma filterM_Ok {A} (p : A -> result bool) (l kept : list A) :
  filterM p l = Ok kept ->
  Forall (fun a => p a = Ok true) kept /\ sublist kept l.
Proof.
  revert kept. induction l as [|a l IH]; simpl; intros kept.
  - intros [= <-]. split; constructor.
  - destruct (p a) as [keep|e] eqn:Hp; [|discriminate]. simpl.
    destruct (filterM p l) as [rest|e]; [|discriminate]. simpl.
    intros [= <-]. destruct (IH rest eq_refl) as [Hall Hsub].
    destruct keep; split; trivial.
    + now constructor.
    + now apply sublist_skip.
    + now apply sublist_cons.
Qed.

Lemma list_slice_nil {A} (lo hi : option Z) :
  Py.list_slice (@nil A) lo hi = [].
Proof. unfold Py.list_slice. now rewrite drop_nil, take_nil. Qed.

(** A comprehension with a condition that can raise is the plain filter
    when every test can be made. *)
Lemma filterM_filter {A} (p : A -> result bool) (l kept : list A) :
  filterM p l = Ok kept ->
  kept = List.filter (fun a => match p a with Ok b => b | Raise _ => false end)
                     l /\
  Forall (fun a => exists b, p a = Ok b) l.
Proof.
  revert kept. induction l as [|a l IH]; simpl; intros kept.
  - intros [= <-]. split; constructor.
  - destruct (p a) as [keep|e] eqn:Hp; [|discriminate]. simpl.
    destruct (filterM p l) as [rest|e]; [|discriminate]. simpl.
    intros [= <-]. destruct (IH rest eq_refl) as [-> Hall].
    split; [now destruct keep|]. constructor; [eauto|exact Hall].
Qed.

Lemma filterM_returns {A} (p : A -> result bool) (l : list A) :
  Forall (fun a => exists b, p a = Ok b) l ->
  filterM p l
  = Ok (List.filter (fun a => match p a with Ok b => b | Raise _ => false end)
                    l).
Proof.
  induction 1 as [|a l [keep Hp] _ IH]; simpl; [reflexivity|].
  rewrite Hp, IH. simpl. now destruct keep.
Qed.

(** [l[:n]] for [n < 0] is [l] without its last [-n] elements. *)
Lemma list_slice_without_last {A} (l : list A) (n : Z) :
  n < 0 ->
  Py.list_slice l None (Some n) = take (length l - Z.to_nat (- n)) l.
Proof.
  intros Hn. unfold Py.list_slice, Py.adjust.
  destruct (Z.ltb_spec n 0) as [_|?]; [|lia].
  rewrite Z.sub_0_r. simpl. f_equal. lia.
Qed.

Section RetrieverFacts.

Import ContentRetriever.

Context {E : Type}.
Variable generate_embedding : string -> result E.
Variable generate_embeddings : list string -> result (list pyfloat).
Variable vector_store_search : E -> Z -> option dict -> result (list dict).
Variable float_repr : Q -> string.

Abbreviation retrieve :=
  (retrieve generate_embedding vector_store_search).
Abbreviation rerank_texts := (rerank_texts float_repr).
Abbreviation retrieve_with_reranking :=
  (retrieve_with_reranking generate_embedding generate_embeddings
     vector_store_search float_repr).

(** C6, amended: [retrieve] returns exactly the elements of the store's
    answer for n_results = (max_documents or self.max_documents) that pass
    result.get('similarity', 0) >= similarity_threshold, in the order of
    the answer; so every returned element passes the test.  It returns
    whenever the embedding service and the store do and every similarity
    compares with the threshold.  [retrieve] does not truncate: the result
    has at most n_results entries when the store honours n_results.  An
    argument max_documents that is omitted or 0 means the configured
    number. *)
Theorem retrieve_filters_the_store_answer (self : t) query filters
    max_docs :
  (forall returned : list dict,
     retrieve self query filters max_docs = Ok returned ->
     Forall (similar_enough self) returned /\
     (exists e found,
        generate_embedding query = Ok e /\
        vector_store_search e (Py.or_int max_docs (max_documents self))
          filters
        = Ok found /\
        returned = List.filter (passes self) found) /\
     (store_honours_n_results vector_store_search ->
      Z.of_nat (length returned)
      <= Z.max 0 (Py.or_int max_docs (max_documents self)))) /\
  (forall e found,
     generate_embedding query = Ok e ->
     vector_store_search e (Py.or_int max_docs (max_documents self)) filters
     = Ok found ->
     Forall (comparable self) found ->
     retrieve self query filters max_docs
     = Ok (List.filter (passes self) found)) /\
  (max_docs = None \/ max_docs = Some 0 ->
   Py.or_int max_docs (max_documents self) = max_documents self).
Proof.
  split; [|split].
  - intros returned. unfold ContentRetriever.retrieve.
    destruct (generate_embedding query) as [e|?] eqn:He; [|discriminate].
    simpl.
    destruct (vector_store_search e _ filters) as [found|?] eqn:Hfound;
      [|discriminate].
    simpl. intros Hfilter.
    destruct (filterM_Ok _ _ _ Hfilter) as [Hall Hsub].
    apply filterM_filter in Hfilter as [Hkept _].
    split; [exact Hall|]. split; [eauto|].
    intros Hstore. apply Hstore in Hfound.
    apply sublist_length in Hsub. lia.
  - intros e found He Hfound Hcomparable.
    unfold ContentRetriever.retrieve. rewrite He. simpl.
    rewrite Hfound. simpl. now apply filterM_returns.
  - now intros [-> | ->].
Qed.

(** C5, amended: when the first retrieval succeeded and the scorer raises
    on the texts it is given, [retrieve_with_reranking] returns normally
    with results[:n], the candidates in their retrieval order cut to
    n = (max_documents or self.max_documents): the first n candidates for
    n >= 0, all but the last -n for n < 0.  The number n is max_documents
    when that is given and not 0, and the configured number when it is
    omitted or 0. *)
Theorem reranking_failure_keeps_retrieval_order (self : t) query filters
    max_docs (results : list dict) :
  retrieve self query filters (Some (candidates self max_docs))
  = Ok results ->
  (forall texts,
     rerank_texts query results = Ok texts ->
     exists e, generate_embeddings texts = Raise e) ->
  let n := Py.or_int max_docs (max_documents self) in
  retrieve_with_reranking self query filters max_docs
  = Ok (Py.list_slice results None (Some n)) /\
  (0 <= n ->
   retrieve_with_reranking self query filters max_docs
   = Ok (take (Z.to_nat n) results)) /\
  (n < 0 ->
   retrieve_with_reranking self query filters max_docs
   = Ok (take (length results - Z.to_nat (- n)) results)) /\
  (max_docs = None \/ max_docs = Some 0 -> n = max_documents self) /\
  (forall m, max_docs = Some m -> m <> 0 -> n = m).
Proof.
  intros Hretrieve Hscorer n.
  assert (retrieve_with_reranking self query filters max_docs
          = Ok (Py.list_slice results None (Some n))) as Hcall.
  { unfold ContentRetriever.retrieve_with_reranking.
    rewrite Hretrieve. simpl.
    destruct results as [|r results]; [now rewrite list_slice_nil|].
    unfold _rerank_results, rerank_try.
    destruct (rerank_texts query (r :: results)) as [texts|?] eqn:Htexts;
      [|reflexivity].
    destruct (Hscorer texts eq_refl) as [e He]. simpl. now rewrite He. }
  split; [exact Hcall|]. split; [|split; [|split]].
  - intros Hn. now rewrite Hcall, list_slice_prefix.
  - intros Hn. now rewrite Hcall, list_slice_without_last.
  - subst n. now intros [-> | ->].
  - intros m -> Hm. subst n. simpl.
    now destruct (Z.eqb_spec m 0).
Qed.

End RetrieverFacts.

(** *** The retriever on concrete collaborators *)

Lemma best_of_corpus_honours_n_results :
  store_honours_n_results best_of_corpus.
Proof.
  intros e n filters found [= <-]. rewrite length_take. lia.
Qed.

(** C5 fails as stated: asked for max_documents = 0 with a scorer that is
    down, a retriever configured for 5 returns the three candidates of the
    first retrieval, not the first 0 of them. *)
Lemma reranking_failure_zero_means_default :
  ~ falls_back_to_first embed_ok scorer_down best_of_corpus example_repr
      five_at_most.
Proof.
  intros Hfirst.
  specialize (Hfirst "index rebuild" None 0
                [scored "alpha" (9 # 10); scored "beta" (8 # 10);
                 scored "gamma" (75 # 100)]).
  assert (Ok [scored "alpha" (9 # 10); scored "beta" (8 # 10);
              scored "gamma" (75 # 100)]
          = Ok (take (Z.to_nat 0)
                  [scored "alpha" (9 # 10); scored "beta" (8 # 10);
                   scored "gamma" (75 # 100)])) as Heq.
  { rewrite <- Hfirst.
    - vm_compute. reflexivity.
    - vm_compute. reflexivity.
    - intros texts. exists ServiceError. reflexivity. }
  discriminate Heq.
Qed.

Lemma reranking_failure_keeps_retrieval_order_witness :
  ContentRetriever.retrieve_with_reranking embed_ok scorer_down best_of_corpus
    example_repr two_at_most "index rebuild" None None
  = Ok (Py.list_slice
          [scored "alpha" (9 # 10); scored "beta" (8 # 10);
           scored "gamma" (75 # 100)] None (Some 2)) /\
  (0 <= 2 ->
   ContentRetriever.retrieve_with_reranking embed_ok scorer_down
     best_of_corpus example_repr two_at_most "index rebuild" None None
   = Ok [scored "alpha" (9 # 10); scored "beta" (8 # 10)]) /\
  (2 < 0 ->
   ContentRetriever.retrieve_with_reranking embed_ok scorer_down
     best_of_corpus example_repr two_at_most "index rebuild" None None
   = Ok (take (3 - Z.to_nat (- 2))
           [scored "alpha" (9 # 10); scored "beta" (8 # 10);
            scored "gamma" (75 # 100)])) /\
  (@None Z = None \/ @None Z = Some 0 ->
   2 = ContentRetriever.max_documents two_at_most) /\
  (forall m, @None Z = Some m -> m <> 0 -> 2 = m).
Proof.
  apply (reranking_failure_keeps_retrieval_order embed_ok scorer_down
           best_of_corpus example_repr two_at_most "index rebuild" None None
           [scored "alpha" (9 # 10); scored "beta" (8 # 10);
            scored "gamma" (75 # 100)]).
  - vm_compute. reflexivity.
  - intros texts _. exists ServiceError. reflexivity.
Defined.

(** C6 fails as stated: asked for max_documents = 0, a retriever configured
    for 5 queries the store for 5 results (0 is falsy, so the configured
    number is used) and returns the three that are similar enough. *)
Lemma retrieve_zero_means_default :
  ~ retrieve_meets_contract embed_ok best_of_corpus five_at_most.
Proof.
  intros Hcontract.
  destruct (Hcontract "index rebuild" None (Some 0)
              [scored "alpha" (9 # 10); scored "beta" (8 # 10);
               scored "gamma" (75 # 100)])
    as [_ Hlen]; [vm_compute; reflexivity|].
  vm_compute in Hlen. now apply Hlen.
Qed.

Lemma retrieve_filters_the_store_answer_witness :
  Forall (similar_enough five_at_most)
    [scored "alpha" (9 # 10); scored "beta" (8 # 10);
     scored "gamma" (75 # 100)] /\
  (exists e found,
     embed_ok "index rebuild" = Ok e /\
     best_of_corpus e
       (Py.or_int (Some 4) (ContentRetriever.max_documents five_at_most)) None
     = Ok found /\
     [scored "alpha" (9 # 10); scored "beta" (8 # 10);
     scored "gamma" (75 # 100)]
     = List.filter (passes five_at_most) found) /\
  (store_honours_n_results best_of_corpus ->
   Z.of_nat (length [scored "alpha" (9 # 10); scored "beta" (8 # 10);
     scored "gamma" (75 # 100)])
   <= Z.max 0
        (Py.or_int (Some 4) (ContentRetriever.max_documents five_at_most))).
Proof.
  apply (proj1 (retrieve_filters_the_store_answer embed_ok best_of_corpus
                  five_at_most "index rebuild" None (Some 4))).
  vm_compute. reflexivity.
Defined.

(** ** Further properties of the code *)

(** ** Whitespace: [strip] and the whitespace pattern *)

Lemma lstrip_split (l : list ascii) :
  exists dropped,
    l = (dropped ++ Py.lstrip l)%list /\ forallb Py.isspace dropped = true.
Proof.
  induction l as [|c l (dropped & Hl & Hws)]; [now exists []|].
  simpl. destruct (Py.isspace c) eqn:Hc.
  - exists (c :: dropped). simpl. rewrite Hc, Hws. split; [congruence|reflexivity].
  - now exists [].
Qed.

Lemma rstrip_split (l : list ascii) :
  exists dropped,
    l = (Py.rstrip l ++ dropped)%list /\ forallb Py.isspace dropped = true.
Proof.
  destruct (lstrip_split (rev l)) as (dropped & Hl & Hws).
  exists (rev dropped). split.
  - unfold Py.rstrip. rewrite <- rev_app_distr, <- Hl. now rewrite rev_involutive.
  - rewrite forallb_forall in *. intros c Hc. apply Hws. now apply in_rev.
Qed.

Lemma lstrip_starts_clean (l : list ascii) : starts_clean (Py.lstrip l).
Proof.
  induction l as [|c l IH]; simpl; [exact I|].
  destruct (Py.isspace c) eqn:Hc; [exact IH|exact Hc].
Qed.

Lemma lstrip_fixed (l : list ascii) : starts_clean l -> Py.lstrip l = l.
Proof. destruct l as [|c l]; simpl; [reflexivity|]. now intros ->. Qed.

Lemma rstrip_starts_clean (l : list ascii) :
  starts_clean l -> starts_clean (Py.rstrip l).
Proof.
  destruct (rstrip_split l) as (dropped & Hl & _).
  destruct (Py.rstrip l) as [|c r]; [intros; exact I|].
  rewrite Hl. simpl. trivial.
Qed.

Lemma rstrip_idempotent (l : list ascii) :
  Py.rstrip (Py.rstrip l) = Py.rstrip l.
Proof.
  unfold Py.rstrip. rewrite rev_involutive.
  now rewrite (lstrip_fixed _ (lstrip_starts_clean _)).
Qed.

(** [s.strip().strip()] is [s.strip()]. *)
Lemma strip_idempotent (s : string) : Py.strip (Py.strip s) = Py.strip s.
Proof.
  unfold Py.strip. rewrite chars_str_of.
  rewrite (lstrip_fixed (Py.rstrip _))
    by apply rstrip_starts_clean, lstrip_starts_clean.
  now rewrite rstrip_idempotent.
Qed.

Lemma length_lstrip (l : list ascii) : (length (Py.lstrip l) <= length l)%nat.
Proof.
  destruct (lstrip_split l) as (dropped & Hl & _).
  rewrite Hl at 2. rewrite length_app. lia.
Qed.

Lemma length_rstrip (l : list ascii) : (length (Py.rstrip l) <= length l)%nat.
Proof.
  destruct (rstrip_split l) as (dropped & Hl & _).
  rewrite Hl at 2. rewrite length_app. lia.
Qed.

Lemma len_str_of (l : list ascii) : Py.len (Py.str_of l) = Z.of_nat (length l).
Proof. unfold Py.len. now rewrite <- length_chars, chars_str_of. Qed.

(** Stripping never makes a string longer. *)
Lemma len_strip (s : string) : Py.len (Py.strip s) <= Py.len s.
Proof.
  unfold Py.strip. rewrite len_str_of.
  pose proof (length_rstrip (Py.lstrip (Py.chars s))).
  pose proof (length_lstrip (Py.chars s)).
  unfold Py.len. rewrite <- length_chars. lia.
Qed.

Lemma single_spaced_weaken (l : list ascii) :
  single_spaced true l = true -> single_spaced false l = true.
Proof.
  destruct l as [|c l]; simpl; [trivial|].
  destruct (Py.isspace c); [|trivial].
  rewrite andb_false_r. discriminate.
Qed.

Lemma single_spaced_any (b : bool) (l : list ascii) :
  single_spaced b l = true -> single_spaced false l = true.
Proof. destruct b; [apply single_spaced_weaken|trivial]. Qed.

Lemma single_spaced_suffix (b : bool) (p l : list ascii) :
  single_spaced b (p ++ l) = true -> single_spaced false l = true.
Proof.
  revert b. induction p as [|c p IH]; intros b; simpl.
  - apply single_spaced_any.
  - destruct (Py.isspace c).
    + intros H. apply andb_prop in H as [_ H]. now apply IH in H.
    + apply IH.
Qed.

Lemma single_spaced_prefix (b : bool) (l p : list ascii) :
  single_spaced b (l ++ p) = true -> single_spaced b l = true.
Proof.
  revert b. induction l as [|c l IH]; intros b; simpl; [trivial|].
  destruct (Py.isspace c).
  - intros H. apply andb_prop in H as [H1 H2].
    rewrite H1. now apply IH in H2.
  - apply IH.
Qed.

(** No two spaces in a row. *)
Lemma single_spaced_no_double (b : bool) (before after : list ascii) :
  single_spaced b (before ++ " "%char :: " "%char :: after) = false.
Proof.
  revert b. induction before as [|c before IH]; intros b; simpl.
  - now rewrite andb_false_r.
  - destruct (Py.isspace c); [|apply IH].
    rewrite IH. apply andb_false_r.
Qed.

(** Whitespace is the space character only. *)
Lemma single_spaced_only_spaces (b : bool) (l : list ascii) (c : ascii) :
  single_spaced b l = true -> In c l -> Py.isspace c = true -> c = " "%char.
Proof.
  revert b. induction l as [|d l IH]; intros b; simpl; [intros _ []|].
  destruct (Py.isspace d) eqn:Hd.
  - intros H [->|Hin] Hc.
    + apply andb_prop in H as [H _]. apply andb_prop in H as [H _].
      now apply Ascii.eqb_eq in H.
    + apply andb_prop in H as [_ H]. eauto.
  - intros H [->|Hin] Hc; [congruence|eauto].
Qed.

(** The whitespace pattern leaves single spaces only. *)
Lemma whitespace_sub_single_spaced (b : bool) (l : list ascii) :
  single_spaced b (Re.whitespace_sub b l) = true.
Proof.
  revert b. induction l as [|c l IH]; intros b; simpl; [reflexivity|].
  destruct (Py.isspace c) eqn:Hc.
  - destruct b; [apply IH|]. simpl. apply IH.
  - simpl. rewrite Hc. apply IH.
Qed.

(** On a text with single spaces only the substitution changes nothing. *)
Lemma whitespace_sub_fixed (b : bool) (l : list ascii) :
  single_spaced b l = true -> Re.whitespace_sub b l = l.
Proof.
  revert b. induction l as [|c l IH]; intros b; simpl; [reflexivity|].
  destruct (Py.isspace c).
  - intros H. apply andb_prop in H as [H Hl]. apply andb_prop in H as [Hc Hb].
    apply Ascii.eqb_eq in Hc as ->. destruct b; [discriminate|].
    now rewrite IH.
  - intros H. now rewrite IH.
Qed.

Lemma single_spaced_no_line_break (b : bool) (l : list ascii) :
  single_spaced b l = true -> no_line_break l.
Proof.
  intros H. apply Forall_forall. intros c Hc. apply list_elem_of_In in Hc.
  split; intros ->;
    now pose proof (single_spaced_only_spaces b l _ H Hc eq_refl).
Qed.

Lemma replace_crlf_fixed (l : list ascii) :
  no_line_break l -> Py.replace_crlf l = l.
Proof.
  induction 1 as [|c l [Hcr _] _ IH]; [reflexivity|].
  cbn [Py.replace_crlf]. destruct l as [|d l]; [reflexivity|].
  destruct (Ascii.eqb_spec c "013"); [contradiction|]. simpl andb. cbv iota.
  now rewrite IH.
Qed.

Lemma replace_cr_fixed (l : list ascii) :
  no_line_break l -> Py.replace_cr l = l.
Proof.
  unfold Py.replace_cr.
  induction 1 as [|c l [Hcr _] _ IH]; [reflexivity|]. simpl.
  destruct (Ascii.eqb_spec c "013"); [contradiction|]. now rewrite IH.
Qed.

Lemma split_chars_one_line (l : list ascii) :
  no_line_break l -> Py.split_chars DocumentProcessor.LF l = [l].
Proof.
  induction 1 as [|c l [_ Hlf] _ IH]; [reflexivity|]. simpl.
  destruct (Ascii.eqb_spec c DocumentProcessor.LF); [contradiction|].
  now rewrite IH.
Qed.

(** [_clean_text] is: collapse every run of whitespace into one space, then
    strip.  After the first step no line break is left, so the steps on
    line endings and empty lines find nothing to do. *)
Lemma clean_text_collapse_strip (text : string) :
  DocumentProcessor._clean_text text
  = Py.strip (Py.str_of (Re.whitespace_sub false (Py.chars text))).
Proof.
  unfold DocumentProcessor._clean_text.
  pose proof (single_spaced_no_line_break _ _
                (whitespace_sub_single_spaced false (Py.chars text))) as Hnl.
  set (c := Re.whitespace_sub false (Py.chars text)) in *.
  rewrite (replace_crlf_fixed c Hnl), (replace_cr_fixed c Hnl).
  unfold Py.split. rewrite chars_str_of, (split_chars_one_line c Hnl).
  simpl map.
  rewrite filter_cons, filter_nil.
  destruct (decide (Py.strip (Py.str_of c) <> "")) as [Hne|He].
  - reflexivity.
  - destruct (String.string_dec (Py.strip (Py.str_of c)) "") as [->|]; [reflexivity|contradiction].
Qed.

Lemma clean_text_chars (text : string) :
  exists left right,
    Re.whitespace_sub false (Py.chars text)
    = (left ++ Py.chars (DocumentProcessor._clean_text text) ++ right)%list /\
    forallb Py.isspace left = true /\ forallb Py.isspace right = true.
Proof.
  rewrite clean_text_collapse_strip. unfold Py.strip. rewrite !chars_str_of.
  set (c := Re.whitespace_sub false (Py.chars text)).
  destruct (lstrip_split c) as (left & Hl & Hleft).
  destruct (rstrip_split (Py.lstrip c)) as (right & Hr & Hright).
  exists left, right. now rewrite <- Hr, <- Hl.
Qed.

Lemma clean_text_single_spaced (text : string) :
  single_spaced false (Py.chars (DocumentProcessor._clean_text text)) = true.
Proof.
  destruct (clean_text_chars text) as (left & right & Hc & _).
  pose proof (whitespace_sub_single_spaced false (Py.chars text)) as H.
  rewrite Hc in H. apply single_spaced_suffix in H.
  now apply single_spaced_prefix in H.
Qed.

Lemma clean_text_stripped (text : string) :
  Py.strip (DocumentProcessor._clean_text text)
  = DocumentProcessor._clean_text text.
Proof. rewrite clean_text_collapse_strip. apply strip_idempotent. Qed.

(** The cleaned text is in normal form: its only whitespace characters are
    spaces, no two of them in a row, none at either end. *)
Theorem clean_text_normal_form (text : string) :
  (forall c, In c (Py.chars (DocumentProcessor._clean_text text)) ->
             Py.isspace c = true -> c = " "%char) /\
  (forall before after,
     Py.chars (DocumentProcessor._clean_text text)
     <> (before ++ " "%char :: " "%char :: after)%list) /\
  Py.strip (DocumentProcessor._clean_text text)
  = DocumentProcessor._clean_text text.
Proof.
  pose proof (clean_text_single_spaced text) as H.
  split; [|split].
  - intros c. now apply single_spaced_only_spaces with (b := false).
  - intros before after Heq. rewrite Heq in H.
    now rewrite single_spaced_no_double in H.
  - apply clean_text_stripped.
Qed.

(** Cleaning a cleaned text changes nothing. *)
Theorem clean_text_idempotent (text : string) :
  DocumentProcessor._clean_text (DocumentProcessor._clean_text text)
  = DocumentProcessor._clean_text text.
Proof.
  rewrite (clean_text_collapse_strip (DocumentProcessor._clean_text text)).
  rewrite whitespace_sub_fixed by apply clean_text_single_spaced.
  rewrite str_of_chars. apply clean_text_stripped.
Qed.

Lemma filter_all_space (l : list ascii) :
  forallb Py.isspace l = true ->
  List.filter (fun c => negb (Py.isspace c)) l = [].
Proof.
  induction l as [|c l IH]; simpl; [reflexivity|].
  intros H. apply andb_prop in H as [-> H]. simpl. auto.
Qed.

Lemma filter_whitespace_sub (b : bool) (l : list ascii) :
  List.filter (fun c => negb (Py.isspace c)) (Re.whitespace_sub b l)
  = List.filter (fun c => negb (Py.isspace c)) l.
Proof.
  revert b. induction l as [|c l IH]; intros b; simpl; [reflexivity|].
  destruct (Py.isspace c) eqn:Hc; simpl.
  - destruct b; simpl; apply IH.
  - rewrite Hc. simpl. now rewrite IH.
Qed.

(** Cleaning touches whitespace only: the other characters and their order
    are kept. *)
Theorem clean_text_keeps_other_characters (text : string) :
  without_whitespace (DocumentProcessor._clean_text text)
  = without_whitespace text.
Proof.
  unfold without_whitespace. f_equal.
  destruct (clean_text_chars text) as (left & right & Hc & Hleft & Hright).
  rewrite <- (filter_whitespace_sub false (Py.chars text)), Hc.
  rewrite !List.filter_app, (filter_all_space left Hleft),
    (filter_all_space right Hright).
  now rewrite app_nil_r.
Qed.

(** ** Chunks: what [_split_into_chunks] can return *)

Lemma length_list_slice {A} (l : list A) (lo hi : option Z) :
  (length (Py.list_slice l lo hi) <= length l)%nat.
Proof.
  unfold Py.list_slice. rewrite length_take, length_drop. lia.
Qed.

(** A slice is never longer than the string. *)
Lemma len_slice (s : string) (lo hi : option Z) :
  Py.len (Py.slice s lo hi) <= Py.len s.
Proof.
  unfold Py.slice. rewrite len_str_of.
  pose proof (length_list_slice (Py.chars s) lo hi).
  unfold Py.len. rewrite <- length_chars. lia.
Qed.

(** [s[a:b]] with [0 <= a] and [0 <= b] has at most [b - a] characters. *)
Lemma len_slice_between (s : string) (a b : Z) :
  0 <= a -> 0 <= b -> Py.len (Py.slice s (Some a) (Some b)) <= Z.max 0 (b - a).
Proof.
  intros Ha Hb. unfold Py.slice. rewrite len_str_of.
  unfold Py.list_slice, Py.adjust.
  destruct (Z.ltb_spec a 0); [lia|]. destruct (Z.ltb_spec b 0); [lia|].
  rewrite length_take. lia.
Qed.

(** [s[a:]] with [0 <= a <= len(s)] has [len(s) - a] characters. *)
Lemma len_slice_from (s : string) (a : Z) :
  0 <= a <= Py.len s -> Py.len (Py.slice s (Some a) None) = Py.len s - a.
Proof.
  intros Ha. unfold Py.slice. rewrite len_str_of.
  unfold Py.list_slice, Py.adjust.
  destruct (Z.ltb_spec a 0); [lia|].
  rewrite length_take, length_drop.
  unfold Py.len in *. rewrite <- length_chars in *. lia.
Qed.

Lemma sentence_scan_end (l : list ascii) (i a b : nat) :
  Re.sentence_scan l i = Some (a, b) -> (b <= i + length l)%nat.
Proof.
  revert i. induction l as [|c l IH]; intros i; [discriminate|].
  cbn [Re.sentence_scan].
  destruct (Re.sentence_here (c :: l)) as [n|] eqn:Hhere.
  - intros [= <- <-]. revert Hhere. unfold Re.sentence_here.
    set (k := Re.span Re.is_terminator (c :: l)).
    assert (forall p (m : list ascii), (Re.span p m <= length m)%nat) as Hspan.
    { intros p m. induction m as [|x m IHm]; simpl; [lia|].
      destruct (p x); simpl; lia. }
    pose proof (Hspan Re.is_terminator (c :: l)) as Hk. fold k in Hk.
    destruct k as [|k']; [discriminate|].
    set (after := drop (S k') (c :: l)).
    assert (length after = length (c :: l) - S k')%nat as Hafter
      by (unfold after; apply length_drop).
    set (q := match after with
              | x :: _ => if Re.is_quote x then 1%nat else 0%nat
              | [] => 0%nat
              end).
    assert (q <= length after)%nat as Hq
      by (unfold q; destruct after as [|x ?]; simpl; [lia|];
          destruct (Re.is_quote x); lia).
    pose proof (Hspan Py.isspace (drop q after)) as Hw.
    rewrite length_drop in Hw.
    destruct (Re.span Py.isspace (drop q after)) as [|w]; [discriminate|].
    intros [= <-]. simpl length in *. lia.
  - intros H. apply IH in H. simpl. lia.
Qed.

(** The end of a match lies inside the window. *)
Lemma sentence_search_end_le (text : string) (pos endpos a b : Z) :
  Re.sentence_search text pos endpos = Some (a, b) ->
  b <= Re.clip (Py.len text) endpos.
Proof.
  unfold Re.sentence_search.
  destruct (Re.sentence_scan _ _) as [[a' b']|] eqn:Hscan; [|discriminate].
  intros [= <- <-].
  pose proof (sentence_scan_bounds _ _ _ _ Hscan) as [H1 H2].
  apply sentence_scan_end in Hscan. rewrite length_take in Hscan.
  assert (0 <= Re.clip (Py.len text) endpos).
  { unfold Re.clip, Py.len.
    destruct (endpos <? 0) eqn:?; [lia|]. destruct (_ <? endpos) eqn:?; lia. }
  lia.
Qed.

(** The cut is never more than 100 characters after the nominal end. *)
Lemma cut_upper_bound (text : string) (nominal : Z) :
  DocumentProcessor.cut text nominal <= nominal + 100.
Proof.
  unfold DocumentProcessor.cut.
  destruct (Re.sentence_search text (nominal - 100) (nominal + 100))
    as [[a b]|] eqn:Hsearch; [|lia].
  pose proof (sentence_search_end _ _ _ _ _ Hsearch) as Hlow.
  apply sentence_search_end_le in Hsearch.
  unfold Re.clip in *.
  destruct (nominal + 100 <? 0) eqn:Hneg.
  - destruct (nominal - 100 <? 0) eqn:?; [lia|].
    destruct (Py.len text <? nominal - 100) eqn:?; lia.
  - destruct (Py.len text <? nominal + 100) eqn:?; lia.
Qed.

Lemma keep_chunk_in_bounds self chunks (piece : string) :
  Forall (chunk_in_bounds self) chunks ->
  Py.len piece <= DocumentProcessor.chunk_size self + 100 ->
  Forall (chunk_in_bounds self)
         (DocumentProcessor.keep_chunk self chunks (Py.strip piece)).
Proof.
  intros Hchunks Hlen. unfold DocumentProcessor.keep_chunk.
  destruct (Z.geb_spec (Py.len (Py.strip piece))
              (DocumentProcessor.min_chunk_size self)); [|exact Hchunks].
  apply Forall_app. split; [exact Hchunks|].
  constructor; [|constructor]. repeat split.
  - lia.
  - pose proof (len_strip piece). lia.
  - apply strip_idempotent.
Qed.

Lemma split_loop_in_bounds self text :
  0 <= DocumentProcessor.chunk_overlap self ->
  DocumentProcessor.chunk_overlap self + 98
    < DocumentProcessor.chunk_size self ->
  forall fuel start chunks result,
    0 <= start ->
    Forall (chunk_in_bounds self) chunks ->
    DocumentProcessor.split_loop self text fuel start chunks = Some result ->
    Forall (chunk_in_bounds self) result.
Proof.
  intros Hoverlap Hroom fuel.
  induction fuel as [|fuel IH]; intros start chunks result Hstart Hchunks;
    cbn [DocumentProcessor.split_loop];
    destruct (Z.ltb_spec start (Py.len text)) as [Hin|];
    try discriminate; try (now intros [= <-]).
  destruct (DocumentProcessor.loop_body self text start chunks)
    as [cs|start' cs] eqn:Hbody.
  - intros [= <-]. revert Hbody. unfold DocumentProcessor.loop_body.
    destruct (Z.geb_spec (start + DocumentProcessor.chunk_size self)
                (Py.len text)); [|discriminate].
    intros [= <-]. apply keep_chunk_in_bounds; [exact Hchunks|].
    rewrite len_slice_from by lia. lia.
  - pose proof (loop_body_progress _ _ _ _ _ _ Hroom Hbody) as Hprogress.
    apply IH; [lia|]. revert Hbody. unfold DocumentProcessor.loop_body.
    destruct (Z.geb_spec (start + DocumentProcessor.chunk_size self)
                (Py.len text)) as [|Hnominal]; [discriminate|].
    intros [= _ <-]. apply keep_chunk_in_bounds; [exact Hchunks|].
    pose proof (cut_lower_bound text _ Hnominal).
    pose proof (cut_upper_bound text
                  (start + DocumentProcessor.chunk_size self)).
    etransitivity; [apply len_slice_between; lia|]. lia.
Qed.

(** With 0 <= chunk_overlap and chunk_overlap + 98 < chunk_size, every
    chunk [_split_into_chunks] returns is stripped, has at least
    min_chunk_size characters and at most chunk_size + 100: the cut may
    move up to 100 characters past the nominal end, never further. *)
Theorem chunks_in_bounds self fuel (text : string) chunks :
  0 <= DocumentProcessor.chunk_overlap self ->
  DocumentProcessor.chunk_overlap self + 98
    < DocumentProcessor.chunk_size self ->
  DocumentProcessor._split_into_chunks self fuel text = Some chunks ->
  Forall (chunk_in_bounds self) chunks.
Proof.
  intros Hoverlap Hroom Hsplit.
  now apply (split_loop_in_bounds self text Hoverlap Hroom fuel 0 []
               chunks).
Qed.


Lemma split_loop_short_text self text :
  Py.len text < DocumentProcessor.min_chunk_size self ->
  forall fuel start result,
    DocumentProcessor.split_loop self text fuel start [] = Some result ->
    result = [].
Proof.
  intros Hshort.
  assert (forall lo hi,
            DocumentProcessor.keep_chunk self []
              (Py.strip (Py.slice text lo hi)) = []) as Hkeep.
  { intros lo hi. unfold DocumentProcessor.keep_chunk.
    pose proof (len_strip (Py.slice text lo hi)).
    pose proof (len_slice text lo hi).
    destruct (Z.geb_spec (Py.len (Py.strip (Py.slice text lo hi)))
                (DocumentProcessor.min_chunk_size self)); [lia|reflexivity]. }
  intros fuel. induction fuel as [|fuel IH]; intros start result;
    cbn [DocumentProcessor.split_loop];
    destruct (start <? Py.len text); try discriminate;
    try (now intros [= <-]).
  unfold DocumentProcessor.loop_body.
  destruct (_ >=? _); rewrite Hkeep; [now intros [= <-]|apply IH].
Qed.

(** A text shorter than min_chunk_size gives no chunk at all: whenever
    [_split_into_chunks] returns, it returns the empty list, and it returns
    on the first pass when the text fits in one window. *)
Theorem short_text_has_no_chunks self (text : string) :
  Py.len text < DocumentProcessor.min_chunk_size self ->
  (forall fuel chunks,
     DocumentProcessor._split_into_chunks self fuel text = Some chunks ->
     chunks = []) /\
  (Py.len text <= DocumentProcessor.chunk_size self ->
   forall fuel,
     DocumentProcessor._split_into_chunks self (S fuel) text = Some []).
Proof.
  intros Hshort.
  assert (forall fuel chunks,
            DocumentProcessor._split_into_chunks self fuel text = Some chunks ->
            chunks = []) as Hnone
    by (intros fuel chunks; apply split_loop_short_text; exact Hshort).
  split; [exact Hnone|].
  intros Hfit fuel. destruct text as [|c text]; [apply split_empty|].
  rewrite split_single_window; [|unfold Py.len; simpl; lia|exact Hfit].
  f_equal. eapply (Hnone (S fuel)).
  apply split_single_window; [unfold Py.len; simpl; lia|exact Hfit].
Qed.

(** ** [_find_overlap] and [merge_chunks] *)

Lemma chars_append (a b : string) :
  Py.chars (a +:+ b) = (Py.chars a ++ Py.chars b)%list.
Proof. induction a as [|c a IH]; simpl; [reflexivity|]. now rewrite IH. Qed.

Lemma str_of_app (a b : list ascii) :
  Py.str_of (a ++ b) = Py.str_of a +:+ Py.str_of b.
Proof. induction a as [|c a IH]; simpl; [reflexivity|]. now rewrite IH. Qed.

Lemma str_of_inj (a b : list ascii) : Py.str_of a = Py.str_of b -> a = b.
Proof. intros H. now rewrite <- (chars_str_of a), H, chars_str_of. Qed.

(** [s[-k:]] for [1 <= k <= len(s)] is the last [k] characters. *)
Lemma slice_last (s : string) (k : nat) :
  (1 <= k <= length (Py.chars s))%nat ->
  Py.slice s (Some (- Z.of_nat k)) None
  = Py.str_of (drop (length (Py.chars s) - k) (Py.chars s)).
Proof.
  intros Hk. unfold Py.slice, Py.list_slice, Py.adjust. f_equal.
  destruct (Z.ltb_spec (- Z.of_nat k) 0); [|lia].
  rewrite Z.max_r by lia.
  replace (Z.to_nat (- Z.of_nat k + Z.of_nat (length (Py.chars s))))
    with (length (Py.chars s) - k)%nat by lia.
  apply take_ge. rewrite length_drop. lia.
Qed.

(** [s[:k]] is the first [k] characters. *)
Lemma slice_first (s : string) (k : nat) :
  Py.slice s None (Some (Z.of_nat k)) = Py.str_of (take k (Py.chars s)).
Proof.
  unfold Py.slice. rewrite list_slice_prefix by lia. now rewrite Nat2Z.id.
Qed.

(** [s[k:]] is the string without its first [k] characters. *)
Lemma slice_without_first (s : string) (k : nat) :
  Py.slice s (Some (Z.of_nat k)) None = Py.str_of (drop k (Py.chars s)).
Proof.
  unfold Py.slice, Py.list_slice, Py.adjust. f_equal.
  destruct (Z.ltb_spec (Z.of_nat k) 0); [lia|].
  destruct (Nat.le_gt_cases k (length (Py.chars s))).
  - rewrite Z.min_l by lia. rewrite Nat2Z.id.
    apply take_ge. rewrite length_drop. lia.
  - rewrite Z.min_r by lia. rewrite Nat2Z.id, Z.sub_diag. simpl.
    now rewrite !drop_ge by lia.
Qed.

(** The loop of [_find_overlap], started at [n]: the largest size up to
    [n] at which the end of [text1] equals the start of [text2]. *)
Lemma overlap_from_spec (text1 text2 : string) (n : nat) :
  (n <= length (Py.chars text1))%nat ->
  exists r : nat,
    DocumentProcessor.overlap_from text1 text2 n = Z.of_nat r /\
    (r <= n)%nat /\
    drop (length (Py.chars text1) - r) (Py.chars text1)
    = take r (Py.chars text2) /\
    (r = 0%nat \/ length (take r (Py.chars text2)) = r) /\
    forall k, (r < k <= n)%nat ->
      drop (length (Py.chars text1) - k) (Py.chars text1)
      <> take k (Py.chars text2).
Proof.
  induction n as [|n IH]; intros Hn.
  - exists 0%nat. simpl. rewrite Nat.sub_0_r, drop_all, take_0.
    repeat split; auto; lia.
  - cbn [DocumentProcessor.overlap_from].
    rewrite slice_last, slice_first by lia.
    destruct (String.eqb_spec
                (Py.str_of (drop (length (Py.chars text1) - S n)
                              (Py.chars text1)))
                (Py.str_of (take (S n) (Py.chars text2)))) as [Heq|Hne].
    + apply str_of_inj in Heq. exists (S n). repeat split; auto; try lia.
      right. rewrite <- Heq, length_drop. lia.
    + destruct IH as (r & Hr & Hle & Hsame & Hlen & Hmax); [lia|].
      exists r. repeat split; auto.
      intros k Hk. destruct (Nat.eq_dec k (S n)) as [->|].
      * intros Heq. apply Hne. now rewrite Heq.
      * apply Hmax. lia.
Qed.

Lemma find_overlap_spec (text1 text2 : string) :
  exists o,
    is_overlap o text1 text2 /\
    Py.len o = DocumentProcessor._find_overlap text1 text2 /\
    forall o', is_overlap o' text1 text2 -> Py.len o' <= Py.len o.
Proof.
  unfold DocumentProcessor._find_overlap, Py.len.
  rewrite <- !length_chars, <- Nat2Z.inj_min, Nat2Z.id.
  destruct (overlap_from_spec text1 text2
              (Nat.min (length (Py.chars text1)) (length (Py.chars text2))))
    as (r & -> & Hle & Hsame & Hlen & Hmax); [lia|].
  set (l1 := Py.chars text1) in *. set (l2 := Py.chars text2) in *.
  exists (Py.str_of (take r l2)). split; [|split].
  - exists (Py.str_of (take (length l1 - r) l1)), (Py.str_of (drop r l2)).
    split.
    + rewrite <- Hsame, <- str_of_app, take_drop. symmetry. apply str_of_chars.
    + rewrite <- str_of_app, take_drop. symmetry. apply str_of_chars.
  - rewrite <- length_chars, chars_str_of, length_take.
    destruct Hlen as [->|Hlen]; [reflexivity|].
    rewrite length_take in Hlen. lia.
  - intros o' (before & after & H1 & H2).
    rewrite <- !length_chars, chars_str_of, length_take.
    set (k := length (Py.chars o')).
    destruct (Nat.le_gt_cases k r) as [|Hgt]; [lia|]. exfalso.
    assert (l1 = (Py.chars before ++ Py.chars o')%list) as Hl1
      by (unfold l1; now rewrite H1, chars_append).
    assert (l2 = (Py.chars o' ++ Py.chars after)%list) as Hl2
      by (unfold l2; now rewrite H2, chars_append).
    apply (Hmax k).
    + rewrite Hl1, Hl2, !length_app. fold k. lia.
    + rewrite Hl1, Hl2, length_app. fold k.
      replace (length (Py.chars before) + k - k)%nat
        with (length (Py.chars before)) by lia.
      rewrite drop_app_length. unfold k. now rewrite take_app_length.
Qed.

(** [_find_overlap] returns the length of the longest string that ends
    [text1] and begins [text2] (0 when only the empty string does). *)
Theorem find_overlap_longest (text1 text2 : string) :
  exists o,
    is_overlap o text1 text2 /\
    Py.len o = DocumentProcessor._find_overlap text1 text2 /\
    forall o', is_overlap o' text1 text2 -> Py.len o' <= Py.len o.
Proof. apply find_overlap_spec. Qed.

(** Merging two chunks: the longest string that ends the first and begins
    the second is dropped from the second, and the two are joined by one
    space. *)
Theorem merge_two_chunks (chunk1 chunk2 : string) :
  exists before o after,
    chunk1 = before +:+ o /\ chunk2 = o +:+ after /\
    (forall o', is_overlap o' chunk1 chunk2 -> Py.len o' <= Py.len o) /\
    DocumentProcessor.merge_chunks [chunk1; chunk2]
    = chunk1 +:+ " " +:+ after.
Proof.
  destruct (find_overlap_spec chunk1 chunk2)
    as (o & (before & after & H1 & H2) & Hlen & Hmax).
  exists before, o, after. repeat split; trivial.
  unfold DocumentProcessor.merge_chunks. cbn [DocumentProcessor.merge_loop].
  simpl List.last. rewrite <- Hlen. simpl app. cbn [Py.join]. do 2 f_equal.
  assert (Py.slice chunk2 (Some (Py.len o)) None = after) as Hrest.
  { unfold Py.len. rewrite slice_without_first, H2, chars_append.
    rewrite <- length_chars, drop_app_length. apply str_of_chars. }
  destruct (Z.eqb_spec (Py.len o) 0) as [Hzero|]; [|exact Hrest].
  rewrite <- Hrest, Hzero. symmetry. apply slice_from_0.
Qed.

(** *** Merging any number of chunks *)

Section Merging.

Import DocumentProcessor.

Lemma overlap_bound (o text1 text2 : string) :
  is_overlap o text1 text2 -> Py.len o <= _find_overlap text1 text2.
Proof.
  intros Ho. destruct (find_overlap_spec text1 text2) as (m & _ & <- & Hmax).
  now apply Hmax.
Qed.

(** [chunk[len(o):]] for a chunk that begins with [o]. *)
Lemma slice_after_overlap (o rest : string) :
  (if Py.len o =? 0 then o +:+ rest
   else Py.slice (o +:+ rest) (Some (Py.len o)) None)
  = rest.
Proof.
  assert (Py.slice (o +:+ rest) (Some (Py.len o)) None = rest) as Hrest.
  { unfold Py.len. rewrite slice_without_first, chars_append.
    rewrite <- length_chars, drop_app_length. apply str_of_chars. }
  destruct (Z.eqb_spec (Py.len o) 0) as [Hzero|]; [|exact Hrest].
  rewrite <- Hrest at 2. rewrite Hzero. symmetry. apply slice_from_0.
Qed.

Lemma last_snoc (l : list string) (x d : string) :
  List.last (l ++ [x]) d = x.
Proof. apply last_last. Qed.

(** The loop of [merge_chunks] on any chunks: what it appends are the
    chunks without their longest overlap with the piece appended before. *)
Lemma merge_loop_cuts (chunks : list string) :
  forall merged i,
    exists cuts,
      chunks = with_overlaps cuts /\
      unambiguous (List.last merged "") cuts /\
      merge_loop merged (S i) chunks = (merged ++ map snd cuts)%list.
Proof.
  induction chunks as [|chunk chunks IH]; intros merged i.
  - exists []. simpl. now rewrite app_nil_r.
  - destruct (find_overlap_spec (List.last merged "") chunk)
      as (o & (before & rest & Hprev & Hchunk) & Hlen & Hmax).
    destruct (IH (merged ++ [rest])%list (S i)) as (cuts & -> & Hcuts & Hrun).
    rewrite last_snoc in Hcuts.
    exists ((o, rest) :: cuts). split; [|split].
    + simpl. now rewrite Hchunk.
    + simpl. split; [now exists before|]. split; [|exact Hcuts].
      now rewrite <- Hchunk.
    + cbn [merge_loop]. rewrite <- Hlen, Hchunk.
      rewrite slice_after_overlap, Hrun, <- app_assoc. reflexivity.
Qed.

(** On a cut with unambiguous overlaps the loop appends the pieces. *)
Lemma merge_loop_unambiguous (cuts : list (string * string)) :
  forall merged i,
    unambiguous (List.last merged "") cuts ->
    merge_loop merged (S i) (with_overlaps cuts)
    = (merged ++ map snd cuts)%list.
Proof.
  induction cuts as [|[o piece] cuts IH]; intros merged i.
  - intros _. simpl. now rewrite app_nil_r.
  - intros ((before & Hprev) & Hmax & Hcuts).
    cbn [with_overlaps map fst snd merge_loop].
    assert (_find_overlap (List.last merged "") (o +:+ piece) = Py.len o)
      as ->.
    { apply Z.le_antisymm.
      - destruct (find_overlap_spec (List.last merged "") (o +:+ piece))
          as (m & Hm & <- & _). now apply Hmax.
      - apply overlap_bound. now exists before, piece. }
    rewrite slice_after_overlap.
    change (map (fun cut => fst cut +:+ snd cut) cuts)
      with (with_overlaps cuts).
    rewrite IH by (now rewrite last_snoc).
    now rewrite <- app_assoc.
Qed.

Lemma without_whitespace_app (a b : string) :
  without_whitespace (a +:+ b)
  = without_whitespace a +:+ without_whitespace b.
Proof.
  unfold without_whitespace.
  now rewrite chars_append, List.filter_app, str_of_app.
Qed.

(** The spaces [merge_chunks] joins the pieces with are whitespace. *)
Lemma without_whitespace_join (pieces : list string) :
  without_whitespace (Py.join " " pieces)
  = without_whitespace (Py.join "" pieces).
Proof.
  induction pieces as [|p [|q pieces] IH]; try reflexivity.
  change (Py.join " " (p :: q :: pieces))
    with (p +:+ " " +:+ Py.join " " (q :: pieces)).
  change (Py.join "" (p :: q :: pieces))
    with (p +:+ "" +:+ Py.join "" (q :: pieces)).
  rewrite !without_whitespace_app, IH. reflexivity.
Qed.

End Merging.

(** *** What [_split_into_chunks] returns on a cleaned text *)

Lemma single_spaced_adjacent (b : bool) (l : list ascii) (i : nat) :
  single_spaced b l = true ->
  space_at l i = true -> space_at l (S i) = false.
Proof.
  unfold space_at. revert i b.
  induction l as [|c t IH]; intros i b Hs; [now rewrite lookup_nil|].
  simpl in Hs. destruct i as [|i]; simpl.
  - intros Hc. rewrite Hc in Hs.
    apply andb_prop in Hs as [_ Hs].
    destruct t as [|c' t']; [reflexivity|]. simpl in *.
    destruct (Py.isspace c'); [|reflexivity].
    rewrite andb_false_r in Hs. discriminate.
  - destruct (Py.isspace c).
    + apply andb_prop in Hs as [_ Hs]. now apply (IH i true).
    + now apply (IH i false).
Qed.

Section Segments.

Variable l : list ascii.

Lemma seg_app (a b c : nat) :
  (a <= b <= c)%nat -> (seg l a b ++ seg l b c)%list = seg l a c.
Proof.
  intros H. unfold seg.
  replace (drop b l) with (drop (b - a) (drop a l))
    by (rewrite drop_drop; f_equal; lia).
  rewrite take_take_drop. f_equal. lia.
Qed.

Lemma seg_all : seg l 0 (length l) = l.
Proof. unfold seg. rewrite Nat.sub_0_r, drop_0. apply firstn_all. Qed.

Lemma seg_empty (a : nat) : seg l a a = [].
Proof. unfold seg. now rewrite Nat.sub_diag. Qed.

Lemma length_seg (a b : nat) :
  (b <= length l)%nat -> length (seg l a b) = (b - a)%nat.
Proof. intros H. unfold seg. rewrite length_take, length_drop. lia. Qed.

Lemma seg_cons (a b : nat) (c : ascii) :
  l !! a = Some c -> (a < b)%nat -> seg l a b = c :: seg l (S a) b.
Proof.
  intros Hc Hab. unfold seg. rewrite (drop_S _ _ _ Hc).
  replace (b - a)%nat with (S (b - S a)) by lia. reflexivity.
Qed.

Lemma seg_snoc (a b : nat) (c : ascii) :
  l !! b = Some c -> (a <= b)%nat ->
  seg l a (S b) = (seg l a b ++ [c])%list.
Proof.
  intros Hc Hab. rewrite <- (seg_app a b (S b)) by lia. f_equal.
  rewrite (seg_cons _ _ _ Hc) by lia. now rewrite seg_empty.
Qed.

Hypothesis single : single_spaced false l = true.

Lemma space_at_next (i : nat) :
  space_at l i = true -> space_at l (S i) = false.
Proof. exact (single_spaced_adjacent false l i single). Qed.

Lemma lstrip_seg (a b : nat) :
  (a + 2 <= b <= length l)%nat ->
  Py.lstrip (seg l a b) = seg l (a + lead l a) b.
Proof.
  intros Hab.
  destruct (l !! a) as [c|] eqn:Hc;
    [|apply lookup_ge_None in Hc; lia].
  destruct (l !! S a) as [c'|] eqn:Hc';
    [|apply lookup_ge_None in Hc'; lia].
  rewrite (seg_cons _ _ _ Hc) by lia.
  rewrite (seg_cons _ _ _ Hc') by lia.
  unfold lead. pose proof (space_at_next a) as Hnext.
  unfold space_at in *. rewrite Hc in *. rewrite Hc' in Hnext.
  simpl. destruct (Py.isspace c).
  - rewrite Hnext by reflexivity.
    replace (a + 1)%nat with (S a) by lia.
    now rewrite (seg_cons _ _ _ Hc') by lia.
  - rewrite Nat.add_0_r.
    rewrite (seg_cons _ _ _ Hc) by lia.
    now rewrite (seg_cons _ _ _ Hc') by lia.
Qed.

Lemma rstrip_snoc_clean (t : list ascii) (c : ascii) :
  Py.isspace c = false -> Py.rstrip (t ++ [c]) = (t ++ [c])%list.
Proof.
  intros Hc. unfold Py.rstrip. rewrite rev_app_distr. simpl.
  rewrite Hc. simpl. now rewrite rev_involutive.
Qed.

Lemma rstrip_snoc_space (t : list ascii) (c : ascii) :
  Py.isspace c = true -> Py.rstrip (t ++ [c]) = Py.rstrip t.
Proof.
  intros Hc. unfold Py.rstrip. rewrite rev_app_distr. simpl.
  now rewrite Hc.
Qed.

Lemma rstrip_seg (a b : nat) :
  (a < b <= length l)%nat ->
  (trail l b = 1%nat -> (a + 2 <= b)%nat) ->
  Py.rstrip (seg l a b) = seg l a (b - trail l b).
Proof.
  intros Hab Htwo. destruct b as [|b]; [lia|].
  destruct (l !! b) as [c|] eqn:Hc;
    [|apply lookup_ge_None in Hc; lia].
  rewrite (seg_snoc _ _ _ Hc) by lia.
  unfold trail in *. unfold space_at in *. rewrite Hc in *.
  destruct (Py.isspace c) eqn:Hsp.
  - specialize (Htwo eq_refl). rewrite rstrip_snoc_space by exact Hsp.
    destruct b as [|b]; [lia|].
    destruct (l !! b) as [c'|] eqn:Hc';
      [|apply lookup_ge_None in Hc'; lia].
    rewrite (seg_snoc _ _ _ Hc') by lia.
    assert (Py.isspace c' = false) as Hclean.
    { destruct (Py.isspace c') eqn:H'; [|reflexivity].
      pose proof (space_at_next b) as Hnext. unfold space_at in Hnext.
      rewrite Hc', Hc in Hnext. rewrite Hnext in Hsp by exact H'.
      discriminate. }
    rewrite rstrip_snoc_clean by exact Hclean.
    replace (S (S b) - 1)%nat with (S b) by lia.
    now rewrite (seg_snoc _ _ _ Hc') by lia.
  - rewrite rstrip_snoc_clean by exact Hsp.
    rewrite Nat.sub_0_r. now rewrite (seg_snoc _ _ _ Hc) by lia.
Qed.

(** [strip] on a window of at least two characters. *)
Lemma strip_seg (a b : nat) :
  (a + 2 <= b <= length l)%nat ->
  Py.rstrip (Py.lstrip (seg l a b)) = seg l (a + lead l a) (b - trail l b) /\
  (a + lead l a <= b - trail l b)%nat.
Proof.
  intros Hab. rewrite lstrip_seg by exact Hab.
  assert (lead l a <= 1)%nat as Hlead
    by (unfold lead; destruct (space_at l a); lia).
  assert (trail l b <= 1)%nat as Htrail
    by (unfold trail; destruct b; [lia|]; destruct (space_at l b); lia).
  assert (trail l b = 1%nat -> (a + lead l a + 2 <= b)%nat) as Htwo.
  { intros Ht. destruct (Nat.eq_dec (lead l a) 0%nat) as [->|]; [lia|].
    assert (lead l a = 1%nat) as Hl by lia. rewrite Hl.
    destruct (Nat.eq_dec b (a + 2)%nat) as [->|]; [|lia].
    exfalso. unfold lead in Hl. unfold trail in Ht.
    replace (a + 2)%nat with (S (S a)) in Ht by lia.
    destruct (space_at l a) eqn:Ha; [|discriminate].
    rewrite (space_at_next a Ha) in Ht. discriminate. }
  split; [|lia]. apply rstrip_seg; [lia|exact Htwo].
Qed.

End Segments.

Lemma last_cons {A} (a : A) (l : list A) (d : A) :
  List.last (a :: l) d = List.last l a.
Proof.
  revert a d. induction l as [|b l IH]; intros a d; [reflexivity|].
  change (List.last (a :: b :: l) d) with (List.last (b :: l) d).
  now rewrite !IH.
Qed.

Lemma cut_with_overlaps_snoc (cuts : list (string * string)) :
  forall previous o piece,
    cut_with_overlaps previous cuts ->
    (exists before, List.last (map snd cuts) previous = before +:+ o) ->
    cut_with_overlaps previous (cuts ++ [(o, piece)]).
Proof.
  induction cuts as [|[o1 p1] cuts IH]; intros previous o piece.
  - intros _ Hlast. split; [exact Hlast|exact I].
  - intros [Hfirst Hrest] Hlast. split; [exact Hfirst|].
    apply IH; [exact Hrest|].
    cbn [map snd] in Hlast. now rewrite last_cons in Hlast.
Qed.

Lemma append_assoc (a b c : string) : (a +:+ b) +:+ c = a +:+ (b +:+ c).
Proof.
  rewrite <- (str_of_chars ((a +:+ b) +:+ c)).
  rewrite <- (str_of_chars (a +:+ (b +:+ c))).
  now rewrite !chars_append, app_assoc.
Qed.

Lemma append_empty (a : string) : a +:+ "" = a.
Proof.
  rewrite <- (str_of_chars (a +:+ "")), chars_append. simpl.
  rewrite app_nil_r. apply str_of_chars.
Qed.

Lemma join_empty_app (pieces : list string) (piece : string) :
  Py.join "" (pieces ++ [piece]) = Py.join "" pieces +:+ piece.
Proof.
  induction pieces as [|p [|q pieces] IH]; try reflexivity.
  change (Py.join "" ((p :: q :: pieces) ++ [piece]))
    with (p +:+ "" +:+ Py.join "" ((q :: pieces) ++ [piece])).
  change (Py.join "" (p :: q :: pieces))
    with (p +:+ "" +:+ Py.join "" (q :: pieces)).
  rewrite IH. simpl. now rewrite append_assoc.
Qed.

Lemma with_overlaps_app (cuts : list (string * string)) o piece :
  with_overlaps (cuts ++ [(o, piece)])
  = (with_overlaps cuts ++ [o +:+ piece])%list.
Proof. unfold with_overlaps. now rewrite map_app. Qed.

Section SplitIsCut.

Import DocumentProcessor.

Variable self : DocumentProcessor.t.
Variable text : string.

Hypothesis min_nonneg : 0 <= min_chunk_size self.
Hypothesis overlap_room : min_chunk_size self + 2 <= chunk_overlap self.
Hypothesis window_room : 2 * chunk_overlap self + 98 <= chunk_size self.
Hypothesis single : single_spaced false (Py.chars text) = true.
Hypothesis stripped : Py.strip text = text.

Abbreviation T := (Py.chars text).
Abbreviation n := (length (Py.chars text)).

Lemma len_n : Py.len text = Z.of_nat n.
Proof. unfold Py.len. now rewrite length_chars. Qed.

Lemma slice_seg (a b : Z) :
  0 <= a <= b -> b <= Z.of_nat n ->
  Py.slice text (Some a) (Some b)
  = Py.str_of (seg T (Z.to_nat a) (Z.to_nat b)).
Proof.
  intros Hab Hb. unfold Py.slice, Py.list_slice, Py.adjust, seg.
  destruct (Z.ltb_spec a 0); [lia|]. destruct (Z.ltb_spec b 0); [lia|].
  rewrite (Z.min_l a), (Z.min_l b) by lia.
  now rewrite Z2Nat.inj_sub by lia.
Qed.

Lemma slice_seg_end (a : Z) :
  0 <= a <= Z.of_nat n ->
  Py.slice text (Some a) None = Py.str_of (seg T (Z.to_nat a) n).
Proof.
  intros Ha. unfold Py.slice, Py.list_slice, Py.adjust, seg.
  destruct (Z.ltb_spec a 0); [lia|].
  rewrite (Z.min_l a) by lia.
  now rewrite Z2Nat.inj_sub, Nat2Z.id by lia.
Qed.

Lemma strip_str (w : list ascii) :
  Py.strip (Py.str_of w) = Py.str_of (Py.rstrip (Py.lstrip w)).
Proof. unfold Py.strip. now rewrite chars_str_of. Qed.

Lemma cut_le_len (nominal : Z) :
  nominal < Py.len text -> cut text nominal <= Py.len text.
Proof.
  intros Hn. unfold cut.
  destruct (Re.sentence_search text (nominal - 100) (nominal + 100))
    as [[a b]|] eqn:Hs; [|lia].
  apply sentence_search_end_le in Hs. unfold Re.clip in Hs.
  pose proof len_n.
  destruct (_ <? 0); [lia|].
  destruct (Z.ltb_spec (Py.len text) (nominal + 100)); lia.
Qed.

(** A stripped text neither begins nor ends with whitespace. *)
Lemma clean_ends : lead T 0 = 0%nat /\ trail T n = 0%nat.
Proof.
  assert (Py.rstrip (Py.lstrip T) = T) as Hfix.
  { unfold Py.strip in stripped.
    now rewrite <- (chars_str_of (Py.rstrip _)), stripped. }
  assert (Py.lstrip T = T) as Hl.
  { destruct (lstrip_split T) as (dl & HT & _).
    pose proof (length_rstrip (Py.lstrip T)) as Hr. rewrite Hfix in Hr.
    apply (f_equal (@length ascii)) in HT. rewrite length_app in HT.
    destruct dl; [|simpl in HT; lia].
    destruct (lstrip_split T) as (dl' & HT' & _).
    rewrite HT' at 2.
    assert (dl' = []) as ->; [|reflexivity].
    apply (f_equal (@length ascii)) in HT'. rewrite length_app in HT'.
    destruct dl'; [reflexivity|simpl in HT'; lia]. }
  rewrite Hl in Hfix. split.
  - unfold lead, space_at. pose proof (lstrip_starts_clean T) as Hc.
    rewrite Hl in Hc. destruct T as [|c t]; [reflexivity|].
    simpl in *. now rewrite Hc.
  - unfold trail. destruct T as [|c t] eqn:HT using rev_ind;
      [reflexivity|].
    rewrite length_app. simpl.
    replace (length t + 1)%nat with (S (length t)) by lia.
    unfold space_at. rewrite lookup_app_r by lia.
    rewrite Nat.sub_diag. simpl.
    destruct (Py.isspace c) eqn:Hc; [|reflexivity].
    exfalso. rewrite rstrip_snoc_space in Hfix by exact Hc.
    pose proof (length_rstrip t) as Hlen. rewrite Hfix in Hlen.
    rewrite length_app in Hlen. simpl in Hlen. lia.
Qed.

Lemma lead_le (l : list ascii) (a : nat) : (lead l a <= 1)%nat.
Proof. unfold lead. destruct (space_at l a); lia. Qed.

Lemma trail_le (l : list ascii) (b : nat) : (trail l b <= 1)%nat.
Proof. unfold trail. destruct b; [lia|]. destruct (space_at l b); lia. Qed.

(** The chunk of a window of at least two characters. *)
Lemma window_chunk (a b : nat) :
  (a + 2 <= b <= n)%nat ->
  Py.strip (Py.str_of (seg T a b))
  = Py.str_of (seg T (a + lead T a) (b - trail T b)) /\
  (a + lead T a <= b - trail T b)%nat.
Proof.
  intros Hab. rewrite strip_str.
  destruct (strip_seg T single a b Hab) as [-> Hle]. now split.
Qed.

(** A chunk that starts inside the piece before it is an end of that
    piece followed by a new piece. *)
Lemma chunk_is_overlap_and_piece (a ep from to : nat)
    (cuts : list (string * string)) :
  (a <= from <= ep)%nat -> (ep <= to <= n)%nat ->
  Py.join "" (map snd cuts) = Py.str_of (seg T 0 ep) ->
  List.last (map snd cuts) "" = Py.str_of (seg T a ep) ->
  cut_with_overlaps "" cuts ->
  exists cuts',
    (with_overlaps cuts ++ [Py.str_of (seg T from to)])%list
    = with_overlaps cuts' /\
    Py.join "" (map snd cuts') = Py.str_of (seg T 0 to) /\
    List.last (map snd cuts') "" = Py.str_of (seg T ep to) /\
    cut_with_overlaps "" cuts'.
Proof.
  intros Hfrom Hto Hjoin Hlast Hcuts.
  exists (cuts ++ [(Py.str_of (seg T from ep), Py.str_of (seg T ep to))])%list.
  split; [|split; [|split]].
  - rewrite with_overlaps_app, <- str_of_app, seg_app by lia. reflexivity.
  - rewrite map_app. simpl. rewrite join_empty_app, Hjoin.
    rewrite <- str_of_app, seg_app by lia. reflexivity.
  - rewrite map_app. simpl. apply last_last.
  - apply cut_with_overlaps_snoc; [exact Hcuts|].
    exists (Py.str_of (seg T a from)).
    rewrite Hlast, <- str_of_app, seg_app by lia. reflexivity.
Qed.

Lemma step_nonfinal (s : Z) (a ep : nat) (cuts : list (string * string)) :
  0 <= s -> Z.of_nat a <= s ->
  (Z.to_nat s + lead T (Z.to_nat s) <= ep)%nat ->
  Z.of_nat ep <= s + chunk_overlap self ->
  s + chunk_size self < Py.len text ->
  Py.join "" (map snd cuts) = Py.str_of (seg T 0 ep) ->
  List.last (map snd cuts) "" = Py.str_of (seg T a ep) ->
  cut_with_overlaps "" cuts ->
  exists (s' : Z) (a' ep' : nat) cuts',
    loop_body self text s (with_overlaps cuts)
    = Again s' (with_overlaps cuts') /\
    s < s' /\ s' + chunk_overlap self <= Py.len text /\
    Z.of_nat a' <= s' /\
    (Z.to_nat s' + lead T (Z.to_nat s') <= ep')%nat /\
    Z.of_nat ep' <= s' + chunk_overlap self /\
    Py.join "" (map snd cuts') = Py.str_of (seg T 0 ep') /\
    List.last (map snd cuts') "" = Py.str_of (seg T a' ep') /\
    cut_with_overlaps "" cuts'.
Proof.
  intros Hs Ha Hep Hep' Hend Hjoin Hlast Hcuts.
  pose proof len_n as Hlen.
  pose proof (cut_lower_bound text (s + chunk_size self) Hend) as Hlow.
  pose proof (cut_le_len (s + chunk_size self) Hend) as Hup.
  set (e := cut text (s + chunk_size self)) in *.
  pose proof (lead_le T (Z.to_nat s)) as Hl.
  pose proof (trail_le T (Z.to_nat e)) as Hr.
  pose proof (lead_le T (Z.to_nat (e - chunk_overlap self))) as Hl'.
  destruct (window_chunk (Z.to_nat s) (Z.to_nat e)) as [Hchunk Hle]; [lia|].
  destruct (chunk_is_overlap_and_piece a ep
              (Z.to_nat s + lead T (Z.to_nat s))
              (Z.to_nat e - trail T (Z.to_nat e)) cuts)
    as (cuts' & Hcuts' & Hjoin' & Hlast' & Hcut'); try assumption; try lia.
  exists (e - chunk_overlap self), ep,
         (Z.to_nat e - trail T (Z.to_nat e))%nat, cuts'.
  split; [|repeat split; try assumption; lia].
  unfold loop_body.
  destruct (Z.geb_spec (s + chunk_size self) (Py.len text)) as [|_]; [lia|].
  fold e. rewrite slice_seg by lia. rewrite Hchunk.
  unfold keep_chunk. rewrite len_str_of, length_seg by lia.
  destruct (Z.geb_spec
              (Z.of_nat
                 (Z.to_nat e - trail T (Z.to_nat e)
                  - (Z.to_nat s + lead T (Z.to_nat s)))%nat)
              (min_chunk_size self)) as [_|]; [|lia].
  now rewrite Hcuts'.
Qed.

Lemma step_final (s : Z) (a ep : nat) (cuts : list (string * string)) :
  0 <= s -> Z.of_nat a <= s ->
  (Z.to_nat s + lead T (Z.to_nat s) <= ep)%nat ->
  Z.of_nat ep <= s + chunk_overlap self ->
  Py.len text <= s + chunk_size self ->
  s + chunk_overlap self <= Py.len text ->
  Py.join "" (map snd cuts) = Py.str_of (seg T 0 ep) ->
  List.last (map snd cuts) "" = Py.str_of (seg T a ep) ->
  cut_with_overlaps "" cuts ->
  exists cuts',
    loop_body self text s (with_overlaps cuts) = Break (with_overlaps cuts') /\
    Py.join "" (map snd cuts') = text /\
    cut_with_overlaps "" cuts'.
Proof.
  intros Hs Ha Hep Hep' Hend Hroom Hjoin Hlast Hcuts.
  pose proof len_n as Hlen.
  pose proof (lead_le T (Z.to_nat s)) as Hl.
  destruct clean_ends as [_ Htrail].
  destruct (window_chunk (Z.to_nat s) n) as [Hchunk Hle]; [lia|].
  rewrite Htrail, Nat.sub_0_r in Hchunk, Hle.
  destruct (chunk_is_overlap_and_piece a ep
              (Z.to_nat s + lead T (Z.to_nat s)) n cuts)
    as (cuts' & Hcuts' & Hjoin' & _ & Hcut'); try assumption; try lia.
  exists cuts'. split; [|split; [|exact Hcut']].
  - unfold loop_body.
    destruct (Z.geb_spec (s + chunk_size self) (Py.len text)) as [_|]; [|lia].
    rewrite slice_seg_end by lia. rewrite Hchunk.
    unfold keep_chunk. rewrite len_str_of, length_seg by lia.
    destruct (Z.geb_spec
                (Z.of_nat (n - (Z.to_nat s + lead T (Z.to_nat s)))%nat)
                (min_chunk_size self)) as [_|]; [|lia].
    now rewrite Hcuts'.
  - rewrite Hjoin', seg_all. apply str_of_chars.
Qed.

Lemma split_loop_is_cut (fuel : nat) :
  forall (s : Z) (a ep : nat) (cuts : list (string * string)) result,
    0 <= s -> Z.of_nat a <= s ->
    (Z.to_nat s + lead T (Z.to_nat s) <= ep)%nat ->
    Z.of_nat ep <= s + chunk_overlap self ->
    s + chunk_overlap self <= Py.len text ->
    Py.join "" (map snd cuts) = Py.str_of (seg T 0 ep) ->
    List.last (map snd cuts) "" = Py.str_of (seg T a ep) ->
    cut_with_overlaps "" cuts ->
    split_loop self text fuel s (with_overlaps cuts) = Some result ->
    exists cuts',
      result = with_overlaps cuts' /\
      Py.join "" (map snd cuts') = text /\
      cut_with_overlaps "" cuts'.
Proof.
  induction fuel as [|fuel IH];
    intros s a ep cuts result Hs Ha Hep Hep' Hroom Hjoin Hlast Hcuts;
    cbn [split_loop];
    (destruct (Z.ltb_spec s (Py.len text)) as [_|]; [|lia]);
    [discriminate|].
  destruct (Z.le_gt_cases (Py.len text) (s + chunk_size self)) as [Hend|Hend].
  - destruct (step_final s a ep cuts) as (cuts' & -> & Hjoin' & Hcut');
      try assumption.
    intros [= <-]. now exists cuts'.
  - destruct (step_nonfinal s a ep cuts)
      as (s' & a' & ep' & cuts' & -> & Hlt & Hroom' & Ha' & Hep2 & Hep3
          & Hjoin' & Hlast' & Hcut'); try assumption; try lia.
    apply (IH s' a' ep' cuts'); try assumption; lia.
Qed.

(** On a cleaned text of at least [min_chunk_size] characters the chunks
    are a cut of the text with overlaps. *)
Lemma split_is_cut (fuel : nat) (chunks : list string) :
  min_chunk_size self <= Py.len text ->
  _split_into_chunks self fuel text = Some chunks ->
  exists cuts,
    chunks = with_overlaps cuts /\
    Py.join "" (map snd cuts) = text /\
    cut_with_overlaps "" cuts.
Proof.
  intros Hmin. unfold _split_into_chunks.
  pose proof len_n as Hlen.
  destruct (0 <? Py.len text) eqn:Hcmp.
  2: { apply Z.ltb_ge in Hcmp.
       assert (split_loop self text fuel 0 [] = Some []) as ->
         by (destruct fuel; cbn [split_loop];
             destruct (Z.ltb_spec 0 (Py.len text)); (reflexivity || lia)).
       intros [= <-]. exists []. repeat split.
       destruct text; [reflexivity|].
       unfold Py.len in Hcmp. simpl in Hcmp. lia. }
  apply Z.ltb_lt in Hcmp.
  destruct fuel as [|fuel]; cbn [split_loop];
    (destruct (Z.ltb_spec 0 (Py.len text)) as [_|]; [|lia]);
    [discriminate|].
  destruct clean_ends as [Hlead _].
  destruct (Z.le_gt_cases (Py.len text) (chunk_size self)) as [Hend|Hend].
  - unfold loop_body. rewrite Z.add_0_l.
    destruct (Z.geb_spec (chunk_size self) (Py.len text)) as [_|]; [|lia].
    rewrite slice_from_0, stripped. unfold keep_chunk.
    destruct (Z.geb_spec (Py.len text) (min_chunk_size self)) as [_|]; [|lia].
    intros [= <-]. exists [("", text)]. simpl.
    repeat split. now exists "".
  - assert (Z.to_nat 0 + lead T (Z.to_nat 0) <= 0)%nat as Hstart
      by (change (Z.to_nat 0) with 0%nat; rewrite Hlead; lia).
    destruct (step_nonfinal 0 0 0 [] (Z.le_refl 0) (Z.le_refl 0) Hstart)
      as (s' & a' & ep' & cuts' & Hbody & Hlt & Hroom' & Ha' & Hep2 & Hep3
          & Hjoin' & Hlast' & Hcut');
      try reflexivity; try lia; try exact I.
    change (with_overlaps []) with (@nil string) in Hbody. rewrite Hbody.
    apply (split_loop_is_cut fuel s' a' ep' cuts'); try assumption; lia.
Qed.

End SplitIsCut.

Lemma append_empty_inv (a b : string) : "" = a +:+ b -> b = "".
Proof. destruct a; simpl; [auto|discriminate]. Qed.

Lemma merge_chunks_cuts (chunks : list string) :
  exists cuts,
    chunks = with_overlaps cuts /\
    unambiguous "" cuts /\
    DocumentProcessor.merge_chunks chunks = Py.join " " (map snd cuts).
Proof.
  destruct chunks as [|chunk chunks]; [now exists []|].
  destruct (merge_loop_cuts chunks [chunk] 0) as (cuts & -> & Hcuts & Hrun).
  exists (("", chunk) :: cuts). split; [reflexivity|]. split.
  - split; [now exists ""|]. split; [|exact Hcuts].
    intros o' (before & after & Hend & _).
    apply append_empty_inv in Hend. subst o'. reflexivity.
  - unfold DocumentProcessor.merge_chunks.
    cbn [DocumentProcessor.merge_loop]. simpl app. now rewrite Hrun.
Qed.

Lemma merge_chunks_unambiguous (cuts : list (string * string)) :
  unambiguous "" cuts ->
  DocumentProcessor.merge_chunks (with_overlaps cuts)
  = Py.join " " (map snd cuts).
Proof.
  destruct cuts as [|[o piece] cuts]; [reflexivity|].
  intros ((before & Hend) & _ & Hcuts).
  apply append_empty_inv in Hend. subst o.
  unfold DocumentProcessor.merge_chunks.
  cbn [with_overlaps map fst snd DocumentProcessor.merge_loop].
  simpl app. change (map (fun cut => fst cut +:+ snd cut) cuts)
    with (with_overlaps cuts).
  now rewrite merge_loop_unambiguous.
Qed.

(** C3, amended: for every configuration with 0 <= min_chunk_size,
    min_chunk_size + 2 <= chunk_overlap and
    2 * chunk_overlap + 98 <= chunk_size (the defaults 100, 200 and 1000
    satisfy it) and every cleaned text (text == _clean_text(text), which is
    what [process_document] chunks) of length >= min_chunk_size,
    [_split_into_chunks] returns, and what it returns is a cut of the text
    with overlaps: chunks o1+p1, ..., ok+pk where p1+...+pk is the text,
    o1 is empty and every later overlap ends the piece before it.
    [merge_chunks] applied to these chunks equals the text once whitespace
    is ignored, provided the overlaps are unambiguous, that is no string
    longer than an overlap both ends the piece before it and begins its
    chunk.  This is all [merge_chunks] can do: on any list of chunks it
    returns, joined by single spaces, every chunk without its longest
    beginning that also ends the piece appended before it.  A text that
    fits in one window (len(text) <= chunk_size) and whose stripped form
    has at least min_chunk_size characters is merged back to exactly
    text.strip(), under every configuration. *)
Theorem merge_undoes_unambiguous_cuts :
  (forall chunks : list string,
     exists cuts,
       chunks = with_overlaps cuts /\
       unambiguous "" cuts /\
       DocumentProcessor.merge_chunks chunks
       = Py.join " " (map snd cuts)) /\
  (forall cuts : list (string * string),
     unambiguous "" cuts ->
     DocumentProcessor.merge_chunks (with_overlaps cuts)
     = Py.join " " (map snd cuts) /\
     without_whitespace (DocumentProcessor.merge_chunks (with_overlaps cuts))
     = without_whitespace (Py.join "" (map snd cuts))) /\
  (forall (self : DocumentProcessor.t) (text : string),
     0 <= DocumentProcessor.min_chunk_size self ->
     DocumentProcessor.min_chunk_size self + 2
       <= DocumentProcessor.chunk_overlap self ->
     2 * DocumentProcessor.chunk_overlap self + 98
       <= DocumentProcessor.chunk_size self ->
     DocumentProcessor._clean_text text = text ->
     DocumentProcessor.min_chunk_size self <= Py.len text ->
     exists cuts,
       (forall fuel, (Z.to_nat (Py.len text) < fuel)%nat ->
          DocumentProcessor._split_into_chunks self fuel text
          = Some (with_overlaps cuts)) /\
       Py.join "" (map snd cuts) = text /\
       cut_with_overlaps "" cuts /\
       (unambiguous "" cuts ->
        without_whitespace
          (DocumentProcessor.merge_chunks (with_overlaps cuts))
        = without_whitespace text)) /\
  (forall (self : DocumentProcessor.t) (text : string),
     Py.len text <= DocumentProcessor.chunk_size self ->
     DocumentProcessor.min_chunk_size self <= Py.len (Py.strip text) ->
     exists chunks,
       (forall fuel,
          DocumentProcessor._split_into_chunks self (S fuel) text
          = Some chunks) /\
       DocumentProcessor.merge_chunks chunks = Py.strip text).
Proof.
  assert (forall cuts : list (string * string),
            unambiguous "" cuts ->
            DocumentProcessor.merge_chunks (with_overlaps cuts)
            = Py.join " " (map snd cuts) /\
            without_whitespace
              (DocumentProcessor.merge_chunks (with_overlaps cuts))
            = without_whitespace (Py.join "" (map snd cuts))) as Hundo.
  { intros cuts Hcuts.
    rewrite (merge_chunks_unambiguous cuts Hcuts).
    split; [reflexivity|apply without_whitespace_join]. }
  split; [exact merge_chunks_cuts|]. split; [exact Hundo|]. split.
  - intros self text Hmin Hoverlap Hwindow Hclean Hlen.
    assert (single_spaced false (Py.chars text) = true) as Hsingle
      by (rewrite <- Hclean; apply clean_text_single_spaced).
    assert (Py.strip text = text) as Hstrip
      by (rewrite <- Hclean; apply clean_text_stripped).
    destruct (split_loop_terminates self text) with
      (fuel := S (Z.to_nat (Py.len text))) (start := 0) (chunks := @nil string)
      as [chunks Hchunks]; [lia|rewrite Z.sub_0_r; lia|].
    destruct (split_is_cut self text Hmin Hoverlap Hwindow Hsingle Hstrip
                _ chunks Hlen Hchunks) as (cuts & -> & Hjoin & Hcut).
    exists cuts. split; [|split; [exact Hjoin|split; [exact Hcut|]]].
    + intros fuel Hfuel.
      replace fuel
        with (S (Z.to_nat (Py.len text))
              + (fuel - S (Z.to_nat (Py.len text))))%nat by lia.
      now apply split_loop_more_fuel.
    + intros Hcuts. destruct (Hundo cuts Hcuts) as [_ ->].
      now rewrite Hjoin.
  - intros self text Hfit Hmin.
    destruct text as [|c text].
    + exists []. split; [intros; apply split_empty | reflexivity].
    + exists [Py.strip (String c text)]. split; [|apply merge_single].
      intros fuel.
      rewrite split_single_window; [|unfold Py.len; simpl; lia|exact Hfit].
      unfold DocumentProcessor.keep_chunk.
      destruct (Z.geb_spec (Py.len (Py.strip (String c text)))
                  (DocumentProcessor.min_chunk_size self)); [reflexivity|lia].
Qed.

Ltac by_computation := vm_compute; first [reflexivity | discriminate].

Lemma merge_undoes_unambiguous_cuts_witness :
  (DocumentProcessor._split_into_chunks ten_wide 3 letters
   = Some (with_overlaps
             [("", "abcdefghij"); ("ij", "klmnopqr"); ("qr", "stuvwx")]) /\
   Py.join ""
     (map snd [("", "abcdefghij"); ("ij", "klmnopqr"); ("qr", "stuvwx")])
   = letters /\
   DocumentProcessor.merge_chunks
     (with_overlaps
        [("", "abcdefghij"); ("ij", "klmnopqr"); ("qr", "stuvwx")])
   = "abcdefghij klmnopqr stuvwx") /\
  (DocumentProcessor._clean_text numbered_words = numbered_words /\
   Py.len numbered_words = 1199 /\
   exists cuts,
     (forall fuel, (Z.to_nat (Py.len numbered_words) < fuel)%nat ->
        DocumentProcessor._split_into_chunks DocumentProcessor.default
          fuel numbered_words
        = Some (with_overlaps cuts)) /\
     Py.join "" (map snd cuts) = numbered_words /\
     cut_with_overlaps "" cuts /\
     (unambiguous "" cuts ->
      without_whitespace
        (DocumentProcessor.merge_chunks (with_overlaps cuts))
      = without_whitespace numbered_words)) /\
  (DocumentProcessor._split_into_chunks DocumentProcessor.default 1200
     numbered_words
   = Some (with_overlaps numbered_cuts) /\
   Py.join "" (map snd numbered_cuts) = numbered_words /\
   unambiguous "" numbered_cuts /\
   without_whitespace
     (DocumentProcessor.merge_chunks (with_overlaps numbered_cuts))
   = without_whitespace numbered_words).
Proof.
  split; [|split].
  - split; [by_computation|]. split; [reflexivity|].
    apply (proj1 (proj2 merge_undoes_unambiguous_cuts)
             [("", "abcdefghij"); ("ij", "klmnopqr"); ("qr", "stuvwx")]).
    repeat split;
      try (now exists ""); try (now exists "abcdefgh");
      try (now exists "klmnop");
      intros o' Ho'; apply overlap_bound in Ho'; vm_compute in Ho' |- *;
      exact Ho'.
  - split; [by_computation|]. split; [by_computation|].
    apply (proj1 (proj2 (proj2 merge_undoes_unambiguous_cuts))
             DocumentProcessor.default numbered_words); by_computation.
  - assert (unambiguous "" numbered_cuts) as Hcuts.
    { repeat split;
        try (now exists "");
        try (exists (Py.slice numbered_words None (Some 800));
             by_computation);
        intros o' Ho'; apply overlap_bound in Ho'; vm_compute in Ho' |- *;
        exact Ho'. }
    split; [by_computation|]. split; [by_computation|].
    split; [exact Hcuts|].
    rewrite (proj2 (proj1 (proj2 merge_undoes_unambiguous_cuts)
                      numbered_cuts Hcuts)).
    by_computation.
Defined.

(** ** [process_document] without metadata *)

(** Called with [metadata=None], [process_document] leaves every object the
    caller holds as it was: the metadata of the document is a new
    dictionary with the four processing keys and nothing else.  The
    document holds the cleaned content and the chunks of the cleaned
    content. *)
Theorem process_document_without_metadata
    (md5_hexdigest : string -> string) (float_repr : Q -> string)
    self fuel now_id now_update
    (h : heap) content doc h' :
  DocumentProcessor.process_document md5_hexdigest float_repr self fuel
    now_id now_update h content None = Some (doc, h') ->
  h !! DocumentProcessor.metadata doc = None /\
  h' !! DocumentProcessor.metadata doc
  = Some (<["total_chunks" :=
              PInt (Z.of_nat (length (DocumentProcessor.chunks doc)))]>
            (DocumentProcessor.processing_metadata self now_update)) /\
  (forall l, l <> DocumentProcessor.metadata doc -> h' !! l = h !! l) /\
  DocumentProcessor.content doc = DocumentProcessor._clean_text content /\
  DocumentProcessor._split_into_chunks self fuel
    (DocumentProcessor.content doc)
  = Some (DocumentProcessor.chunks doc).
Proof.
  unfold DocumentProcessor.process_document.
  destruct (DocumentProcessor._split_into_chunks self fuel
              (DocumentProcessor._clean_text content)) as [cs|] eqn:Hsplit;
    simpl; [|discriminate].
  intros [= <- <-]. simpl.
  assert (h !! fresh (dom h) = None) as Hfresh
    by (apply not_elem_of_dom, is_fresh).
  repeat split; trivial.
  - rewrite !lookup_alter_eq, lookup_insert_eq. simpl.
    unfold Val.update. now rewrite (right_id_L ∅ (∪)).
  - intros l Hl. now rewrite !lookup_alter_ne, lookup_insert_ne.
Qed.

(** ** The vector store: construction, metadata, search *)

Section VectorStoreMore.

Import VectorStore.

Context {F : Type}.
Implicit Types (self : VectorStore.t F).

(** [VectorStore(dimension, index_type)] succeeds for the index types L2
    and IP only, with an empty index of that dimension and no metadata; any
    other index type raises [ValueError].  The directory the constructor
    creates first is outside the model. *)
Theorem init_outcome (dimension : Z) (index_type : string) :
  match @__init__ F dimension index_type with
  | Ok self =>
      (index_type = "L2" \/ index_type = "IP") /\
      Faiss.xb (index self) = [] /\ metadata self = [] /\
      Faiss.d (index self) = dimension /\
      VectorStore.dimension self = dimension /\
      VectorStore.index_type self = index_type
  | Raise e => e = ValueError /\ index_type <> "L2" /\ index_type <> "IP"
  end.
Proof.
  unfold __init__, _init_index. simpl.
  destruct (String.eqb_spec index_type "L2") as [->|]; simpl; [auto 10|].
  destruct (String.eqb_spec index_type "IP") as [->|]; simpl; auto 10.
Qed.

Lemma set_metadata_same self : set_metadata self (metadata self) = self.
Proof. now destruct self. Qed.

Lemma update_first_unknown now (vector_id : Z) changes (metas : list dict) :
  Forall (has_other_id vector_id) metas ->
  update_first now vector_id changes metas = Ok metas.
Proof.
  induction 1 as [|meta metas (v & Hv & Hne) _ IH]; [reflexivity|].
  simpl. unfold Val.getitem. rewrite Hv. simpl. rewrite Hne, IH. reflexivity.
Qed.

(** [update_metadata] for an id that no entry carries changes nothing and
    does not raise. *)
Theorem update_metadata_unknown_id self now (vector_id : Z) changes :
  Forall (has_other_id vector_id) (metadata self) ->
  update_metadata self now vector_id changes = (Ok tt, self).
Proof.
  intros Hother. unfold update_metadata.
  rewrite update_first_unknown by exact Hother.
  now rewrite set_metadata_same.
Qed.

Lemma update_first_match now (vector_id : Z) changes
    (before after : list dict) (meta : dict) v :
  Forall (has_other_id vector_id) before ->
  meta !! "vector_id" = Some v ->
  Val.eq_int v vector_id = true ->
  exists after',
    update_first now vector_id changes (before ++ meta :: after)
    = Ok (before
          ++ <["updated_at" := PStr (DateTime.isoformat now)]>
               (changes ∪ meta) :: after')%list /\
    length after' = length after.
Proof.
  intros Hbefore Hv Heq.
  induction Hbefore as [|m before (w & Hw & Hne) _ (after' & IH & Hlen)];
    simpl.
  - unfold Val.getitem. rewrite Hv. simpl. rewrite Heq. now exists after.
  - unfold Val.getitem. rewrite Hw. simpl. rewrite Hne, IH.
    now exists after'.
Qed.

(** [update_metadata] changes the first entry that carries the id: the new
    keys are merged into it (they win over the old ones) and ['updated_at']
    is set.  The entries before it, the number of entries and the index
    stay as they were.  Of the entries after it nothing is said here: the
    dictionary is changed in place, so a later entry that is the same
    object changes with it. *)
Theorem update_metadata_first_match self now (vector_id : Z) changes
    (before after : list dict) (meta : dict) v :
  metadata self = (before ++ meta :: after)%list ->
  Forall (has_other_id vector_id) before ->
  meta !! "vector_id" = Some v ->
  Val.eq_int v vector_id = true ->
  exists self',
    update_metadata self now vector_id changes = (Ok tt, self') /\
    index self' = index self /\
    length (metadata self') = length (metadata self) /\
    take (length before) (metadata self') = before /\
    metadata self' !! length before
    = Some (<["updated_at" := PStr (DateTime.isoformat now)]>
              (changes ∪ meta)).
Proof.
  intros Hmetas Hbefore Hv Heq. unfold update_metadata. rewrite Hmetas.
  destruct (update_first_match now vector_id changes before after meta v
              Hbefore Hv Heq) as (after' & -> & Hlen).
  eexists. split; [reflexivity|]. simpl. repeat split.
  - rewrite !length_app. simpl. now rewrite Hlen.
  - now rewrite take_app_length.
  - now rewrite list_lookup_middle.
Qed.

End VectorStoreMore.

Section VectorStoreAdd.

Import VectorStore.

Context {F : Type}.
Implicit Types (self : VectorStore.t F).

Lemma range_from_lookup (start : Z) (n j : nat) :
  (j < n)%nat -> range_from start n !! j = Some (start + Z.of_nat j).
Proof.
  intros Hj. unfold range_from.
  change (map ?f ?l) with (f <$> l).
  rewrite list_lookup_fmap, lookup_seq_lt by exact Hj. reflexivity.
Qed.

Lemma range_from_length (start : Z) (n : nat) :
  length (range_from start n) = n.
Proof. unfold range_from. now rewrite length_map, length_seq. Qed.

(** Valid input: at least one vector, all of the index's dimension. *)
Lemma add_to_index (ix : Faiss.index F) (vectors : list (list F)) :
  vectors <> [] ->
  Forall (fun v => Z.of_nat (length v) = Faiss.d ix) vectors ->
  exists x,
    Faiss.np_array vectors = Ok x /\
    Faiss.array_len x = Z.of_nat (length vectors) /\
    Faiss.add ix x
    = Ok {| Faiss.d := Faiss.d ix; Faiss.metric_type := Faiss.metric_type ix;
            Faiss.xb := Faiss.xb ix ++ vectors |}.
Proof.
  intros Hne Hdim. destruct vectors as [|v rest]; [contradiction|].
  unfold Faiss.np_array.
  assert (forallb (fun w => Nat.eqb (length w) (length v)) rest = true) as ->.
  { apply forallb_forall. intros w Hw. apply Nat.eqb_eq.
    rewrite Forall_forall in Hdim.
    pose proof (Hdim v (list_elem_of_here _ _)).
    pose proof (Hdim w (list_elem_of_further _ _ _ (proj2 (list_elem_of_In _ _) Hw))).
    lia. }
  eexists. split; [reflexivity|]. split; [reflexivity|].
  unfold Faiss.add. inversion Hdim as [|? ? Hv _]; subst.
  rewrite Hv, Z.eqb_refl. reflexivity.
Qed.

(** The loop over the given metadata appends one entry per pass, and stops
    with [IndexError] at the first entry past the ids. *)
Lemma add_given_metadata_outcome clock (start : Z) (n : nat) given :
  forall (i : nat) self,
    (i <= n)%nat ->
    exists added,
      add_given_metadata clock (range_from start n) i given self
      = (if (i + length given <=? n)%nat then Ok tt else Raise IndexError,
         set_metadata self (metadata self ++ added)) /\
      length added = Nat.min (length given) (n - i).
Proof.
  induction given as [|meta given IH]; intros i self Hi.
  - exists []. simpl. rewrite app_nil_r, set_metadata_same.
    destruct (Nat.leb_spec (i + 0) n); [|lia].
    split; reflexivity.
  - cbn [add_given_metadata length].
    destruct (Nat.eq_dec i n) as [->|Hlt].
    + rewrite lookup_ge_None_2 by (rewrite range_from_length; lia).
      exists []. rewrite app_nil_r, set_metadata_same.
      destruct (Nat.leb_spec (n + S (length given)) n); [lia|].
      split; [reflexivity|cbn [length]; lia].
    + rewrite range_from_lookup by lia.
      destruct (IH (S i)
                  (set_metadata self
                     (metadata self
                      ++ [<["added_at" := PStr (DateTime.isoformat (clock i))]>
                            (<["vector_id" := PInt (start + Z.of_nat i)]>
                               meta)])))
        as (added & Hrun & Hlen); [lia|].
      eexists (_ :: added). split.
      * rewrite Hrun. simpl metadata. rewrite <- app_assoc. simpl app.
        replace (S i + length given)%nat with (i + S (length given))%nat
          by lia.
        reflexivity.
      * cbn [length]. rewrite Hlen. lia.
Qed.

Lemma fresh_metadata_lookup clock (start : Z) (n j : nat) meta :
  fresh_metadata clock (range_from start n) !! j = Some meta ->
  meta !! "vector_id" = Some (PInt (start + Z.of_nat j)) /\ (j < n)%nat.
Proof.
  unfold fresh_metadata. rewrite list_lookup_imap.
  destruct (range_from start n !! j) as [v|] eqn:Hv; [|discriminate].
  pose proof (lookup_lt_Some _ _ _ Hv) as Hj.
  rewrite range_from_length in Hj.
  rewrite range_from_lookup in Hv by exact Hj. injection Hv as <-.
  simpl. intros [= <-]. split; [|exact Hj]. apply lookup_insert_eq.
Qed.

Lemma ids_in_order_app self (added : list dict) :
  aligned self -> ids_in_order self ->
  (forall j meta, added !! j = Some meta ->
     meta !! "vector_id"
     = Some (PInt (Faiss.ntotal (index self) + Z.of_nat (0 + j)))) ->
  forall (i : nat) meta,
    (metadata self ++ added)%list !! i = Some meta ->
    meta !! "vector_id" = Some (PInt (Z.of_nat i)).
Proof.
  unfold aligned. intros Haligned Hold Hadded i meta.
  rewrite lookup_app.
  destruct (metadata self !! i) as [m|] eqn:Hi.
  - intros [= <-]. now apply Hold.
  - apply lookup_ge_None in Hi. intros Hm.
    rewrite (Hadded _ _ Hm), Haligned. do 2 f_equal. lia.
Qed.

(** [add_vectors] keeps the two lists in step: on a store where index
    positions and metadata entries line up one to one, a call without
    metadata, or with as many metadata entries as vectors, leaves such a
    store.  A call without metadata also keeps the ids in order: the
    entries it appends are new dictionaries that carry their positions.
    With metadata given the entries are the caller's own dictionaries, and
    what ids they carry in the end depends on whether these are distinct
    objects; nothing is said of it here. *)
Theorem add_vectors_keeps_alignment self clock
    (vectors : list (list F)) (given : option (list dict)) ids self' :
  aligned self ->
  match given with
  | Some metas => metas = [] \/ length metas = length vectors
  | None => True
  end ->
  add_vectors self clock vectors given = (Ok ids, self') ->
  aligned self' /\
  (ids_in_order self -> given = None \/ given = Some [] ->
   ids_in_order self').
Proof.
  intros Haligned Hgiven. unfold add_vectors, Faiss.np_array.
  destruct vectors as [|v rest]; [discriminate|].
  destruct (forallb _ rest); [|discriminate].
  unfold Faiss.add. destruct (_ =? _); [|discriminate].
  cbn [Faiss.array_len]. rewrite Nat2Z.id.
  set (vectors := v :: rest) in *.
  set (ix := {| Faiss.d := _; Faiss.metric_type := _; Faiss.xb := _ |}).
  assert (Faiss.ntotal ix
          = Faiss.ntotal (index self) + Z.of_nat (length vectors)) as Hcount
    by (unfold Faiss.ntotal, ix; cbn [Faiss.xb]; rewrite length_app; lia).
  assert (forall added : list dict,
            length added = length vectors ->
            aligned (set_metadata (set_index self ix)
                       (metadata self ++ added))) as Hstep.
  { intros added Hlen.
    unfold aligned in *. simpl. rewrite Hcount, length_app, Haligned. lia. }
  assert (aligned (set_metadata (set_index self ix)
                     (metadata self
                      ++ fresh_metadata clock
                           (range_from (Faiss.ntotal (index self))
                              (length vectors)))) /\
          (ids_in_order self ->
           ids_in_order (set_metadata (set_index self ix)
                     (metadata self
                      ++ fresh_metadata clock
                           (range_from (Faiss.ntotal (index self))
                              (length vectors)))))) as Hfresh.
  { split.
    - apply Hstep. unfold fresh_metadata.
      now rewrite length_imap, range_from_length.
    - intros Hold. unfold ids_in_order. simpl.
      apply ids_in_order_app; [exact Haligned|exact Hold|].
      intros j meta Hm. now apply fresh_metadata_lookup in Hm as [-> _]. }
  destruct given as [[|meta metas]|].
  - intros [= _ <-]. split; [apply Hfresh|intros Hold _; now apply Hfresh].
  - destruct Hgiven as [|Hlen]; [discriminate|].
    destruct (add_given_metadata_outcome clock (Faiss.ntotal (index self))
                (length vectors) (meta :: metas) 0 (set_index self ix))
      as (added & -> & Hadded); [lia|].
    assert ((0 + length (meta :: metas) <=? length vectors)%nat = true)
      as -> by (apply Nat.leb_le; lia).
    intros [= _ <-]. split; [apply Hstep; rewrite Hadded; lia|].
    intros _ [|]; discriminate.
  - intros [= _ <-]. split; [apply Hfresh|intros Hold _; now apply Hfresh].
Qed.

(** With more metadata entries than vectors [add_vectors] raises
    [IndexError] after the fact: the vectors are in the index and one
    metadata entry per vector was appended before the entry without an id
    was reached. *)
Theorem add_vectors_too_much_metadata self clock
    (vectors : list (list F)) (metas : list dict) :
  vectors <> [] ->
  Forall (fun v => Z.of_nat (length v) = Faiss.d (index self)) vectors ->
  (length vectors < length metas)%nat ->
  exists self',
    add_vectors self clock vectors (Some metas) = (Raise IndexError, self') /\
    Faiss.xb (index self') = (Faiss.xb (index self) ++ vectors)%list /\
    length (metadata self')
    = (length (metadata self) + length vectors)%nat.
Proof.
  intros Hne Hdim Hmore. unfold add_vectors.
  destruct (add_to_index (index self) vectors Hne Hdim)
    as (x & -> & Hlen & ->).
  rewrite Hlen, Nat2Z.id.
  destruct metas as [|meta metas]; [simpl in Hmore; lia|].
  set (ix := {| Faiss.d := _; Faiss.metric_type := _; Faiss.xb := _ |}).
  destruct (add_given_metadata_outcome clock (Faiss.ntotal (index self))
              (length vectors) (meta :: metas) 0 (set_index self ix))
    as (added & -> & Hadded); [lia|].
  destruct (Nat.leb_spec (0 + length (meta :: metas)) (length vectors));
    [lia|].
  eexists. split; [reflexivity|]. simpl. split; [reflexivity|].
  rewrite length_app, Hadded. lia.
Qed.

End VectorStoreAdd.

Section VectorStoreSearch.

Import VectorStore.

Context {F : Type}.
Implicit Types (self : VectorStore.t F).

Variable index_search :
  Faiss.index F -> list F -> Z -> result (list (pyfloat * Z)).

(** [next(...)] answers with the first entry that carries the id. *)
Lemma find_metadata_first (metas : list dict) (idx : Z) (m : dict) :
  find_metadata metas idx = Ok (Some m) ->
  m ∈ metas /\
  exists v, m !! "vector_id" = Some v /\ Val.eq_int v idx = true.
Proof.
  induction metas as [|meta metas IH]; [discriminate|].
  cbn [find_metadata]. unfold Val.getitem at 1.
  destruct (meta !! "vector_id") as [v|] eqn:Hv; [|discriminate]. simpl.
  destruct (Val.eq_int v idx) eqn:Heq.
  - intros [= <-]. split; [left|]. now exists v.
  - intros Hm. destruct (IH Hm) as [Hin Hid]. split; [now right|exact Hid].
Qed.

Lemma collect_hits_sound self filter_func (found : list (pyfloat * Z)) :
  forall hits,
    collect_hits self filter_func found = Ok hits ->
    Forall (sound_hit self filter_func) hits /\
    sublist (map (fun h => (hit_distance h, hit_vector_id h)) hits) found.
Proof.
  induction found as [|[distance idx] found IH]; intros hits.
  - intros [= <-]. split; constructor.
  - cbn [collect_hits]. destruct (Z.eqb_spec idx (-1)) as [->|Hidx].
    + intros Hrest. destruct (IH _ Hrest) as [Hsound Hsub].
      split; [exact Hsound|now apply sublist_cons].
    + destruct (find_metadata (metadata self) idx) as [meta|e] eqn:Hmeta;
        [|discriminate]. simpl.
      destruct (collect_hits self filter_func found) as [rest|e] eqn:Hrest;
        [|discriminate]. simpl.
      destruct (IH _ eq_refl) as [Hsound Hsub].
      assert (Ok rest = Ok hits ->
              Forall (sound_hit self filter_func) hits /\
              sublist (map (fun h => (hit_distance h, hit_vector_id h)) hits)
                ((distance, idx) :: found)) as Hskip.
      { intros [= <-]. split; [exact Hsound|now apply sublist_cons]. }
      destruct meta as [m|]; [|exact Hskip].
      destruct (negb (bool_decide (m = ∅))
                && match filter_func with
                   | Some keep => keep m
                   | None => true
                   end) eqn:Hkeep; [|exact Hskip].
      intros [= <-]. apply andb_prop in Hkeep as [_ Hkeep].
      destruct (find_metadata_first _ _ _ Hmeta) as [Hin Hid].
      split.
      * constructor; [|exact Hsound].
        repeat split; simpl; try assumption.
        intros keep ->. exact Hkeep.
      * simpl. now apply sublist_skip.
Qed.

(** What [search] returns: every hit names a slot the index reported, in
    the order reported and with its distance, and never an empty slot; the
    metadata of a hit is an entry of the store that carries the id of the
    hit and passes the filter.  So there are at most as many hits as
    slots. *)
Theorem search_hits_are_sound self (query_vector : list F) (k : Z)
    filter_func (hits : list hit) :
  search index_search self query_vector k filter_func = Ok hits ->
  exists found,
    index_search (index self) query_vector k = Ok found /\
    sublist (map (fun h => (hit_distance h, hit_vector_id h)) hits) found /\
    Forall (sound_hit self filter_func) hits /\
    (length hits <= length found)%nat.
Proof.
  unfold search.
  destruct (index_search (index self) query_vector k) as [found|e];
    [|discriminate].
  simpl. intros Hhits. apply collect_hits_sound in Hhits as [Hsound Hsub].
  exists found. repeat split; try assumption.
  apply sublist_length in Hsub. now rewrite length_map in Hsub.
Qed.

End VectorStoreSearch.

(** ** Reranking *)

Lemma float_lt_false_ge (x y : pyfloat) :
  is_number x -> is_number y ->
  Val.float_lt x y = false -> Val.float_ge x y = true.
Proof.
  unfold is_number. destruct x, y; try congruence; simpl;
    intros _ _ H; now apply negb_false_iff in H.
Qed.

Lemma float_lt_true_ge (x y : pyfloat) :
  Val.float_lt x y = true -> Val.float_ge y x = true.
Proof.
  destruct x as [a|[]|], y as [b|[]|]; simpl; try discriminate; trivial.
  intros H. apply negb_true_iff in H.
  destruct (Qle_bool a b) eqn:Hab; [reflexivity|].
  assert (~ (b <= a)%Q) by (rewrite <- Qle_bool_iff; congruence).
  assert (~ (a <= b)%Q) by (rewrite <- Qle_bool_iff; congruence).
  destruct (Qlt_le_dec a b) as [Hlt|Hle]; [|contradiction].
  apply Qlt_le_weak in Hlt. contradiction.
Qed.

Lemma float_ge_trans (x y z : pyfloat) :
  Val.float_ge x y = true -> Val.float_ge y z = true ->
  Val.float_ge x z = true.
Proof.
  destruct x as [a|[]|], y as [b|[]|], z as [c|[]|]; simpl;
    try discriminate; trivial.
  rewrite !Qle_bool_iff. intros H1 H2. now apply Qle_trans with b.
Qed.

Section RetrieverMore.

Import ContentRetriever.

Context {E : Type}.
Variable generate_embedding : string -> result E.
Variable generate_embeddings : list string -> result (list pyfloat).
Variable vector_store_search : E -> Z -> option dict -> result (list dict).
Variable vector_store_get_document : string -> result (option dict).
Variable float_repr : Q -> string.

Abbreviation retrieve' :=
  (retrieve generate_embedding vector_store_search).
Abbreviation rerank_texts := (rerank_texts float_repr).
Abbreviation _rerank_results' :=
  (_rerank_results generate_embeddings float_repr).
Abbreviation retrieve_similar' :=
  (retrieve_similar generate_embedding vector_store_search
     vector_store_get_document).
Abbreviation retrieve_with_reranking' :=
  (retrieve_with_reranking generate_embedding generate_embeddings
     vector_store_search float_repr).

Lemma insert_scored_perm (x : dict * pyfloat) l :
  insert_scored x l ≡ₚ x :: l.
Proof.
  induction l as [|y l IH]; simpl; [reflexivity|].
  destruct (Val.float_lt (snd x) (snd y)); [|reflexivity].
  rewrite IH. apply Permutation_swap.
Qed.

Lemma sort_scored_perm l : sort_scored l ≡ₚ l.
Proof.
  unfold sort_scored. induction l as [|x l IH]; simpl; [reflexivity|].
  now rewrite insert_scored_perm, IH.
Qed.

Lemma insert_scored_sorted (x : dict * pyfloat) l :
  is_number (snd x) -> Forall (fun y => is_number (snd y)) l ->
  StronglySorted score_ge l -> StronglySorted score_ge (insert_scored x l).
Proof.
  intros Hx Hl Hsorted. induction Hsorted as [|y l Hsorted IH Hy]; simpl.
  - repeat constructor.
  - inversion Hl as [|? ? Hny Hnl]; subst.
    destruct (Val.float_lt (snd x) (snd y)) eqn:Hlt.
    + constructor; [now apply IH|].
      rewrite insert_scored_perm. constructor; [|exact Hy].
      now apply float_lt_true_ge.
    + constructor; [now constructor|].
      assert (score_ge x y) as Hxy by now apply float_lt_false_ge.
      constructor; [exact Hxy|].
      eapply Forall_impl; [exact Hy|].
      intros z Hz. unfold score_ge in *. now apply float_ge_trans with (snd y).
Qed.

Lemma sort_scored_sorted l :
  Forall (fun y => is_number (snd y)) l ->
  StronglySorted score_ge (sort_scored l).
Proof.
  unfold sort_scored. induction 1 as [|x l Hx Hl IH]; simpl; [constructor|].
  apply insert_scored_sorted; [exact Hx| |exact IH].
  fold (sort_scored l). now rewrite sort_scored_perm.
Qed.

Lemma fst_zip_take {A B} (l : list A) (k : list B) :
  (zip l k).*1 = take (length k) l.
Proof.
  revert k. induction l as [|a l IH]; intros [|b k]; simpl; trivial.
  now rewrite IH.
Qed.

Lemma snd_zip_sub {A B} (l : list A) (k : list B) (P : B -> Prop) :
  Forall P k -> Forall (fun y => P (snd y)) (zip l k).
Proof.
  intros Hk. revert l. induction Hk as [|b k Hb _ IH]; intros [|a l]; simpl;
    constructor; auto.
Qed.

(** [_rerank_results] invents no candidate: what it returns is made of
    candidates it was given, each at most as often. *)
Lemma rerank_results_submseteq query (results : list dict) :
  _rerank_results' query results ⊆+ results.
Proof.
  unfold _rerank_results, rerank_try.
  destruct (rerank_texts query results) as [texts|]; [|reflexivity]. simpl.
  destruct (generate_embeddings texts) as [scores|]; [|reflexivity]. simpl.
  change (map fst ?l) with (l.*1).
  rewrite sort_scored_perm, fst_zip_take.
  apply sublist_submseteq, sublist_take.
Qed.

(** When the scorer answers, with scores that are numbers:
    [_rerank_results] returns the candidates that got a score (zip stops at
    the shorter list, so candidates past the last score are dropped),
    rearranged so that the scores never increase along the list. *)
Theorem rerank_orders_by_score query (results : list dict) texts scores :
  rerank_texts query results = Ok texts ->
  generate_embeddings texts = Ok scores ->
  Forall is_number scores ->
  exists scored : list (dict * pyfloat),
    _rerank_results' query results = scored.*1 /\
    scored ≡ₚ zip results scores /\
    StronglySorted score_ge scored /\
    _rerank_results' query results ≡ₚ take (length scores) results.
Proof.
  intros Htexts Hscores Hnum. unfold _rerank_results, rerank_try.
  rewrite Htexts. simpl. rewrite Hscores. simpl.
  exists (sort_scored (zip results scores)).
  split; [reflexivity|]. split; [apply sort_scored_perm|].
  split; [now apply sort_scored_sorted, snd_zip_sub|].
  change (map fst ?l) with (l.*1).
  now rewrite sort_scored_perm, fst_zip_take.
Qed.

(** Whatever the scorer does, a result of [retrieve_with_reranking] is a
    candidate of the first retrieval, so it passes the similarity
    threshold, and for n = (max_documents or self.max_documents) >= 0 at
    most n results are returned. *)
Theorem reranking_keeps_threshold_and_count (self : t) query filters
    max_docs (returned : list dict) :
  retrieve_with_reranking' self query filters max_docs = Ok returned ->
  Forall (similar_enough self) returned /\
  (exists results,
     retrieve' self query filters (Some (candidates self max_docs))
     = Ok results /\
     returned ⊆+ results) /\
  (0 <= Py.or_int max_docs (max_documents self) ->
   Z.of_nat (length returned) <= Py.or_int max_docs (max_documents self)).
Proof.
  unfold ContentRetriever.retrieve_with_reranking.
  destruct (retrieve' self query filters (Some (candidates self max_docs)))
    as [results|] eqn:Hretrieve; [|discriminate].
  simpl. intros Hreturned.
  assert (returned
          = Py.list_slice (_rerank_results' query results) None
              (Some (Py.or_int max_docs (max_documents self)))) as ->.
  { destruct results; [|congruence].
    injection Hreturned as <-.
    unfold _rerank_results, rerank_try. simpl.
    destruct (generate_embeddings []) as [scores|]; simpl;
      now rewrite ?list_slice_nil. }
  clear Hreturned.
  assert (Py.list_slice (_rerank_results' query results) None
            (Some (Py.or_int max_docs (max_documents self))) ⊆+ results)
    as Hsub.
  { etransitivity; [|apply rerank_results_submseteq].
    unfold Py.list_slice. rewrite drop_0.
    apply sublist_submseteq, sublist_take. }
  split; [|split].
  - unfold ContentRetriever.retrieve in Hretrieve.
    destruct (generate_embedding query); [|discriminate]. simpl in Hretrieve.
    destruct (vector_store_search _ _ _); [|discriminate].
    simpl in Hretrieve. apply filterM_Ok in Hretrieve as [Hall _].
    rewrite Forall_forall in Hall |- *.
    intros r Hr. apply Hall. eapply elem_of_submseteq; eassumption.
  - exists results. split; [reflexivity|exact Hsub].
  - intros Hn. rewrite list_slice_prefix by exact Hn.
    rewrite length_take. lia.
Qed.

(** [retrieve_similar]: for a document the store does not know, or knows
    as an empty record, the answer is the empty list, and neither the
    embedding service nor the search is asked; whenever the call returns,
    every result passes the similarity threshold, and a non-empty answer
    comes from a [retrieve] without filters whose query is the text of the
    stored document.  The document itself is not removed from the
    results. *)
Theorem retrieve_similar_outcome (self : t) document_id max_docs :
  (vector_store_get_document document_id = Ok None \/
   vector_store_get_document document_id = Ok (Some ∅) ->
   retrieve_similar' self document_id max_docs = Ok []) /\
  (forall returned,
     retrieve_similar' self document_id max_docs = Ok returned ->
     Forall (similar_enough self) returned /\
     (returned = [] \/
      exists document text,
        vector_store_get_document document_id = Ok (Some document) /\
        document !! "document" = Some (PStr text) /\
        retrieve' self text None max_docs = Ok returned)).
Proof.
  unfold ContentRetriever.retrieve_similar. split.
  - intros [-> | ->]; reflexivity.
  - intros returned.
    destruct (vector_store_get_document document_id) as [[document|]|];
      simpl; [|intros [= <-]; split; [constructor|now left]|discriminate].
    destruct (bool_decide (document = ∅));
      [intros [= <-]; split; [constructor|now left]|].
    unfold Val.getitem.
    destruct (document !! "document") as [[| | | |text]|] eqn:Hdoc; simpl;
      try discriminate.
    intros Hreturned. split; [|right; now exists document, text].
    revert Hreturned. unfold ContentRetriever.retrieve.
    destruct (generate_embedding text); [|discriminate]. simpl.
    destruct (vector_store_search _ _ _); [|discriminate]. simpl.
    intros Hreturned. now apply filterM_Ok in Hreturned as [Hall _].
Qed.

End RetrieverMore.

(** *** The further properties on concrete data *)

Lemma chunks_in_bounds_witness :
  Forall (chunk_in_bounds note_taker)
    ["The index is rebuilt after every delete. Callers must not keep ids."].
Proof.
  apply (chunks_in_bounds note_taker 1 short_note).
  - vm_compute. discriminate.
  - vm_compute. reflexivity.
  - vm_compute. reflexivity.
Defined.

Lemma short_text_has_no_chunks_witness :
  (forall fuel chunks,
     DocumentProcessor._split_into_chunks note_taker fuel "abc" = Some chunks ->
     chunks = []) /\
  (Py.len "abc" <= DocumentProcessor.chunk_size note_taker ->
   forall fuel,
     DocumentProcessor._split_into_chunks note_taker (S fuel) "abc"
     = Some []).
Proof.
  apply (short_text_has_no_chunks note_taker "abc").
  vm_compute. reflexivity.
Defined.

Lemma process_document_without_metadata_witness :
  caller_heap !! 3%positive = None /\
  <[3%positive :=
      <["total_chunks" := PInt 1]>
        (DocumentProcessor.processing_metadata note_taker one_second_later)]>
    caller_heap !! 3%positive
  = Some (<["total_chunks" := PInt 1]>
            (DocumentProcessor.processing_metadata note_taker
               one_second_later)) /\
  (forall l, l <> 3%positive ->
     <[3%positive :=
         <["total_chunks" := PInt 1]>
           (DocumentProcessor.processing_metadata note_taker
              one_second_later)]>
       caller_heap !! l
     = caller_heap !! l) /\
  "hello" = DocumentProcessor._clean_text "  hello " /\
  DocumentProcessor._split_into_chunks note_taker 1 "hello" = Some ["hello"].
Proof.
  apply (process_document_without_metadata example_digest example_repr
           note_taker 1
           new_year one_second_later caller_heap "  hello " fresh_document
           (<[3%positive :=
                <["total_chunks" := PInt 1]>
                  (DocumentProcessor.processing_metadata note_taker
                     one_second_later)]>
              caller_heap)).
  vm_compute. reflexivity.
Defined.

Lemma update_metadata_unknown_id_witness :
  VectorStore.update_metadata labelled_store new_year 7
    {[ "label" := PStr "z" ]}
  = (Ok tt, labelled_store).
Proof.
  apply (update_metadata_unknown_id labelled_store new_year 7).
  repeat constructor; eexists; (split; [vm_compute; reflexivity|reflexivity]).
Defined.

Lemma update_metadata_first_match_witness :
  exists self',
    VectorStore.update_metadata labelled_store new_year 1
      {[ "label" := PStr "z" ]}
    = (Ok tt, self') /\
    VectorStore.index self' = VectorStore.index labelled_store /\
    length (VectorStore.metadata self')
    = length (VectorStore.metadata labelled_store) /\
    take (length [ ({[ "vector_id" := PInt 0; "label" := PStr "a" ]} : dict) ])
      (VectorStore.metadata self')
    = [ ({[ "vector_id" := PInt 0; "label" := PStr "a" ]} : dict) ] /\
    VectorStore.metadata self'
      !! length [ ({[ "vector_id" := PInt 0; "label" := PStr "a" ]} : dict) ]
    = Some (<["updated_at" := PStr (DateTime.isoformat new_year)]>
              (({[ "label" := PStr "z" ]} : dict)
               ∪ {[ "vector_id" := PInt 1; "label" := PStr "b" ]})).
Proof.
  apply (update_metadata_first_match labelled_store new_year 1
           {[ "label" := PStr "z" ]}
           [ ({[ "vector_id" := PInt 0; "label" := PStr "a" ]} : dict) ]
           [ ({[ "vector_id" := PInt 1; "label" := PStr "c" ]} : dict) ]
           {[ "vector_id" := PInt 1; "label" := PStr "b" ]} (PInt 1)).
  - reflexivity.
  - repeat constructor. eexists.
    split; [vm_compute; reflexivity|reflexivity].
  - vm_compute. reflexivity.
  - reflexivity.
Defined.

Lemma add_vectors_keeps_alignment_witness :
  aligned filled_store /\
  (ids_in_order empty_store ->
   @None (list dict) = None \/ @None (list dict) = Some [] ->
   ids_in_order filled_store).
Proof.
  apply (add_vectors_keeps_alignment empty_store midnight
           [[1; 2]; [3; 4]; [5; 6]] None [0; 1; 2] filled_store).
  - reflexivity.
  - exact I.
  - vm_compute. reflexivity.
Defined.

Lemma add_vectors_too_much_metadata_witness :
  exists self',
    VectorStore.add_vectors empty_store midnight [[1; 2]]
      (Some [ ({[ "label" := PStr "a" ]} : dict);
              ({[ "label" := PStr "b" ]} : dict) ])
    = (Raise IndexError, self') /\
    Faiss.xb (VectorStore.index self')
    = (Faiss.xb (VectorStore.index empty_store) ++ [[1; 2]])%list /\
    length (VectorStore.metadata self')
    = (length (VectorStore.metadata empty_store) + length [[1; 2]])%nat.
Proof.
  apply (add_vectors_too_much_metadata empty_store midnight [[1; 2]]
           [ ({[ "label" := PStr "a" ]} : dict);
             ({[ "label" := PStr "b" ]} : dict) ]).
  - discriminate.
  - repeat constructor.
  - simpl. lia.
Defined.

Lemma delete_vector_on_built_store_witness :
  exists self',
    VectorStore.delete_vector foreign_memory filled_store 1
    = (Ok tt, self') /\
    Faiss.ntotal (VectorStore.index self') = 0 /\
    VectorStore.metadata self'
    = List.filter (survives 1) (VectorStore.metadata filled_store).
Proof.
  apply (delete_vector_on_built_store foreign_memory filled_store 1).
  apply (built_add empty_store midnight [[1; 2]; [3; 4]; [5; 6]] None
           (Ok [0; 1; 2]) filled_store).
  - apply (built_init 2 "L2" empty_store). reflexivity.
  - vm_compute. reflexivity.
Defined.

Lemma search_hits_are_sound_witness :
  exists found,
    two_neighbours (VectorStore.index labelled_store) [1; 2] 3 = Ok found /\
    sublist [ (Finite 0, 1); (Finite 8, 0) ] found /\
    Forall (sound_hit labelled_store None)
      [ {| VectorStore.hit_vector_id := 1;
           VectorStore.hit_distance := Finite 0;
           VectorStore.hit_metadata :=
             {[ "vector_id" := PInt 1; "label" := PStr "b" ]} |};
        {| VectorStore.hit_vector_id := 0;
           VectorStore.hit_distance := Finite 8;
           VectorStore.hit_metadata :=
             {[ "vector_id" := PInt 0; "label" := PStr "a" ]} |} ] /\
    (2 <= length found)%nat.
Proof.
  apply (search_hits_are_sound two_neighbours labelled_store [1; 2] 3 None
           [ {| VectorStore.hit_vector_id := 1;
                VectorStore.hit_distance := Finite 0;
                VectorStore.hit_metadata :=
                  {[ "vector_id" := PInt 1; "label" := PStr "b" ]} |};
             {| VectorStore.hit_vector_id := 0;
                VectorStore.hit_distance := Finite 8;
                VectorStore.hit_metadata :=
                  {[ "vector_id" := PInt 0; "label" := PStr "a" ]} |} ]).
  vm_compute. reflexivity.
Defined.

Lemma rerank_orders_by_score_witness :
  exists scored_results : list (dict * pyfloat),
    ContentRetriever._rerank_results longest_first example_repr "q"
      [ scored "beta" (8 # 10); scored "alpha" (9 # 10) ]
    = scored_results.*1 /\
    scored_results
    ≡ₚ zip [ scored "beta" (8 # 10); scored "alpha" (9 # 10) ]
           [ Finite 12; Finite 13 ] /\
    StronglySorted score_ge scored_results /\
    ContentRetriever._rerank_results longest_first example_repr "q"
      [ scored "beta" (8 # 10); scored "alpha" (9 # 10) ]
    ≡ₚ take (length [ Finite 12; Finite 13 ])
         [ scored "beta" (8 # 10); scored "alpha" (9 # 10) ].
Proof.
  apply (rerank_orders_by_score longest_first example_repr "q"
           [ scored "beta" (8 # 10); scored "alpha" (9 # 10) ]
           [ "q [SEP] beta"; "q [SEP] alpha" ] [ Finite 12; Finite 13 ]).
  - vm_compute. reflexivity.
  - vm_compute. reflexivity.
  - repeat constructor; discriminate.
Defined.

Lemma reranking_keeps_threshold_and_count_witness :
  Forall (similar_enough two_at_most)
    [ scored "alpha" (9 # 10); scored "gamma" (75 # 100) ] /\
  (exists results,
     ContentRetriever.retrieve embed_ok best_of_corpus two_at_most "q" None
       (Some (ContentRetriever.candidates two_at_most None))
     = Ok results /\
     [ scored "alpha" (9 # 10); scored "gamma" (75 # 100) ] ⊆+ results) /\
  (0 <= Py.or_int None (ContentRetriever.max_documents two_at_most) ->
   Z.of_nat (length [ scored "alpha" (9 # 10); scored "gamma" (75 # 100) ])
   <= Py.or_int None (ContentRetriever.max_documents two_at_most)).
Proof.
  apply (reranking_keeps_threshold_and_count embed_ok longest_first
           best_of_corpus example_repr two_at_most "q" None None
           [ scored "alpha" (9 # 10); scored "gamma" (75 # 100) ]).
  vm_compute. reflexivity.
Defined.
